(** * Price aggregation backend: source fallback and reconciliation

    A shallow embedding of the scraping and persistence core of the backend
    ([app/scraper/engine.py], [app/scraper/currency.py], [app/main.py],
    [app/endpoints/admin.py], [app/endpoints/gold.py], [app/models.py]) and
    the properties of it that the specification states, followed by further
    properties read off the code.

    Conventions of the embedding.
    - Prices are Python floats.  The modelled code only stores them, compares
      them with each other and with the constants 0, 500, 15000 and 20000,
      takes [max]/[min] of two of them and (in one read endpoint) adds an
      offset; they are represented by exact integers.
    - Instants ([datetime]) are integers.
    - A dictionary built by an adapter is a record; a key read with
      [p.get(k)] is an [option] field, a key read with [p[k]] a plain field.
    - A table is the list of its rows in the order the store returns them;
      [.first()] is the first row that passes the filter.
    - A store round trip may raise; this is driven by a budget of round
      trips carried by the session. *)

From Stdlib Require Import ZArith List String Ascii Bool Lia DecimalString DecimalZ.
From Stdlib Require Import Sorted Permutation.
Import ListNotations.

Local Open Scope string_scope.
Local Open Scope list_scope.
Local Open Scope Z_scope.

Definition price := Z.
Definition datetime := Z.

(** ** Python built-ins used by the code *)

Module Py.

(** [str.isspace] on the ASCII range. *)
Definition is_space (c : ascii) : bool :=
  let n := nat_of_ascii c in
  (((9 <=? n) && (n <=? 13)) || ((28 <=? n) && (n <=? 32)))%nat.

Definition lower_char (c : ascii) : ascii :=
  let n := nat_of_ascii c in
  if ((65 <=? n) && (n <=? 90))%nat then ascii_of_nat (n + 32) else c.

(** [s.lower()], letters outside ASCII are left as they are. *)
Fixpoint lower (s : string) : string :=
  match s with
  | EmptyString => EmptyString
  | String c r => String (lower_char c) (lower r)
  end.

Fixpoint lstrip (s : string) : string :=
  match s with
  | EmptyString => EmptyString
  | String c r => if is_space c then lstrip r else s
  end.

Fixpoint rstrip (s : string) : string :=
  match s with
  | EmptyString => EmptyString
  | String c r =>
      match rstrip r with
      | EmptyString => if is_space c then EmptyString else String c EmptyString
      | r' => String c r'
      end
  end.

(** [s.strip()] *)
Definition strip (s : string) : string := rstrip (lstrip s).

(** [s.split(sep)] for a one-character separator. *)
Fixpoint split (sep : ascii) (s : string) : list string :=
  match s with
  | EmptyString => [EmptyString]
  | String c r =>
      if Ascii.eqb c sep then EmptyString :: split sep r
      else match split sep r with
           | h :: t => String c h :: t
           | [] => [String c EmptyString]
           end
  end.

(** Truth value of a value that is [None] or a string. *)
Definition truthy (x : option string) : bool :=
  match x with
  | Some (String _ _) => true
  | _ => false
  end.

(** [a or b] *)
Definition or_ (a b : option string) : option string :=
  if truthy a then a else b.

(** [str(x)] of a value that is [None] or a string. *)
Definition str (x : option string) : string :=
  match x with
  | Some s => s
  | None => "None"
  end.

(** [d.get(k, default)] on an optional field. *)
Definition get {A : Type} (x : option A) (default : A) : A :=
  match x with
  | Some a => a
  | None => default
  end.

(** [float(s)]: [None] stands for [ValueError].  Only signed decimal
    integers are read, following the representation of prices. *)
Definition float (s : string) : option price :=
  option_map Z.of_int (NilZero.int_of_string s).

(** [str(x)] of a float. *)
Definition str_of_float (x : price) : string :=
  NilZero.string_of_int (Z.to_int x).

(** [x in xs] for strings. *)
Definition mem (x : string) (xs : list string) : bool :=
  existsb (String.eqb x) xs.

End Py.

(** ** Tables ([app/models.py]) *)

Module Setting.
Record t := mk {
  key : string;
  value : option string
}.
End Setting.

Module UnifiedPrice.
Record t := mk {
  id : Z;
  type : string;
  country : string;
  key : string;
  sell_price : price;
  buy_price : price;
  currency : string;
  source_name : option string;
  source_status : string;
  last_update : datetime;
  status : string
}.
End UnifiedPrice.

Module PriceHistory.
Record t := mk {
  id : Z;
  price_id : option Z;
  type : string;
  country : string;
  key : string;
  sell_price : price;
  buy_price : price;
  source_name : option string;
  timestamp : datetime
}.
End PriceHistory.

Module BankCurrencyRate.
(** [last_update_time], [last_update_date] and [date] are renderings of
    [timestamp] and are not kept apart; [id] is assigned by the store and
    never read. *)
Record t := mk {
  bank_name : string;
  bank_url : string;
  bank_logo : string;
  from_currency : string;
  to_currency : string;
  buy_price : price;
  sell_price : price;
  buy_change : price;
  sell_change : price;
  timestamp : datetime
}.
End BankCurrencyRate.

Module CurrencySourceSettings.
Record t := mk {
  source_name : string;
  is_enabled : bool;
  priority : Z
}.
End CurrencySourceSettings.

Record database := mkdb {
  settings : list Setting.t;
  unified_prices : list UnifiedPrice.t;
  price_history : list PriceHistory.t;
  bank_currency_rates : list BankCurrencyRate.t;
  currency_source_settings : list CurrencySourceSettings.t
}.

Definition set_settings (f : list Setting.t -> list Setting.t) (d : database) : database :=
  mkdb (f (settings d)) (unified_prices d) (price_history d)
       (bank_currency_rates d) (currency_source_settings d).

Definition set_unified_prices (f : list UnifiedPrice.t -> list UnifiedPrice.t)
    (d : database) : database :=
  mkdb (settings d) (f (unified_prices d)) (price_history d)
       (bank_currency_rates d) (currency_source_settings d).

Definition set_price_history (f : list PriceHistory.t -> list PriceHistory.t)
    (d : database) : database :=
  mkdb (settings d) (unified_prices d) (f (price_history d))
       (bank_currency_rates d) (currency_source_settings d).


(** The first element passing [f] is replaced by its image under [g]: an
    attribute assignment on the object that [.first()] returned. *)
Fixpoint update_first {A : Type} (f : A -> bool) (g : A -> A) (l : list A) : list A :=
  match l with
  | [] => []
  | x :: r => if f x then g x :: r else x :: update_first f g r
  end.

(** The first element passing [f] is removed: [db.delete(obj)]. *)
Fixpoint delete_first {A : Type} (f : A -> bool) (l : list A) : list A :=
  match l with
  | [] => []
  | x :: r => if f x then r else x :: delete_first f r
  end.

(** Integer primary key given by the store to a new row. *)
Definition fresh_id (ids : list Z) : Z := 1 + fold_right Z.max 0 ids.

(** ** Sessions ([app/core/database.py])

    A session holds the durable content of the store, the content as the
    running transaction sees it, and the number of round trips the store
    still answers ([None]: the store does not fail). *)

Record Session := mksession {
  store : database;
  pending : database;
  budget : option nat
}.

Inductive outcome (A : Type) : Type :=
| Ok (a : A)
| Raised (e : string).
Arguments Ok {A} a.
Arguments Raised {A} e.

Definition M (A : Type) : Type := Session -> outcome A * Session.

Definition ret {A : Type} (a : A) : M A := fun s => (Ok a, s).

Definition bind {A B : Type} (c : M A) (k : A -> M B) : M B :=
  fun s =>
    match c s with
    | (Ok a, s') => k a s'
    | (Raised e, s') => (Raised e, s')
    end.

Notation "x <- c ;; k" := (bind c (fun x => k))
  (at level 61, c at next level, right associativity).
Notation "c ;;; k" := (bind c (fun _ => k))
  (at level 61, right associativity).

(** One round trip to the store. *)
Definition execute : M unit :=
  fun s =>
    match budget s with
    | None => (Ok tt, s)
    | Some (S n) => (Ok tt, mksession (store s) (pending s) (Some n))
    | Some O => (Raised "OperationalError", s)
    end.

(** A read of the transaction's view. *)
Definition query {A : Type} (f : database -> A) : M A :=
  execute ;;; (fun s => (Ok (f (pending s)), s)).

(** A change of the transaction's view that is not sent yet. *)
Definition modify (f : database -> database) : M unit :=
  fun s => (Ok tt, mksession (store s) (f (pending s)) (budget s)).

(** [db.flush()] *)
Definition flush : M unit := execute.

(** [db.commit()] *)
Definition commit : M unit :=
  execute ;;; (fun s => (Ok tt, mksession (pending s) (pending s) (budget s))).

(** [SessionLocal()] *)
Definition SessionLocal (d : database) (b : option nat) : Session :=
  mksession d d b.

(** [db.close()]: what was not committed is rolled back. *)
Definition close (s : Session) : Session :=
  mksession (store s) (store s) (budget s).

Fixpoint for_each {A : Type} (body : A -> M unit) (l : list A) : M unit :=
  match l with
  | [] => ret tt
  | x :: r => body x ;;; for_each body r
  end.

(** ** Observations

    The dictionary an adapter builds for one instrument, with the keys the
    managers add.  [date] and [time] are renderings of [timestamp]. *)

Record observation := mkobs {
  o_type : option string;
  o_country : option string;
  o_karat : option string;
  o_currency : option string;
  sell_price : price;
  buy_price : price;
  o_source : option string;
  o_source_status : option string;
  o_timestamp : datetime
}.

Definition first_setting (k : string) (d : database) : option Setting.t :=
  find (fun s => (Setting.key s =? k)%string) (settings d).

(** ** Gold adapters and their manager ([app/scraper/engine.py]) *)

Module Engine.

(** The subclasses of [ScraperSource]. *)
Inductive source : Type :=
| GoldEraSource
| IsaghaSource
| GoldBullionSource
| EgyptGoldPriceTodaySource
| GoldPriceLiveSource
| SouqPriceTodaySource.

Definition NAME (s : source) : string :=
  match s with
  | GoldEraSource => "GoldEra"
  | IsaghaSource => "Isagha"
  | GoldBullionSource => "GoldBullion"
  | EgyptGoldPriceTodaySource => "EgyptGoldPriceToday"
  | GoldPriceLiveSource => "GoldPriceLive"
  | SouqPriceTodaySource => "SouqPriceToday"
  end.

(** What the selectors of an adapter retain of the page it requests.
    A [row] is a table row with enough cells that passed the adapter's test
    on the text of its first cell; [karat] is that cell after
    [_clean_karat], [val1] and [val2] are the two price cells after
    [_clean_price].  A [card] is a link matched by [a[href*='kerat-']] with
    the numbers found in its text. *)
Record row := mkrow {
  karat : string;
  val1 : price;
  val2 : price
}.

Record card := mkcard {
  card_karat : string;
  numbers : list price
}.

Record page := mkpage {
  cards : list card;
  rows : list row
}.

(** The course of the [try] block of [fetch_prices]: an exception [e]
    (from the GET, from [raise_for_status], from the parser or from a cell
    conversion) with [str(e)], or the content of the page. *)
Inductive response : Type :=
| Failed (e : string)
| Page (pg : page).

(** The dictionary every adapter appends. *)
Definition price_dict (s : source) (k : string) (sell buy : price) (now : datetime)
    : observation :=
  mkobs (Some "Local") None (Some k) (Some "EGP") sell buy (Some (NAME s)) None now.

Definition nonempty (k : string) : bool := negb (k =? "")%string.

(** [max(l)] and [min(l)] of a list that is not empty. *)
Definition list_max (l : list price) : price := fold_right Z.max (hd 0 l) l.
Definition list_min (l : list price) : price := fold_right Z.min (hd 0 l) l.

Definition gold_era_row (now : datetime) (r : row) : list observation :=
  let sell := val1 r in
  let buy := val2 r in
  if 0 <? sell then [price_dict GoldEraSource (karat r) sell buy now] else [].

Definition isagha_row (now : datetime) (r : row) : list observation :=
  let sell := val1 r in
  let buy := val2 r in
  if 0 <? sell then [price_dict IsaghaSource (karat r) sell buy now] else [].

Definition gold_bullion_row (now : datetime) (r : row) : list observation :=
  let sell := Z.max (val1 r) (val2 r) in
  let buy := Z.min (val1 r) (val2 r) in
  [price_dict GoldBullionSource (karat r) sell buy now].

Definition egypt_gold_price_today_row (now : datetime) (r : row) : list observation :=
  if nonempty (karat r) then
    if 500 <? val1 r then
      [price_dict EgyptGoldPriceTodaySource (karat r)
         (Z.max (val1 r) (val2 r)) (Z.min (val1 r) (val2 r)) now]
    else []
  else [].

Definition souq_price_today_row (now : datetime) (r : row) : list observation :=
  let sell := Z.max (val1 r) (val2 r) in
  let buy := Z.min (val1 r) (val2 r) in
  if nonempty (karat r) && (sell <? 15000) then
    [price_dict SouqPriceTodaySource (karat r) sell buy now]
  else [].

Definition gold_price_live_card (now : datetime) (c : card) : list observation :=
  if nonempty (card_karat c) then
    let potential_prices :=
      filter (fun n => (500 <? n) && (n <? 15000)) (numbers c) in
    if (2 <=? List.length potential_prices)%nat then
      let sell := list_max potential_prices in
      let buy := list_min potential_prices in
      if nonempty (card_karat c) && (sell <? 20000) then
        [price_dict GoldPriceLiveSource (card_karat c) sell buy now]
      else []
    else []
  else [].

Definition gold_price_live_row (now : datetime) (r : row) : list observation :=
  if nonempty (karat r) then
    let p1 := val1 r in
    let p2 := val2 r in
    if ((500 <? p1) && (p1 <? 15000)) && ((500 <? p2) && (p2 <? 15000)) then
      [price_dict GoldPriceLiveSource (karat r) (Z.max p1 p2) (Z.min p1 p2) now]
    else []
  else [].

(** [d[k] = v] on a dictionary kept in insertion order. *)
Fixpoint dict_put (k : string) (v : observation) (d : list (string * observation))
    : list (string * observation) :=
  match d with
  | [] => [(k, v)]
  | (k', v') :: r =>
      if (k' =? k)%string then (k', v) :: r else (k', v') :: dict_put k v r
  end.

(** [list({p['karat']: p for p in prices}.values())] *)
Definition unique_prices (prices : list observation) : list observation :=
  map snd (fold_left (fun d p => dict_put (Py.str (o_karat p)) p d) prices []).

(** The [try] block of [fetch_prices] once the page is there. *)
Definition parse (s : source) (now : datetime) (pg : page) : list observation :=
  match s with
  | GoldEraSource => flat_map (gold_era_row now) (rows pg)
  | IsaghaSource => flat_map (isagha_row now) (rows pg)
  | GoldBullionSource => flat_map (gold_bullion_row now) (rows pg)
  | EgyptGoldPriceTodaySource => flat_map (egypt_gold_price_today_row now) (rows pg)
  | GoldPriceLiveSource =>
      let prices := flat_map (gold_price_live_card now) (cards pg) in
      let prices :=
        match prices with
        | [] => flat_map (gold_price_live_row now) (rows pg)
        | _ => prices
        end in
      unique_prices prices
  | SouqPriceTodaySource => flat_map (souq_price_today_row now) (rows pg)
  end.

(** [fetch_prices]: the returned list and the adapter's [last_error]. *)
Definition fetch_prices (s : source) (r : response) (now : datetime)
    (last_error : option string) : list observation * option string :=
  match r with
  | Page pg => (parse s now pg, last_error)
  | Failed e =>
      match s with
      | GoldEraSource => ([], Some e)
      | IsaghaSource => ([], Some e)
      | GoldBullionSource => ([], Some e)
      | EgyptGoldPriceTodaySource => ([], last_error)
      | GoldPriceLiveSource => ([], last_error)
      | SouqPriceTodaySource => ([], last_error)
      end
  end.

(** [ScraperManager]: the [last_error] of its adapters and the adapters it
    has attempted (the lines it logs), in order. *)
Record manager := mkmanager {
  last_error : source -> option string;
  attempted : list source
}.

Definition source_eqb (a b : source) : bool := (NAME a =? NAME b)%string.

Definition ScraperManager : manager := mkmanager (fun _ => None) [].

Definition all_sources (name : string) : option source :=
  if (name =? "GoldEra")%string then Some GoldEraSource
  else if (name =? "GoldBullion")%string then Some GoldBullionSource
  else if (name =? "EgyptGoldPriceToday")%string then Some EgyptGoldPriceTodaySource
  else if (name =? "GoldPriceLive")%string then Some GoldPriceLiveSource
  else if (name =? "SouqPriceToday")%string then Some SouqPriceTodaySource
  else None.

Definition default_order : list string :=
  ["GoldEra"; "GoldBullion"; "EgyptGoldPriceToday"; "GoldPriceLive"; "SouqPriceToday"].

(** [[self.all_sources[s] for s in names]] for names known to be keys. *)
Definition lookup_all (names : list string) : list source :=
  flat_map (fun s => match all_sources s with Some a => [a] | None => [] end) names.

Definition _get_ordered_sources (d : database) (b : option nat) : list source :=
  match query (first_setting "gold_source_order") (SessionLocal d b) with
  | (Ok (Some setting), _) =>
      if Py.truthy (Setting.value setting) then
        let order :=
          filter nonempty
            (map Py.strip (Py.split "," (Py.get (Setting.value setting) ""))) in
        let ordered := lookup_all order in
        let existing_names := map NAME ordered in
        ordered
        ++ lookup_all (filter (fun s_name => negb (Py.mem s_name existing_names))
                         default_order)
      else lookup_all default_order
  | (Ok None, _) => lookup_all default_order
  | (Raised _, _) => lookup_all default_order
  end.

Definition normalize (status : string) (current_time : datetime) (p : observation)
    : observation :=
  mkobs (o_type p) (o_country p) (o_karat p) (o_currency p)
    (sell_price p) (buy_price p) (o_source p) (Some status) current_time.

Definition record_fetch (m : manager) (s : source) (e : option string) : manager :=
  mkmanager (fun a => if source_eqb a s then e else last_error m a)
            (attempted m ++ [s]).

(** The loop of [get_latest_prices] from position [index] on. *)
Fixpoint get_latest_prices_from (web : source -> response) (now : datetime)
    (index : nat) (sources : list source) (m : manager)
    : list observation * manager :=
  match sources with
  | [] => ([], m)
  | source :: rest =>
      let (prices, e) := fetch_prices source (web source) now (last_error m source) in
      let m' := record_fetch m source e in
      let valid_prices := filter (fun p => 0 <? sell_price p) prices in
      match valid_prices with
      | [] => get_latest_prices_from web now (S index) rest m'
      | _ =>
          let status := if (index =? 0)%nat then "Primary" else "Fallback" in
          (map (normalize status now) valid_prices, m')
      end
  end.

Definition get_latest_prices (d : database) (b : option nat)
    (web : source -> response) (now : datetime) : list observation * manager :=
  let sources := _get_ordered_sources d b in
  get_latest_prices_from web now 0 sources ScraperManager.

End Engine.

(** ** Currency adapters and their manager ([app/scraper/currency.py]) *)

Module Rate.
(** The dictionary a currency adapter appends; [source_status] is added
    by the manager. *)
Record t := mk {
  currency : string;
  currency_name : string;
  buy_price : price;
  sell_price : price;
  source : string;
  timestamp : datetime;
  source_status : option string
}.
End Rate.

Module Currency.

Inductive site : Type := Ta3weem | Egrates | BankLive.

(** [Ta3weemBankSource], [EgratesBankSource] and [BankLiveBankSource]
    instances. *)
Record source := mksource {
  site_of : site;
  bank_id : string
}.

Definition name (s : source) : string :=
  match site_of s with
  | Ta3weem => "Ta3weem_" ++ bank_id s
  | Egrates => "Egrates_" ++ bank_id s
  | BankLive => "BankLive_" ++ bank_id s
  end.

(** A table row for which a currency code and both prices were read. *)
Record row := mkrow {
  code : string;
  name_text : string;
  buy_val : price;
  sell_val : price
}.

Inductive response : Type :=
| Failed (e : string)
| Rows (l : list row).

Definition fetch_rates (s : source) (r : response) (fetch_time : datetime)
    : list Rate.t :=
  match r with
  | Failed _ => []
  | Rows l =>
      flat_map (fun x =>
        if 0 <? sell_val x then
          [Rate.mk (code x) (name_text x) (buy_val x) (sell_val x) (name s)
             fetch_time None]
        else []) l
  end.

Definition site_of_id (source_id : string) : option site :=
  if (source_id =? "ta3weem")%string then Some Ta3weem
  else if (source_id =? "egrates")%string then Some Egrates
  else if (source_id =? "banklive")%string then Some BankLive
  else None.

(** [self.sources_map.get(source_id, {}).get(bank_key)] *)
Definition sources_map (source_id bank_key : string) : option source :=
  match site_of_id source_id with
  | Some st =>
      if (bank_key =? "nbe")%string || (bank_key =? "bdc")%string
      then Some (mksource st bank_key) else None
  | None => None
  end.

Definition default_ids : list string := ["ta3weem"; "egrates"; "banklive"].

(** [ORDER BY priority], rows of equal priority in table order. *)
Fixpoint insert_by_priority (x : CurrencySourceSettings.t)
    (l : list CurrencySourceSettings.t) : list CurrencySourceSettings.t :=
  match l with
  | [] => [x]
  | y :: r =>
      if CurrencySourceSettings.priority x <? CurrencySourceSettings.priority y
      then x :: l else y :: insert_by_priority x r
  end.

Definition order_by_priority (l : list CurrencySourceSettings.t)
    : list CurrencySourceSettings.t :=
  fold_left (fun acc x => insert_by_priority x acc) l [].

Definition _get_enabled_sources_in_order (db_session : option Session) : list string :=
  match db_session with
  | None => default_ids
  | Some s =>
      match query (fun d => order_by_priority
                     (filter CurrencySourceSettings.is_enabled
                        (currency_source_settings d))) s with
      | (Ok rows, _) =>
          match map CurrencySourceSettings.source_name rows with
          | [] => default_ids
          | names => names
          end
      | (Raised _, _) => default_ids
      end
  end.

Definition tag (status : string) (r : Rate.t) : Rate.t :=
  Rate.mk (Rate.currency r) (Rate.currency_name r) (Rate.buy_price r)
    (Rate.sell_price r) (Rate.source r) (Rate.timestamp r) (Some status).

(** The inner loop of [get_latest_rates] over the source ids still to
    try for one bank. *)
Fixpoint bank_rates (enabled_source_ids : list string) (web : source -> response)
    (now : datetime) (bank_key : string) (ids : list string) : list Rate.t :=
  match ids with
  | [] => []
  | source_id :: rest =>
      match sources_map source_id bank_key with
      | None => bank_rates enabled_source_ids web now bank_key rest
      | Some source =>
          match fetch_rates source (web source) now with
          | [] => bank_rates enabled_source_ids web now bank_key rest
          | rates =>
              map (tag (if (source_id =? hd "" enabled_source_ids)%string
                        then "Primary" else "Fallback")) rates
          end
      end
  end.

Definition get_latest_rates (db_session : option Session) (web : source -> response)
    (now : datetime) : list Rate.t :=
  let enabled_source_ids := _get_enabled_sources_in_order db_session in
  flat_map (fun bank_key => bank_rates enabled_source_ids web now bank_key
                              enabled_source_ids)
           ["nbe"; "bdc"].

Definition get_all_currency_rates (db : option Session) (web : source -> response)
    (now : datetime) : list Rate.t :=
  get_latest_rates db web now.

End Currency.

Module BankRate.
(** The dictionary [fetch_all_banks_all_currencies] returns per bank and
    currency. *)
Record t := mk {
  bank_name : string;
  bank_url : option string;
  bank_logo : option string;
  currency : string;
  buy_price : price;
  sell_price : price
}.
End BankRate.

(** ** The writer ([app/main.py]) *)

Module Main.

Definition p_type (p : observation) : string := Py.lower (Py.get (o_type p) "gold").
Definition country (p : observation) : string := Py.lower (Py.get (o_country p) "egypt").
Definition key (p : observation) : string := Py.str (Py.or_ (o_karat p) (o_currency p)).

(** The filter of the snapshot query. *)
Definition same_key (p : observation) (r : UnifiedPrice.t) : bool :=
  (UnifiedPrice.type r =? p_type p)%string
  && (UnifiedPrice.country r =? country p)%string
  && (UnifiedPrice.key r =? key p)%string.

Definition price_changed (db_price : UnifiedPrice.t) (p : observation) : bool :=
  negb (UnifiedPrice.sell_price db_price =? sell_price p)
  || negb (UnifiedPrice.buy_price db_price =? buy_price p).

(** The assignments to the attributes of the row that was found. *)
Definition refresh (update_time : datetime) (p : observation)
    (db_price : UnifiedPrice.t) : UnifiedPrice.t :=
  UnifiedPrice.mk
    (UnifiedPrice.id db_price) (UnifiedPrice.type db_price)
    (UnifiedPrice.country db_price) (UnifiedPrice.key db_price)
    (sell_price p) (buy_price p)
    (Py.get (o_currency p) "EGP") (o_source p)
    (Py.get (o_source_status p) "Fallback") update_time
    (UnifiedPrice.status db_price).

Definition new_price (update_time : datetime) (p : observation) (new_id : Z)
    : UnifiedPrice.t :=
  UnifiedPrice.mk new_id (p_type p) (country p) (key p)
    (sell_price p) (buy_price p)
    (Py.get (o_currency p) "EGP") (o_source p)
    (Py.get (o_source_status p) "Fallback") update_time "active".

Definition new_history (update_time : datetime) (p : observation) (pid : Z) (hid : Z)
    : PriceHistory.t :=
  PriceHistory.mk hid (Some pid) (p_type p) (country p) (key p)
    (sell_price p) (buy_price p) (o_source p) update_time.

Definition add_history (update_time : datetime) (p : observation) (pid : Z) : M unit :=
  modify (set_price_history (fun h =>
    h ++ [new_history update_time p pid (fresh_id (map PriceHistory.id h))])).

(** [db.add(db_price)]; the result is the key the store gives the row. *)
Definition add_price (update_time : datetime) (p : observation) : M Z :=
  fun s =>
    let new_id := fresh_id (map UnifiedPrice.id (unified_prices (pending s))) in
    (Ok new_id,
     mksession (store s)
       (set_unified_prices (fun l => l ++ [new_price update_time p new_id]) (pending s))
       (budget s)).

(** The body of the loop of [save_prices_to_db]. *)
Definition save_one (update_time : datetime) (p : observation) : M unit :=
  if (key p =? "")%string then ret tt
  else
    db_price <- query (fun d => find (same_key p) (unified_prices d)) ;;
    match db_price with
    | Some row =>
        modify (set_unified_prices (update_first (same_key p) (refresh update_time p))) ;;;
        if price_changed row p
        then add_history update_time p (UnifiedPrice.id row)
        else ret tt
    | None =>
        new_id <- add_price update_time p ;;
        flush ;;;
        add_history update_time p new_id
    end.

Definition save_prices_to_db (prices_data : list observation) (update_time : datetime)
    : M unit :=
  match prices_data with
  | [] => ret tt
  | _ => for_each (save_one update_time) prices_data ;;; commit
  end.

(** [save_currency_prices_to_db] *)
Definition standardize (r : Rate.t) : observation :=
  mkobs (Some "currency") (Some "egypt") None (Some (Rate.currency r))
    (Rate.sell_price r) (Rate.buy_price r) (Some (Rate.source r))
    (Some (Py.get (Rate.source_status r) "Primary")) (Rate.timestamp r).

Definition save_currency_prices_to_db (rates_data : list Rate.t)
    (update_time : datetime) : M unit :=
  match rates_data with
  | [] => ret tt
  | _ => save_prices_to_db (map standardize rates_data) update_time
  end.

(** One iteration of a periodic loop: the [try] block runs in a fresh
    session, an exception is logged, and the session is closed.  The
    result is what the block returned or raised and the durable content
    of the store afterwards. *)
Definition iteration {A : Type} (body : M A) (d : database) (b : option nat)
    : outcome A * database :=
  let (r, s) := body (SessionLocal d b) in (r, store (close s)).

(** The [try] block of [run_scraper_periodically]; [b_order] is the budget
    of the session the manager opens for itself.  The interval read at the
    start only sets the length of the sleep that follows.  The result
    tells whether [save_prices_to_db] was called. *)
Definition run_scraper_body (b_order : option nat)
    (web : Engine.source -> Engine.response) (now : datetime) : M bool :=
  query (first_setting "scrape_interval") ;;;
  (fun s =>
     let prices := fst (Engine.get_latest_prices (store s) b_order web now) in
     match prices with
     | [] => ret false s
     | _ => (save_prices_to_db prices now ;;; ret true) s
     end).

Definition run_scraper_periodically (d : database) (b b_order : option nat)
    (web : Engine.source -> Engine.response) (now : datetime)
    : outcome bool * database :=
  iteration (run_scraper_body b_order web now) d b.

(** The [try] block of [run_currency_scraper_periodically]: the manager is
    built without a session. *)
Definition run_currency_scraper_body
    (web : Currency.source -> Currency.response) (now : datetime) : M bool :=
  query (first_setting "backup_interval") ;;;
  query (first_setting "enabled_currency_sources") ;;;
  let rates := Currency.get_all_currency_rates None web now in
  match rates with
  | [] => ret false
  | _ => save_currency_prices_to_db rates now ;;; ret true
  end.

Definition run_currency_scraper_periodically (d : database) (b : option nat)
    (web : Currency.source -> Currency.response) (now : datetime)
    : outcome bool * database :=
  iteration (run_currency_scraper_body web now) d b.




End Main.

(** ** Manual overrides ([app/endpoints/admin.py]) *)

Module Admin.

Definition is_key (k : string) (s : Setting.t) : bool := (Setting.key s =? k)%string.

(** The filter of the snapshot query of [update_manual_price]. *)
Definition gold_egypt_key (k : string) (r : UnifiedPrice.t) : bool :=
  ((UnifiedPrice.type r =? "gold")%string || (UnifiedPrice.type r =? "local")%string)
  && (UnifiedPrice.country r =? "egypt")%string
  && (UnifiedPrice.key r =? k)%string.

Definition set_manual (price_val : price) (now : datetime) (r : UnifiedPrice.t)
    : UnifiedPrice.t :=
  UnifiedPrice.mk (UnifiedPrice.id r) (UnifiedPrice.type r) (UnifiedPrice.country r)
    (UnifiedPrice.key r) price_val price_val (UnifiedPrice.currency r)
    (Some "Manual") "Manual" now (UnifiedPrice.status r).

Definition manual_history (karat : string) (price_val : price) (now : datetime)
    (hid : Z) : PriceHistory.t :=
  PriceHistory.mk hid None "gold" "egypt" karat price_val price_val
    (Some "Manual Override") now.

(** [update_manual_price]; [price] is [update.price]. *)
Definition update_manual_price (karat : string) (price : option price)
    (now : datetime) : M unit :=
  let key := ("manual_price_" ++ karat)%string in
  db_setting <- query (first_setting key) ;;
  match price with
  | None =>
      match db_setting with
      | Some _ => modify (set_settings (delete_first (is_key key)))
      | None => ret tt
      end
  | Some price_val =>
      match db_setting with
      | Some _ =>
          modify (set_settings (update_first (is_key key)
            (fun s => Setting.mk (Setting.key s) (Some (Py.str_of_float price_val)))))
      | None =>
          modify (set_settings (fun l =>
            l ++ [Setting.mk key (Some (Py.str_of_float price_val))]))
      end ;;;
      modify (set_price_history (fun h =>
        h ++ [manual_history karat price_val now
                (fresh_id (map PriceHistory.id h))])) ;;;
      db_unified <- query (fun d => find (gold_egypt_key karat) (unified_prices d)) ;;
      match db_unified with
      | Some _ =>
          modify (set_unified_prices
                    (update_first (gold_egypt_key karat) (set_manual price_val now)))
      | None => ret tt
      end
  end ;;;
  commit.

(** The request as [get_db] frames it: a fresh session, closed at the
    end. *)
Definition manual_price_request (d : database) (b : option nat) (karat : string)
    (price : option price) (now : datetime) : outcome unit * database :=
  Main.iteration (update_manual_price karat price now) d b.

End Admin.

(** ** Reading the current gold prices ([app/endpoints/gold.py]) *)

Module GoldPrice.
(** The object built per row by [read_current_prices]; [date] and [time]
    are renderings of [timestamp]. *)
Record t := mk {
  id : Z;
  karat : string;
  sell_price : price;
  buy_price : price;
  currency : string;
  country : string;
  timestamp : datetime;
  source : option string;
  source_status : string;
  type : string
}.
End GoldPrice.

Module Gold.

Definition gold_egypt (r : UnifiedPrice.t) : bool :=
  ((UnifiedPrice.type r =? "gold")%string || (UnifiedPrice.type r =? "local")%string)
  && (UnifiedPrice.country r =? "egypt")%string.

(** SQL [LIKE]: [%] stands for any run of characters, [_] for one
    character, letters compare without case. *)
Fixpoint like (pat : string) : string -> bool :=
  match pat with
  | EmptyString => fun s => match s with EmptyString => true | _ => false end
  | String c pat' =>
      if Ascii.eqb c "%" then
        fix any (s : string) : bool :=
          like pat' s
          || match s with
             | EmptyString => false
             | String _ s' => any s'
             end
      else
        fun s =>
          match s with
          | EmptyString => false
          | String a s' =>
              (Ascii.eqb c "_" || Ascii.eqb (Py.lower_char c) (Py.lower_char a))
              && like pat' s'
          end
  end.

(** [{s.key: s.value for s in settings_list}.get(k)]: the outer [None]
    says that the key is missing, the inner one that the value is NULL. *)
Definition dict_get (k : string) (settings_list : list Setting.t)
    : option (option string) :=
  fold_left (fun acc s => if (Setting.key s =? k)%string then Some (Setting.value s) else acc)
            settings_list None.

Definition with_offset (offset : price) (p : UnifiedPrice.t) : price * price * string :=
  (UnifiedPrice.sell_price p + offset, UnifiedPrice.buy_price p + offset,
   UnifiedPrice.source_status p).

(** The body of the loop over the rows. *)
Definition present (settings_list : list Setting.t) (offset : price)
    (p : UnifiedPrice.t) : GoldPrice.t :=
  let manual_key := ("manual_price_" ++ UnifiedPrice.key p)%string in
  let '(sell_price, buy_price, source_status) :=
    match dict_get manual_key settings_list with
    | Some v =>
        if Py.truthy v then
          match Py.float (Py.str v) with
          | Some manual_val => (manual_val, manual_val, "Manual")
          | None => with_offset offset p
          end
        else with_offset offset p
    | None => with_offset offset p
    end in
  GoldPrice.mk (UnifiedPrice.id p) (UnifiedPrice.key p) sell_price buy_price
    (if (UnifiedPrice.currency p =? "")%string then "EGP" else UnifiedPrice.currency p)
    (UnifiedPrice.country p) (UnifiedPrice.last_update p)
    (UnifiedPrice.source_name p) source_status (UnifiedPrice.type p).

Definition read_current_prices : M (list GoldPrice.t) :=
  prices <- query (fun d => filter gold_egypt (unified_prices d)) ;;
  match prices with
  | [] => ret []
  | _ =>
      settings_list <- query (fun d =>
        filter (fun s => (Setting.key s =? "price_offset")%string
                         || like "manual_price_%" (Setting.key s))
               (settings d)) ;;
      let offset_text :=
        Py.or_ (Py.get (dict_get "price_offset" settings_list) (Some "0")) (Some "0") in
      match Py.float (Py.str offset_text) with
      | None => fun s => (Raised "ValueError", s)
      | Some offset => ret (map (present settings_list offset) prices)
      end
  end.

Definition prices_request (d : database) (b : option nat)
    : outcome (list GoldPrice.t) * database :=
  Main.iteration read_current_prices d b.

End Gold.

(** ** Gold prices of other countries ([app/scraper/engine.py]) *)

Module Country.

Definition NAME : string := "GoldPriceToday".

Definition CURRENCY_MAP (subdomain : string) : option string :=
  if (subdomain =? "saudi-arabia")%string then Some "SAR"
  else if (subdomain =? "kuwait")%string then Some "KWD"
  else if (subdomain =? "united-arab-emirates")%string then Some "AED"
  else if (subdomain =? "qatar")%string then Some "QAR"
  else if (subdomain =? "yemen")%string then Some "YER"
  else if (subdomain =? "jordan")%string then Some "JOD"
  else if (subdomain =? "iraq")%string then Some "IQD"
  else if (subdomain =? "lebanon")%string then Some "LBP"
  else if (subdomain =? "oman")%string then Some "OMR"
  else if (subdomain =? "bahrain")%string then Some "BHD"
  else if (subdomain =? "algeria")%string then Some "DZD"
  else if (subdomain =? "morocco")%string then Some "MAD"
  else if (subdomain =? "palestine")%string then Some "ILS"
  else if (subdomain =? "egypt")%string then Some "EGP"
  else None.

(** A row of the first table with at least two cells: the first cell after
    [_clean_karat], the second after [_clean_price]. *)
Record row := mkrow {
  karat : string;
  p_val : price
}.

(** The course of the [try] block of [fetch_prices]: an exception, or the
    rows of the first table (none when the page has no table). *)
Inductive response : Type :=
| Failed (e : string)
| Page (rows : list row).

Definition price_dict (subdomain : string) (x : row) (fetch_time : datetime)
    : observation :=
  mkobs (Some "International") (Some (Py.lower subdomain)) (Some (karat x))
    (Some (Py.get (CURRENCY_MAP subdomain) "Local")) (p_val x) (p_val x)
    (Some NAME) None fetch_time.

(** [GoldPriceTodayCountrySource.fetch_prices] *)
Definition fetch_prices (subdomain : string) (r : response) (fetch_time : datetime)
    : list observation :=
  match r with
  | Failed _ => []
  | Page rows =>
      flat_map (fun x =>
        if Engine.nonempty (karat x) then
          if 0 <? p_val x then [price_dict subdomain x fetch_time] else []
        else []) rows
  end.

Definition target_countries : list string :=
  ["egypt"; "saudi-arabia"; "kuwait"; "united-arab-emirates"; "qatar";
   "yemen"; "jordan"; "iraq"; "lebanon"; "oman"; "bahrain";
   "algeria"; "morocco"; "palestine"].

(** The keys the manager adds; [timestamp] stays the fetch time. *)
Definition tag (p : observation) : observation :=
  mkobs (o_type p) (o_country p) (o_karat p) (o_currency p)
    (sell_price p) (buy_price p) (o_source p) (Some "International") (o_timestamp p).

(** [CountryScraperManager.get_all_country_prices] *)
Definition get_all_country_prices (web : string -> response) (now : datetime)
    : list observation :=
  flat_map (fun country => map tag (fetch_prices country (web country) now))
           target_countries.

(** The [try] block of [run_country_scraper_periodically] ([app/main.py]). *)
Definition run_country_scraper_body (web : string -> response) (now : datetime)
    : M bool :=
  query (first_setting "backup_interval") ;;;
  let all_country_prices := get_all_country_prices web now in
  match all_country_prices with
  | [] => ret false
  | _ => Main.save_prices_to_db all_country_prices now ;;; ret true
  end.

Definition run_country_scraper_periodically (d : database) (b : option nat)
    (web : string -> response) (now : datetime) : outcome bool * database :=
  Main.iteration (run_country_scraper_body web now) d b.

End Country.

(** ** Settings and source tests ([app/endpoints/admin.py]) *)

Module PyText.

(** [s.replace(old, new)] for a pattern [old] that is not empty:
    occurrences are replaced from the left and do not overlap.  [skip]
    counts the characters of an occurrence that are still to be passed. *)
Fixpoint replace_from (old new : string) (skip : nat) (s : string) : string :=
  match s with
  | EmptyString => EmptyString
  | String c r =>
      match skip with
      | S k => replace_from old new k r
      | O =>
          if String.prefix old s
          then (new ++ replace_from old new (String.length old - 1) r)%string
          else String c (replace_from old new O r)
      end
  end.

Definition replace (old new s : string) : string := replace_from old new 0 s.

(** [d[k] = v] on a dictionary with string keys kept in insertion order. *)
Fixpoint dict_set {V : Type} (k : string) (v : V) (d : list (string * V))
    : list (string * V) :=
  match d with
  | [] => [(k, v)]
  | (k', v') :: r =>
      if (k' =? k)%string then (k', v) :: r else (k', v') :: dict_set k v r
  end.

(** [d.get(k)] *)
Fixpoint dict_lookup {V : Type} (k : string) (d : list (string * V)) : option V :=
  match d with
  | [] => None
  | (k', v') :: r => if (k' =? k)%string then Some v' else dict_lookup k r
  end.

End PyText.

Module AdminSettings.

(** [update_setting]; the result is the row as [db.refresh] loads it. *)
Definition update_setting (key value : string) : M (option Setting.t) :=
  db_setting <- query (first_setting key) ;;
  match db_setting with
  | Some _ =>
      modify (set_settings (update_first (Admin.is_key key)
                (fun s => Setting.mk (Setting.key s) (Some value))))
  | None =>
      modify (set_settings (fun l => l ++ [Setting.mk key (Some value)]))
  end ;;;
  commit ;;;
  query (first_setting key).

Definition update_setting_request (d : database) (b : option nat) (key value : string)
    : outcome (option Setting.t) * database :=
  Main.iteration (update_setting key value) d b.



End AdminSettings.

Module TestResult.
(** What [test_gold_source] answers.  [duration] is wall-clock time and is
    not kept; [sample] holds the karat and the sell price the text is
    rendered from. *)
Record t := mk {
  status : string;
  count : nat;
  sample : option (option string * price);
  error : option string
}.
End TestResult.

Module AdminScrape.




End AdminScrape.

(** ** Currency source settings ([app/endpoints/admin.py]) *)

Module CurrencyAdmin.

(** The rows seeded into an empty table; [display_name] is a label of the
    user interface and is not kept. *)
Definition defaults : list CurrencySourceSettings.t :=
  [CurrencySourceSettings.mk "ta3weem" true 1;
   CurrencySourceSettings.mk "egrates" true 2;
   CurrencySourceSettings.mk "banklive" true 3].

Definition set_currency_source_settings
    (f : list CurrencySourceSettings.t -> list CurrencySourceSettings.t)
    (d : database) : database :=
  mkdb (settings d) (unified_prices d) (price_history d) (bank_currency_rates d)
       (f (currency_source_settings d)).

Definition by_priority (d : database) : list CurrencySourceSettings.t :=
  Currency.order_by_priority (currency_source_settings d).

(** [get_currency_sources] *)
Definition get_currency_sources : M (list CurrencySourceSettings.t) :=
  sources <- query by_priority ;;
  match sources with
  | [] =>
      modify (set_currency_source_settings (fun l => l ++ defaults)) ;;;
      commit ;;;
      query by_priority
  | _ => ret sources
  end.

Definition is_name (name : string) (r : CurrencySourceSettings.t) : bool :=
  (CurrencySourceSettings.source_name r =? name)%string.

(** [update_currency_source]; [None] stands for the answer 404. *)
Definition update_currency_source (source_name : string) (is_enabled : option bool)
    (priority : option Z) : M (option CurrencySourceSettings.t) :=
  source <- query (fun d => find (is_name source_name) (currency_source_settings d)) ;;
  match source with
  | None => ret None
  | Some row =>
      let change (r : CurrencySourceSettings.t) :=
        CurrencySourceSettings.mk (CurrencySourceSettings.source_name r)
          (Py.get is_enabled (CurrencySourceSettings.is_enabled r))
          (Py.get priority (CurrencySourceSettings.priority r)) in
      modify (set_currency_source_settings (update_first (is_name source_name) change)) ;;;
      commit ;;;
      ret (Some (change row))
  end.

End CurrencyAdmin.

(** ** Prices of one country ([app/endpoints/gold.py]) *)

Module CountryAnswer.
(** What [get_single_country_latest] answers; [current_prices] is a
    dictionary from keys to sell price, buy price and currency, kept in
    insertion order; [last_update] is a rendering of [timestamp]. *)
Record t := mk {
  current_prices : list (string * (price * price * string));
  timestamp : option datetime;
  source : option string
}.
End CountryAnswer.

Module GoldCountry.

Definition known_type (r : UnifiedPrice.t) : bool :=
  (UnifiedPrice.type r =? "gold")%string
  || (UnifiedPrice.type r =? "international")%string
  || (UnifiedPrice.type r =? "local")%string.

(** The filter of the query: [country ILIKE country_slug] and the type. *)
Definition of_country (country_slug : string) (r : UnifiedPrice.t) : bool :=
  Gold.like country_slug (UnifiedPrice.country r) && known_type r.

(** [get_single_country_latest] *)
Definition get_single_country_latest (country_slug : string) : M CountryAnswer.t :=
  prices <- query (fun d => filter (of_country country_slug) (unified_prices d)) ;;
  match prices with
  | [] => ret (CountryAnswer.mk [] None None)
  | first :: _ =>
      ret (CountryAnswer.mk
             (fold_left (fun current_prices p =>
                           PyText.dict_set (UnifiedPrice.key p)
                             (UnifiedPrice.sell_price p, UnifiedPrice.buy_price p,
                              UnifiedPrice.currency p) current_prices)
                        prices [])
             (Some (UnifiedPrice.last_update first))
             (UnifiedPrice.source_name first))
  end.

Definition country_request (d : database) (b : option nat) (country_slug : string)
    : outcome CountryAnswer.t * database :=
  Main.iteration (get_single_country_latest country_slug) d b.

End GoldCountry.


(** ** Notions used in the statements *)

(** The key under which the writer files an observation. *)
Definition ident (p : observation) : string * string * string :=
  (Main.p_type p, Main.country p, Main.key p).

(** The effect of [Main.save_one] on the transaction's view when the store
    answers (see [save_one_reliable] and [save_one_ok]). *)
Definition reconcile (update_time : datetime) (p : observation) (d : database) : database :=
  if (Main.key p =? "")%string then d
  else
    match find (Main.same_key p) (unified_prices d) with
    | Some row =>
        let d1 :=
          set_unified_prices
            (update_first (Main.same_key p) (Main.refresh update_time p)) d in
        if Main.price_changed row p
        then set_price_history (fun h =>
               h ++ [Main.new_history update_time p (UnifiedPrice.id row)
                       (fresh_id (map PriceHistory.id h))]) d1
        else d1
    | None =>
        let new_id := fresh_id (map UnifiedPrice.id (unified_prices d)) in
        set_price_history (fun h =>
          h ++ [Main.new_history update_time p new_id
                  (fresh_id (map PriceHistory.id h))])
          (set_unified_prices (fun l => l ++ [Main.new_price update_time p new_id]) d)
    end.

Definition reconcile_all (update_time : datetime) (batch : list observation)
    (d : database) : database :=
  fold_left (fun acc p => reconcile update_time p acc) batch d.

(** The snapshot row and the history entries filed under the key of [p]. *)
Definition snapshot (p : observation) (d : database) : option UnifiedPrice.t :=
  find (Main.same_key p) (unified_prices d).

Definition history_of (p : observation) (d : database) : list PriceHistory.t :=
  filter (fun e => (PriceHistory.type e =? Main.p_type p)%string
                   && (PriceHistory.country e =? Main.country p)%string
                   && (PriceHistory.key e =? Main.key p)%string)
         (price_history d).

(** The stored prices are those of [p]. *)
Definition in_sync (p : observation) (d : database) : Prop :=
  exists row, snapshot p d = Some row
              /\ UnifiedPrice.sell_price row = sell_price p
              /\ UnifiedPrice.buy_price row = buy_price p.

(** The row holds what [p] reported at time [t]. *)
Definition reflects (t : datetime) (p : observation) (row : UnifiedPrice.t) : Prop :=
  UnifiedPrice.sell_price row = sell_price p
  /\ UnifiedPrice.buy_price row = buy_price p
  /\ UnifiedPrice.currency row = Py.get (o_currency p) "EGP"
  /\ UnifiedPrice.source_name row = o_source p
  /\ UnifiedPrice.source_status row = Py.get (o_source_status p) "Fallback"
  /\ UnifiedPrice.last_update row = t.

(** The history entry holds what [p] reported at time [t]. *)
Definition records (t : datetime) (p : observation) (e : PriceHistory.t) : Prop :=
  PriceHistory.type e = Main.p_type p
  /\ PriceHistory.country e = Main.country p
  /\ PriceHistory.key e = Main.key p
  /\ PriceHistory.sell_price e = sell_price p
  /\ PriceHistory.buy_price e = buy_price p
  /\ PriceHistory.source_name e = o_source p
  /\ PriceHistory.timestamp e = t.


(** What an adapter returns for the page the site serves, and the part of
    it the manager accepts. *)
Definition fetched (web : Engine.source -> Engine.response) (now : datetime)
    (a : Engine.source) : list observation :=
  fst (Engine.fetch_prices a (web a) now None).

Definition valid_prices (web : Engine.source -> Engine.response) (now : datetime)
    (a : Engine.source) : list observation :=
  filter (fun p => 0 <? sell_price p) (fetched web now a).

(** The key has no snapshot row, or the stored prices differ from those of
    [p]. *)
Definition changed (p : observation) (d : database) : Prop :=
  snapshot p d = None
  \/ exists row, snapshot p d = Some row
                 /\ (UnifiedPrice.sell_price row <> sell_price p
                     \/ UnifiedPrice.buy_price row <> buy_price p).

(** [p] is a dictionary as adapter [a] builds them. *)
Definition from_adapter (a : Engine.source) (now : datetime) (p : observation) : Prop :=
  exists k sell buy, p = Engine.price_dict a k sell buy now.

(** ** Concrete inputs *)

Definition empty_db : database := mkdb [] [] [] [] [].

(** An observation of karat 21 as the GoldEra adapter builds it and the
    manager tags it. *)
Definition gold21 (sell buy : price) (status : string) : observation :=
  mkobs (Some "Local") None (Some "21") (Some "EGP") sell buy (Some "GoldEra")
    (Some status) 0.

Definition gold24 (sell buy : price) (status : string) : observation :=
  mkobs (Some "Local") None (Some "24") (Some "EGP") sell buy (Some "GoldEra")
    (Some status) 0.

(** The durable store after a call of the writer on a store that answers. *)
Definition committed (batch : list observation) (t : datetime) (d : database) : database :=
  snd (Main.iteration (Main.save_prices_to_db batch t) d None).

(** A page lists karat 21 twice with different prices. *)
Definition twice_21 : list observation :=
  [gold21 100 90 "Primary"; gold21 105 90 "Primary"].


(** The sites during one currency cycle: Ta3weem serves the page of the first
    bank and times out on the second, Egrates serves both, BankLive serves
    pages without rows. *)
Definition mixed_web (s : Currency.source) : Currency.response :=
  match Currency.site_of s with
  | Currency.Ta3weem =>
      if (Currency.bank_id s =? "nbe")%string
      then Currency.Rows [Currency.mkrow "USD" "US Dollar" 4790 4800]
      else Currency.Failed "timed out"
  | Currency.Egrates => Currency.Rows [Currency.mkrow "USD" "US Dollar" 4785 4795]
  | Currency.BankLive => Currency.Rows []
  end.

(** A store whose persisted order names the second adapter, an unknown name
    and the first adapter. *)
Definition reordered_db : database :=
  mkdb [Setting.mk "gold_source_order" (Some " GoldBullion , Isagha,,GoldEra ")]
       [] [] [] [].


(** [c] keeps [P] true of the durable content and of the transaction's view,
    whether it returns or raises. *)
Definition preserves {A : Type} (P : database -> Prop) (c : M A) : Prop :=
  forall s, P (store s) -> P (pending s) ->
            P (store (snd (c s))) /\ P (pending (snd (c s))).





(** Every site times out. *)
Definition dead_web (a : Engine.source) : Engine.response := Engine.Failed "timed out".

(** The first site of the default order serves a page without rows, the
    second one lists karat 21 at 4500/4450, the others are down. *)
Definition second_web (a : Engine.source) : Engine.response :=
  match a with
  | Engine.GoldEraSource => Engine.Page (Engine.mkpage [] [])
  | Engine.GoldBullionSource =>
      Engine.Page (Engine.mkpage [] [Engine.mkrow "21" 4500 4450])
  | _ => Engine.Failed "timed out"
  end.

Definition two_karats : list observation :=
  [gold21 100 90 "Primary"; gold24 120 110 "Primary"].

(** ** Notions used in the further properties *)

(** The key of a snapshot row. *)
Definition row_key (r : UnifiedPrice.t) : string * string * string :=
  (UnifiedPrice.type r, UnifiedPrice.country r, UnifiedPrice.key r).

(** The history of [d'] is that of [d] with entries appended. *)
Definition grows_history (d d' : database) : Prop :=
  exists added, price_history d' = price_history d ++ added.

(** The entry names a snapshot row of [d] that has its key. *)
Definition points_to_row (d : database) (e : PriceHistory.t) : Prop :=
  exists r, In r (unified_prices d)
            /\ PriceHistory.price_id e = Some (UnifiedPrice.id r)
            /\ (PriceHistory.type e, PriceHistory.country e, PriceHistory.key e)
               = row_key r.

Definition ident_eqb (p q : observation) : bool :=
  (Main.p_type p =? Main.p_type q)%string
  && (Main.country p =? Main.country q)%string
  && (Main.key p =? Main.key q)%string.

(** The last observation of a batch filed under the key of [p]. *)
Definition last_of (p : observation) (batch : list observation) : option observation :=
  fold_left (fun acc q => if ident_eqb q p then Some q else acc) batch None.

(** [c] answers [G] of the transaction's view and changes the view by [F];
    it sends nothing to the store.  Either it returns, or it raises and the
    durable content is as before. *)
Definition acts {A : Type} (c : M A) (F : database -> database) (G : database -> A)
    : Prop :=
  forall s,
    (budget s = None ->
     c s = (Ok (G (pending s)), mksession (store s) (F (pending s)) None))
    /\ ((exists s', c s = (Ok (G (pending s)), s')
                    /\ store s' = store s /\ pending s' = F (pending s))
        \/ (exists e s', c s = (Raised e, s') /\ store s' = store s)).

(** [c] is one transaction: it answers [G] of the view and makes [F] of the
    view durable, or it raises and the durable content is as before. *)
Definition settles {A : Type} (c : M A) (F : database -> database) (G : database -> A)
    : Prop :=
  forall s,
    (budget s = None ->
     c s = (Ok (G (pending s)), mksession (F (pending s)) (F (pending s)) None))
    /\ ((exists s', c s = (Ok (G (pending s)), s') /\ store s' = F (pending s))
        \/ (exists e s', c s = (Raised e, s') /\ store s' = store s)).

(** The effect of [AdminSettings.update_setting] on the settings. *)
Definition put_setting (key value : string) (d : database) : database :=
  match first_setting key d with
  | Some _ =>
      set_settings (update_first (Admin.is_key key)
                      (fun s => Setting.mk (Setting.key s) (Some value))) d
  | None => set_settings (fun l => l ++ [Setting.mk key (Some value)]) d
  end.

(** The effect of [Admin.update_manual_price] with a price, and without. *)
Definition set_override (karat : string) (price_val : price) (now : datetime)
    (d : database) : database :=
  let d1 := put_setting ("manual_price_" ++ karat) (Py.str_of_float price_val) d in
  let d2 :=
    set_price_history (fun h =>
      h ++ [Admin.manual_history karat price_val now
              (fresh_id (map PriceHistory.id h))]) d1 in
  match find (Admin.gold_egypt_key karat) (unified_prices d2) with
  | Some _ =>
      set_unified_prices
        (update_first (Admin.gold_egypt_key karat) (Admin.set_manual price_val now)) d2
  | None => d2
  end.

Definition clear_override (karat : string) (d : database) : database :=
  set_settings (delete_first (Admin.is_key ("manual_price_" ++ karat))) d.


(** The table of currency sources after [CurrencyAdmin.get_currency_sources]
    has seeded it. *)
Definition seeded (d : database) : database :=
  CurrencyAdmin.set_currency_source_settings (fun l => l ++ CurrencyAdmin.defaults) d.


(** The assignments of [CurrencyAdmin.update_currency_source] to the row it
    found. *)
Definition changed_source (is_enabled : option bool) (priority : option Z)
    (r : CurrencySourceSettings.t) : CurrencySourceSettings.t :=
  CurrencySourceSettings.mk (CurrencySourceSettings.source_name r)
    (Py.get is_enabled (CurrencySourceSettings.is_enabled r))
    (Py.get priority (CurrencySourceSettings.priority r)).


(** The last observation of a list that has the karat [k]. *)
Definition last_with_karat (k : string) (prices : list observation) : option observation :=
  fold_left (fun acc q => if (Py.str (o_karat q) =? k)%string then Some q else acc)
            prices None.






(** ** Concrete inputs of the further properties *)

(** A store in which karat 21 and karat 24 were scraped once. *)
Definition two_karat_db : database := committed two_karats 10 empty_db.

(** The two banks quote the dollar at different prices. *)
Definition usd_nbe : Rate.t :=
  Rate.mk "USD" "US Dollar" 4790 4800 "Ta3weem_nbe" 0 (Some "Primary").

Definition usd_bdc : Rate.t :=
  Rate.mk "USD" "US Dollar" 4785 4795 "Ta3weem_bdc" 0 (Some "Primary").

(** An observation with neither karat nor currency. *)
Definition bare : observation :=
  mkobs (Some "Local") None None None 100 90 (Some "GoldEra") None 0.

(** The site of Kuwait lists karat 21 at 25, a row without karat and a row
    without price; every other country site is down. *)
Definition kuwait_web (subdomain : string) : Country.response :=
  if (subdomain =? "kuwait")%string
  then Country.Page [Country.mkrow "21" 25; Country.mkrow "" 30; Country.mkrow "18" 0]
  else Country.Failed "timed out".

(** A store with a local row and a row of another country. *)
Definition mixed_db : database :=
  committed (Country.get_all_country_prices kuwait_web 5) 6 two_karat_db.

(** The operator disabled Ta3weem and put BankLive before Egrates. *)
Definition banklive_first_db : database :=
  mkdb [] [] [] []
    [CurrencySourceSettings.mk "ta3weem" false 1;
     CurrencySourceSettings.mk "egrates" true 5;
     CurrencySourceSettings.mk "banklive" true 2].

(** * Properties *)

(** ** Sessions *)

Ltac run :=
  unfold bind, query, modify, flush, commit, execute, ret in *; simpl in *.

Lemma bind_run {A B : Type} (c : M A) (k : A -> M B) (s : Session) :
  bind c k s
  = match c s with
    | (Ok a, s') => k a s'
    | (Raised e, s') => (Raised e, s')
    end.
Proof. reflexivity. Qed.

Lemma execute_cases (s : Session) :
  (exists s', execute s = (Ok tt, s') /\ store s' = store s /\ pending s' = pending s
              /\ (budget s = None -> budget s' = None))
  \/ (execute s = (Raised "OperationalError", s) /\ budget s = Some O).
Proof.
  unfold execute. destruct (budget s) as [[|n]|] eqn:E.
  - right. split; reflexivity.
  - left. eexists. split; [reflexivity|]. simpl. repeat split. discriminate.
  - left. exists s. repeat split; auto.
Qed.

Lemma execute_reliable (s : Session) :
  budget s = None -> execute s = (Ok tt, s).
Proof. intros H. unfold execute. rewrite H. reflexivity. Qed.

Lemma query_reliable {A : Type} (f : database -> A) (s : Session) :
  budget s = None -> query f s = (Ok (f (pending s)), s).
Proof.
  intros H. unfold query. rewrite bind_run, execute_reliable by exact H. reflexivity.
Qed.

Lemma modify_run (f : database -> database) (s : Session) :
  modify f s = (Ok tt, mksession (store s) (f (pending s)) (budget s)).
Proof. reflexivity. Qed.

Lemma save_one_reliable (t : datetime) (p : observation) (s : Session) :
  budget s = None ->
  Main.save_one t p s = (Ok tt, mksession (store s) (reconcile t p (pending s)) None).
Proof.
  destruct s as [st pe b]. simpl. intros ->.
  unfold Main.save_one, reconcile.
  destruct (Main.key p =? "")%string; [reflexivity|].
  run. destruct (find (Main.same_key p) (unified_prices pe)) as [row|]; simpl.
  - destruct (Main.price_changed row p); reflexivity.
  - reflexivity.
Qed.

Lemma save_one_ok (t : datetime) (p : observation) (s s' : Session) :
  Main.save_one t p s = (Ok tt, s') ->
  store s' = store s /\ pending s' = reconcile t p (pending s).
Proof.
  destruct s as [st pe b]. unfold Main.save_one, reconcile.
  destruct (Main.key p =? "")%string.
  - intros [= <-]. auto.
  - run. destruct b as [[|n]|]; simpl; try discriminate.
    + destruct (find (Main.same_key p) (unified_prices pe)) as [row|]; simpl.
      * destruct (Main.price_changed row p); intros [= <-]; auto.
      * destruct n; simpl; [discriminate|]. intros [= <-]; auto.
    + destruct (find (Main.same_key p) (unified_prices pe)) as [row|]; simpl.
      * destruct (Main.price_changed row p); intros [= <-]; auto.
      * intros [= <-]; auto.
Qed.

Lemma save_one_store (t : datetime) (p : observation) (s : Session) :
  store (snd (Main.save_one t p s)) = store s.
Proof.
  destruct s as [st pe b]. unfold Main.save_one.
  destruct (Main.key p =? "")%string; [reflexivity|].
  run. destruct b as [[|n]|]; simpl; try reflexivity.
  - destruct (find (Main.same_key p) (unified_prices pe)) as [row|]; simpl.
    + destruct (Main.price_changed row p); reflexivity.
    + destruct n; reflexivity.
  - destruct (find (Main.same_key p) (unified_prices pe)) as [row|]; simpl.
    + destruct (Main.price_changed row p); reflexivity.
    + reflexivity.
Qed.

Lemma for_each_save_reliable (t : datetime) (batch : list observation) (s : Session) :
  budget s = None ->
  for_each (Main.save_one t) batch s
  = (Ok tt, mksession (store s) (reconcile_all t batch (pending s)) None).
Proof.
  revert s. induction batch as [|p batch IH]; intros [st pe b]; simpl; intros ->.
  - reflexivity.
  - unfold bind. rewrite save_one_reliable by reflexivity. simpl.
    rewrite IH by reflexivity. reflexivity.
Qed.

Lemma for_each_save_cases (t : datetime) (batch : list observation) (s : Session) :
  exists r s', for_each (Main.save_one t) batch s = (r, s')
               /\ store s' = store s
               /\ (r = Ok tt -> pending s' = reconcile_all t batch (pending s)).
Proof.
  revert s. induction batch as [|p batch IH]; intros s; simpl.
  - exists (Ok tt), s. auto.
  - unfold bind. destruct (Main.save_one t p s) as [[[]|e] s1] eqn:E.
    + apply save_one_ok in E. destruct E as [E1 E2].
      destruct (IH s1) as (r & s2 & H1 & H2 & H3).
      exists r, s2. rewrite H1. split; [reflexivity|]. split; [congruence|].
      intros Hr. rewrite H3 by assumption. rewrite E2. reflexivity.
    + exists (Raised e), s1. split; [reflexivity|]. split; [|discriminate].
      change s1 with (snd (@Raised unit e, s1)). rewrite <- E. apply save_one_store.
Qed.

(** ** The writer as a function of the durable store *)

Lemma commit_cases (s : Session) :
  commit s = (Ok tt, mksession (pending s) (pending s) (budget s))
  \/ (exists s', commit s = (Ok tt, s') /\ store s' = pending s)
  \/ commit s = (Raised "OperationalError", s).
Proof.
  unfold commit. rewrite bind_run. unfold execute.
  destruct (budget s) as [[|n]|] eqn:E; simpl.
  - right. right. reflexivity.
  - right. left. eexists. split; reflexivity.
  - left. rewrite E. reflexivity.
Qed.

Lemma save_prices_reliable (t : datetime) (batch : list observation) (d : database) :
  Main.iteration (Main.save_prices_to_db batch t) d None
  = (Ok tt, reconcile_all t batch d).
Proof.
  destruct batch as [|p batch]; [reflexivity|].
  change (Main.save_prices_to_db (p :: batch) t)
    with (for_each (Main.save_one t) (p :: batch) ;;; commit).
  unfold Main.iteration. rewrite bind_run.
  rewrite for_each_save_reliable by reflexivity. reflexivity.
Qed.

Lemma save_prices_cases (t : datetime) (batch : list observation) (d : database)
    (b : option nat) :
  Main.iteration (Main.save_prices_to_db batch t) d b = (Ok tt, reconcile_all t batch d)
  \/ exists e, Main.iteration (Main.save_prices_to_db batch t) d b = (Raised e, d).
Proof.
  destruct batch as [|p batch]; [left; reflexivity|].
  change (Main.save_prices_to_db (p :: batch) t)
    with (for_each (Main.save_one t) (p :: batch) ;;; commit).
  unfold Main.iteration. rewrite bind_run.
  destruct (for_each_save_cases t (p :: batch) (SessionLocal d b)) as (r & s' & H1 & H2 & H3).
  rewrite H1. destruct r as [[]|e].
  - destruct (commit_cases s') as [E|[(s2 & E & E1)|E]]; rewrite E; simpl.
    + left. rewrite H3 by reflexivity. reflexivity.
    + left. rewrite E1, H3 by reflexivity. reflexivity.
    + right. exists "OperationalError". rewrite H2. reflexivity.
  - right. exists e. simpl. rewrite H2. reflexivity.
Qed.

(** C5. The snapshot and history writes of one call of the writer are one
    transaction: whatever the point at which the store stops answering, once
    the session is closed the durable content is either the content before
    the call (and the call raised) or the content a store that never fails
    ends with, every observation of the batch applied (and the call
    returned); on a store that never fails the call returns. *)
Theorem C5_commit_all_or_nothing (d : database) (b : option nat)
    (prices_data : list observation) (update_time : datetime) :
  let run := Main.iteration (Main.save_prices_to_db prices_data update_time) d in
  ((fst (run b) = Ok tt /\ snd (run b) = snd (run None))
   \/ (exists e, fst (run b) = Raised e /\ snd (run b) = d))
  /\ fst (run None) = Ok tt
  /\ snd (run None) = reconcile_all update_time prices_data d.
Proof.
  cbv zeta. rewrite save_prices_reliable. simpl. split; [|split; reflexivity].
  destruct (save_prices_cases update_time prices_data d b) as [H|[e H]]; rewrite H; simpl.
  - left. split; reflexivity.
  - right. exists e. split; reflexivity.
Qed.

(** ** Lists with a first match *)

Lemma find_app_first {A : Type} (f : A -> bool) (l l' : list A) :
  find f (l ++ l') = match find f l with Some x => Some x | None => find f l' end.
Proof.
  induction l as [|x l IH]; simpl; [reflexivity|].
  destruct (f x); [reflexivity|apply IH].
Qed.

Lemma find_update_first_same {A : Type} (f : A -> bool) (g : A -> A) (l : list A) :
  (forall x, f x = true -> f (g x) = true) ->
  find f (update_first f g l) = option_map g (find f l).
Proof.
  intros Hg. induction l as [|x l IH]; simpl; [reflexivity|].
  destruct (f x) eqn:E; simpl.
  - rewrite (Hg x E). reflexivity.
  - rewrite E. apply IH.
Qed.

Lemma find_update_first_other {A : Type} (f g : A -> bool) (h : A -> A) (l : list A) :
  (forall x, f (h x) = f x) ->
  (forall x, g x = true -> f x = false) ->
  find f (update_first g h l) = find f l.
Proof.
  intros Hh Hg. induction l as [|x l IH]; simpl; [reflexivity|].
  destruct (g x) eqn:E; simpl.
  - rewrite Hh, (Hg x E). reflexivity.
  - destruct (f x); [reflexivity|apply IH].
Qed.

Lemma map_update_first {A B : Type} (k : A -> B) (f : A -> bool) (g : A -> A)
    (l : list A) :
  (forall x, k (g x) = k x) -> map k (update_first f g l) = map k l.
Proof.
  intros Hk. induction l as [|x l IH]; simpl; [reflexivity|].
  destruct (f x); simpl; [rewrite Hk|rewrite IH]; reflexivity.
Qed.

Lemma delete_first_none {A : Type} (f : A -> bool) (l : list A) :
  find f l = None -> delete_first f l = l.
Proof.
  induction l as [|x l IH]; simpl; [reflexivity|].
  destruct (f x); [discriminate|]. intros H. rewrite IH by assumption. reflexivity.
Qed.

(** ** Keys of observations and rows *)


Lemma same_key_spec (p : observation) (r : UnifiedPrice.t) :
  Main.same_key p r = true
  <-> (UnifiedPrice.type r, UnifiedPrice.country r, UnifiedPrice.key r) = ident p.
Proof.
  unfold Main.same_key, ident. rewrite !andb_true_iff, !String.eqb_eq.
  split.
  - intros [[-> ->] ->]. reflexivity.
  - intros [= -> -> ->]. auto.
Qed.

Lemma same_key_ext (p q : observation) (r : UnifiedPrice.t) :
  ident p = ident q -> Main.same_key p r = Main.same_key q r.
Proof.
  unfold ident, Main.same_key. intros [= -> -> ->]. reflexivity.
Qed.

Lemma same_key_other (p q : observation) (r : UnifiedPrice.t) :
  ident q <> ident p -> Main.same_key p r = true -> Main.same_key q r = false.
Proof.
  intros Hne Hp. destruct (Main.same_key q r) eqn:Hq; [|reflexivity].
  apply same_key_spec in Hp. apply same_key_spec in Hq. congruence.
Qed.

Lemma same_key_refresh (q p : observation) (t : datetime) (r : UnifiedPrice.t) :
  Main.same_key q (Main.refresh t p r) = Main.same_key q r.
Proof. reflexivity. Qed.

Lemma same_key_new_price (p : observation) (t : datetime) (i : Z) :
  Main.same_key p (Main.new_price t p i) = true.
Proof. apply same_key_spec. reflexivity. Qed.

Lemma snapshot_ext (p q : observation) (d : database) :
  ident p = ident q -> snapshot p d = snapshot q d.
Proof.
  intros H. unfold snapshot. induction (unified_prices d) as [|r l IH]; simpl.
  - reflexivity.
  - rewrite (same_key_ext p q r H), IH. reflexivity.
Qed.

Lemma key_of_ident (p q : observation) : ident p = ident q -> Main.key p = Main.key q.
Proof. unfold ident. intros [= _ _ H]. exact H. Qed.

(** ** One observation reconciled *)

Lemma key_nonempty (p : observation) :
  Main.key p <> "" -> (Main.key p =? "")%string = false.
Proof. intros H. apply String.eqb_neq. exact H. Qed.

Lemma reconcile_snapshot (t : datetime) (p : observation) (d : database) :
  Main.key p <> "" ->
  exists row, snapshot p (reconcile t p d) = Some row /\ reflects t p row.
Proof.
  intros Hk. unfold reconcile, snapshot. rewrite (key_nonempty p Hk).
  destruct (find (Main.same_key p) (unified_prices d)) as [row|] eqn:E.
  - exists (Main.refresh t p row). split; [|repeat split].
    assert (H : find (Main.same_key p)
                  (update_first (Main.same_key p) (Main.refresh t p) (unified_prices d))
                = Some (Main.refresh t p row)).
    { rewrite find_update_first_same; [rewrite E; reflexivity|].
      intros x Hx. rewrite same_key_refresh. exact Hx. }
    destruct (Main.price_changed row p); exact H.
  - exists (Main.new_price t p (fresh_id (map UnifiedPrice.id (unified_prices d)))).
    split; [|repeat split]. simpl.
    rewrite find_app_first, E. simpl. rewrite same_key_new_price. reflexivity.
Qed.

Lemma reconcile_snapshot_other (t : datetime) (p q : observation) (d : database) :
  ident q <> ident p -> snapshot q (reconcile t p d) = snapshot q d.
Proof.
  intros Hne. unfold reconcile, snapshot.
  destruct (Main.key p =? "")%string; [reflexivity|].
  destruct (find (Main.same_key p) (unified_prices d)) as [row|] eqn:E.
  - assert (H : find (Main.same_key q)
                  (update_first (Main.same_key p) (Main.refresh t p) (unified_prices d))
                = find (Main.same_key q) (unified_prices d)).
    { apply find_update_first_other.
      - intros x. apply same_key_refresh.
      - intros x Hx. apply (same_key_other p q x Hne Hx). }
    destruct (Main.price_changed row p); exact H.
  - simpl. rewrite find_app_first.
    destruct (find (Main.same_key q) (unified_prices d)); [reflexivity|].
    simpl. rewrite (same_key_other p q _ Hne (same_key_new_price p t _)). reflexivity.
Qed.

Lemma price_changed_false (row : UnifiedPrice.t) (p : observation) :
  Main.price_changed row p = false
  <-> UnifiedPrice.sell_price row = sell_price p
      /\ UnifiedPrice.buy_price row = buy_price p.
Proof.
  unfold Main.price_changed. rewrite orb_false_iff, !negb_false_iff, !Z.eqb_eq.
  reflexivity.
Qed.

Lemma reconcile_history_in_sync (t : datetime) (p : observation) (d : database) :
  in_sync p d -> price_history (reconcile t p d) = price_history d.
Proof.
  intros (row & Hs & H1 & H2). unfold reconcile.
  destruct (Main.key p =? "")%string; [reflexivity|].
  unfold snapshot in Hs. rewrite Hs.
  assert (Hc : Main.price_changed row p = false) by (apply price_changed_false; auto).
  rewrite Hc. reflexivity.
Qed.

Lemma reconcile_rows_in_sync (t : datetime) (p : observation) (d : database) :
  Main.key p <> "" -> in_sync p d ->
  unified_prices (reconcile t p d)
  = update_first (Main.same_key p) (Main.refresh t p) (unified_prices d).
Proof.
  intros Hk (row & Hs & H1 & H2). unfold reconcile. rewrite (key_nonempty p Hk).
  unfold snapshot in Hs. rewrite Hs.
  assert (Hc : Main.price_changed row p = false) by (apply price_changed_false; auto).
  rewrite Hc. reflexivity.
Qed.

Lemma reconcile_history_changed (t : datetime) (p : observation) (d : database) :
  Main.key p <> "" -> ~ in_sync p d ->
  exists e, price_history (reconcile t p d) = price_history d ++ [e] /\ records t p e.
Proof.
  intros Hk Hn. unfold reconcile. rewrite (key_nonempty p Hk).
  destruct (find (Main.same_key p) (unified_prices d)) as [row|] eqn:E.
  - destruct (Main.price_changed row p) eqn:Hc.
    + eexists. split; [reflexivity|]. repeat split.
    + exfalso. apply Hn. exists row. split; [exact E|].
      apply price_changed_false. exact Hc.
  - eexists. split; [reflexivity|]. repeat split.
Qed.

Lemma in_sync_dec (p : observation) (d : database) : {in_sync p d} + {~ in_sync p d}.
Proof.
  unfold in_sync. destruct (snapshot p d) as [row|].
  - destruct (Z.eq_dec (UnifiedPrice.sell_price row) (sell_price p)) as [H1|H1].
    + destruct (Z.eq_dec (UnifiedPrice.buy_price row) (buy_price p)) as [H2|H2].
      * left. exists row. auto.
      * right. intros (r & [= <-] & _ & H). contradiction.
    + right. intros (r & [= <-] & H & _). contradiction.
  - right. intros (r & H & _). discriminate.
Qed.

Lemma reconcile_frame (t : datetime) (p : observation) (d : database) :
  settings (reconcile t p d) = settings d
  /\ bank_currency_rates (reconcile t p d) = bank_currency_rates d
  /\ currency_source_settings (reconcile t p d) = currency_source_settings d.
Proof.
  unfold reconcile. destruct (Main.key p =? "")%string; [auto|].
  destruct (find (Main.same_key p) (unified_prices d)) as [row|].
  - destruct (Main.price_changed row p); auto.
  - auto.
Qed.

Lemma reconcile_all_frame (t : datetime) (batch : list observation) (d : database) :
  settings (reconcile_all t batch d) = settings d
  /\ bank_currency_rates (reconcile_all t batch d) = bank_currency_rates d
  /\ currency_source_settings (reconcile_all t batch d) = currency_source_settings d.
Proof.
  revert d. induction batch as [|p batch IH]; intros d; simpl; [auto|].
  destruct (IH (reconcile t p d)) as (H1 & H2 & H3).
  destruct (reconcile_frame t p d) as (F1 & F2 & F3).
  unfold reconcile_all in *. rewrite H1, H2, H3. auto.
Qed.

Lemma reconcile_history_shape (t : datetime) (p : observation) (d : database) :
  price_history (reconcile t p d) = price_history d
  \/ exists e, price_history (reconcile t p d) = price_history d ++ [e] /\ records t p e.
Proof.
  destruct (in_sync_dec p d) as [H|H].
  - left. apply reconcile_history_in_sync. exact H.
  - destruct (String.string_dec (Main.key p) "") as [Hk|Hk].
    + left. unfold reconcile. rewrite Hk. reflexivity.
    + right. apply reconcile_history_changed; assumption.
Qed.

Lemma history_of_snoc_same (t : datetime) (p : observation) (d d' : database)
    (e : PriceHistory.t) :
  price_history d' = price_history d ++ [e] -> records t p e ->
  history_of p d' = history_of p d ++ [e].
Proof.
  intros H (R1 & R2 & R3 & _). unfold history_of. rewrite H, filter_app. simpl.
  rewrite R1, R2, R3, !String.eqb_refl. reflexivity.
Qed.

Lemma history_of_snoc_other (t : datetime) (p q : observation) (d d' : database)
    (e : PriceHistory.t) :
  ident q <> ident p ->
  price_history d' = price_history d ++ [e] -> records t p e ->
  history_of q d' = history_of q d.
Proof.
  intros Hne H (R1 & R2 & R3 & _). unfold history_of. rewrite H, filter_app. simpl.
  rewrite R1, R2, R3.
  destruct ((Main.p_type p =? Main.p_type q)%string
            && (Main.country p =? Main.country q)%string
            && (Main.key p =? Main.key q)%string) eqn:E.
  - exfalso. apply Hne. rewrite !andb_true_iff, !String.eqb_eq in E.
    destruct E as [[E1 E2] E3]. unfold ident. congruence.
  - apply app_nil_r.
Qed.

Lemma reconcile_history_other (t : datetime) (p q : observation) (d : database) :
  ident q <> ident p -> history_of q (reconcile t p d) = history_of q d.
Proof.
  intros Hne. destruct (reconcile_history_shape t p d) as [H|(e & H & R)].
  - unfold history_of. rewrite H. reflexivity.
  - apply (history_of_snoc_other t p q d _ e Hne H R).
Qed.

(** ** A batch reconciled *)

Lemma reconcile_all_app (t : datetime) (l l' : list observation) (d : database) :
  reconcile_all t (l ++ l') d = reconcile_all t l' (reconcile_all t l d).
Proof. unfold reconcile_all. apply fold_left_app. Qed.

Lemma reconcile_all_cons (t : datetime) (p : observation) (l : list observation)
    (d : database) :
  reconcile_all t (p :: l) d = reconcile_all t l (reconcile t p d).
Proof. reflexivity. Qed.

Lemma reconcile_all_other (t : datetime) (batch : list observation) (q : observation)
    (d : database) :
  (forall p, In p batch -> ident q <> ident p) ->
  snapshot q (reconcile_all t batch d) = snapshot q d
  /\ history_of q (reconcile_all t batch d) = history_of q d.
Proof.
  revert d. induction batch as [|p batch IH]; intros d Hne; [auto|].
  rewrite reconcile_all_cons.
  destruct (IH (reconcile t p d)) as [H1 H2].
  { intros x Hx. apply Hne. right. exact Hx. }
  rewrite H1, H2.
  split.
  - apply reconcile_snapshot_other. apply Hne. left. reflexivity.
  - apply reconcile_history_other. apply Hne. left. reflexivity.
Qed.

Lemma NoDup_ident_head (p : observation) (batch : list observation) :
  NoDup (map ident (p :: batch)) -> forall x, In x batch -> ident p <> ident x.
Proof.
  simpl. intros H x Hx E. inversion H as [|? ? Hn _]; subst.
  apply Hn. rewrite E. apply in_map. exact Hx.
Qed.

Lemma in_sync_other (t : datetime) (p q : observation) (d : database) :
  ident q <> ident p -> in_sync q d -> in_sync q (reconcile t p d).
Proof.
  intros Hne (row & H & R). exists row. split; [|exact R].
  rewrite reconcile_snapshot_other by exact Hne. exact H.
Qed.

Lemma in_sync_reconcile (t : datetime) (p : observation) (d : database) :
  Main.key p <> "" -> in_sync p (reconcile t p d).
Proof.
  intros Hk. destruct (reconcile_snapshot t p d Hk) as (row & H & R1 & R2 & _).
  exists row. auto.
Qed.

Lemma first_pass_in_sync (t : datetime) (batch : list observation) (d : database) :
  NoDup (map ident batch) ->
  forall p, In p batch -> Main.key p <> "" -> in_sync p (reconcile_all t batch d).
Proof.
  revert d. induction batch as [|x batch IH]; intros d Hnd p Hin Hk; [contradiction|].
  rewrite reconcile_all_cons. destruct Hin as [->|Hin].
  - destruct (in_sync_reconcile t p d Hk) as (row & H & R).
    exists row. split; [|exact R].
    destruct (reconcile_all_other t batch p (reconcile t p d)) as [H1 _].
    { apply NoDup_ident_head. exact Hnd. }
    rewrite H1. exact H.
  - apply IH; [|exact Hin|exact Hk]. inversion Hnd; assumption.
Qed.

Lemma second_pass_history (t : datetime) (batch : list observation) (d : database) :
  NoDup (map ident batch) ->
  (forall p, In p batch -> Main.key p <> "" -> in_sync p d) ->
  price_history (reconcile_all t batch d) = price_history d.
Proof.
  revert d. induction batch as [|x batch IH]; intros d Hnd Hs; [reflexivity|].
  rewrite reconcile_all_cons, IH.
  - destruct (String.string_dec (Main.key x) "") as [Hk|Hk].
    + unfold reconcile. rewrite Hk. reflexivity.
    + apply reconcile_history_in_sync. apply Hs; [left; reflexivity|exact Hk].
  - inversion Hnd; assumption.
  - intros p Hp Hk. apply in_sync_other.
    + intros E. apply (NoDup_ident_head x batch Hnd p Hp). symmetry. exact E.
    + apply Hs; [right; exact Hp|exact Hk].
Qed.

Lemma first_pass_history (t : datetime) (batch : list observation) (d : database)
    (p : observation) :
  NoDup (map ident batch) -> In p batch -> Main.key p <> "" ->
  (in_sync p d -> history_of p (reconcile_all t batch d) = history_of p d)
  /\ (~ in_sync p d ->
      exists e, history_of p (reconcile_all t batch d) = history_of p d ++ [e]
                /\ records t p e).
Proof.
  intros Hnd Hin Hk.
  destruct (in_split p batch Hin) as (l1 & l2 & ->).
  assert (Hl1 : forall x, In x l1 -> ident p <> ident x).
  { intros x Hx E. rewrite map_app in Hnd. simpl in Hnd.
    apply NoDup_remove_2 in Hnd. apply Hnd. rewrite E.
    apply in_or_app. left. apply in_map. exact Hx. }
  assert (Hl2 : forall x, In x l2 -> ident p <> ident x).
  { intros x Hx E. rewrite map_app in Hnd. simpl in Hnd.
    apply NoDup_remove_2 in Hnd. apply Hnd. rewrite E.
    apply in_or_app. right. apply in_map. exact Hx. }
  rewrite reconcile_all_app, reconcile_all_cons.
  destruct (reconcile_all_other t l1 p d Hl1) as [S1 H1].
  destruct (reconcile_all_other t l2 p (reconcile t p (reconcile_all t l1 d)) Hl2)
    as [_ H2].
  rewrite H2.
  assert (Hiff : in_sync p (reconcile_all t l1 d) <-> in_sync p d).
  { unfold in_sync. rewrite S1. reflexivity. }
  split; intros Hs.
  - unfold history_of at 1.
    rewrite reconcile_history_in_sync by (apply Hiff; exact Hs). exact H1.
  - destruct (reconcile_history_changed t p (reconcile_all t l1 d) Hk) as (e & He & R).
    { intros H. apply Hs. apply Hiff. exact H. }
    exists e. split; [|exact R].
    rewrite (history_of_snoc_same t p _ _ e He R), H1. reflexivity.
Qed.

(** ** History entries *)

Lemma changed_iff (p : observation) (d : database) : changed p d <-> ~ in_sync p d.
Proof.
  unfold changed, in_sync. split.
  - intros [H|(row & H & Hd)] (r & Hr & H1 & H2).
    + congruence.
    + assert (r = row) by congruence. subst. destruct Hd; contradiction.
  - intros Hn. destruct (snapshot p d) as [row|]; [|left; reflexivity].
    right. exists row. split; [reflexivity|].
    destruct (Z.eq_dec (UnifiedPrice.sell_price row) (sell_price p)) as [H1|H1];
      [|left; exact H1].
    destruct (Z.eq_dec (UnifiedPrice.buy_price row) (buy_price p)) as [H2|H2];
      [|right; exact H2].
    exfalso. apply Hn. exists row. auto.
Qed.

Lemma committed_eq (batch : list observation) (t : datetime) (d : database) :
  committed batch t d = reconcile_all t batch d.
Proof. unfold committed. rewrite save_prices_reliable. reflexivity. Qed.

(** C2, as the code has it.  For every observation the loop of the writer
    processes, a History Entry with the new values is appended exactly when
    the key has no snapshot row or the stored sell or buy price differs; when
    the prices are identical the history is left alone and the row is only
    refreshed in place (prices unchanged; currency, source, status and
    [last_update] rewritten).  When no two observations of a set share their
    key, committing the set twice in a row makes the second commit append
    nothing, and the first commit appends, per observation, one entry if its
    key was new or its prices differed and none otherwise. *)
Theorem C2_history_only_on_change :
  (forall (t : datetime) (p : observation) (s s' : Session),
      Main.save_one t p s = (Ok tt, s') -> Main.key p <> "" ->
      ((exists e, price_history (pending s') = price_history (pending s) ++ [e]
                  /\ records t p e)
       <-> changed p (pending s))
      /\ (~ changed p (pending s) ->
          price_history (pending s') = price_history (pending s)
          /\ unified_prices (pending s')
             = update_first (Main.same_key p) (Main.refresh t p)
                 (unified_prices (pending s))
          /\ exists row, snapshot p (pending s) = Some row
                         /\ snapshot p (pending s') = Some (Main.refresh t p row)
                         /\ UnifiedPrice.sell_price (Main.refresh t p row)
                            = UnifiedPrice.sell_price row
                         /\ UnifiedPrice.buy_price (Main.refresh t p row)
                            = UnifiedPrice.buy_price row))
  /\ (forall (d : database) (batch : list observation) (t1 t2 : datetime),
         NoDup (map ident batch) ->
         price_history (committed batch t2 (committed batch t1 d))
         = price_history (committed batch t1 d)
         /\ forall p, In p batch -> Main.key p <> "" ->
              (~ changed p d ->
               history_of p (committed batch t1 d) = history_of p d)
              /\ (changed p d ->
                  exists e, history_of p (committed batch t1 d) = history_of p d ++ [e]
                            /\ records t1 p e)).
Proof.
  split.
  - intros t p s s' Hrun Hk. apply save_one_ok in Hrun. destruct Hrun as [_ Hp].
    rewrite Hp. split; [split|].
    + intros (e & He & _). apply changed_iff. intros Hs.
      rewrite (reconcile_history_in_sync t p _ Hs) in He.
      apply (f_equal (@List.length _)) in He. rewrite length_app in He. simpl in He. lia.
    + intros Hc. apply reconcile_history_changed; [exact Hk|].
      apply changed_iff. exact Hc.
    + intros Hn.
      assert (Hs : in_sync p (pending s)).
      { destruct (in_sync_dec p (pending s)) as [H|H]; [exact H|].
        exfalso. apply Hn. apply changed_iff. exact H. }
      split; [apply reconcile_history_in_sync; exact Hs|].
      split; [apply reconcile_rows_in_sync; assumption|].
      destruct Hs as (row & Hr & H1 & H2). exists row. split; [exact Hr|].
      split; [|simpl; auto].
      unfold snapshot. rewrite reconcile_rows_in_sync; [|exact Hk|exists row; auto].
      rewrite find_update_first_same.
      * unfold snapshot in Hr. rewrite Hr. reflexivity.
      * intros x Hx. rewrite same_key_refresh. exact Hx.
  - intros d batch t1 t2 Hnd. rewrite !committed_eq. split.
    + apply second_pass_history; [exact Hnd|].
      intros p Hp Hk. apply first_pass_in_sync; assumption.
    + intros p Hp Hk.
      destruct (first_pass_history t1 batch d p Hnd Hp Hk) as [H1 H2]. split.
      * intros Hn. apply H1.
        destruct (in_sync_dec p d) as [H|H]; [exact H|].
        exfalso. apply Hn. apply changed_iff. exact H.
      * intros Hc. apply H2. apply changed_iff. exact Hc.
Qed.

(** A set that lists one key twice with different prices: the first commit
    appends two entries for the key and the second commit two more. *)
Lemma C2_same_set_twice_appends_again :
  List.length (price_history (committed twice_21 10 empty_db)) = 2%nat
  /\ List.length (price_history (committed twice_21 20 (committed twice_21 10 empty_db)))
     = 4%nat.
Proof. split; vm_compute; reflexivity. Qed.

(** ** Manual overrides *)

Lemma dict_get_filter (k : string) (f : Setting.t -> bool) (l : list Setting.t) :
  (forall x, Setting.key x = k -> f x = true) ->
  Gold.dict_get k (filter f l) = Gold.dict_get k l.
Proof.
  intros Hf. unfold Gold.dict_get. generalize (@None (option string)).
  induction l as [|x l IH]; intros acc; simpl; [reflexivity|].
  destruct (f x) eqn:E; simpl.
  - apply IH.
  - destruct (Setting.key x =? k)%string eqn:Ek.
    + apply String.eqb_eq in Ek. rewrite (Hf x Ek) in E. discriminate.
    + apply IH.
Qed.

Lemma like_percent (s : string) : Gold.like "%" s = true.
Proof.
  induction s as [|a s IH]; [reflexivity|].
  simpl. simpl in IH. exact IH.
Qed.

Lemma like_manual_price (k : string) :
  Gold.like "manual_price_%" ("manual_price_" ++ k) = true.
Proof. exact (like_percent k). Qed.

Lemma float_truthy (v : string) (x : price) :
  Py.float v = Some x -> Py.truthy (Some v) = true.
Proof. destruct v; [discriminate|reflexivity]. Qed.

(** The settings the read endpoint selects. *)
Lemma selected_settings (k : string) (l : list Setting.t) :
  let selected :=
    filter (fun s => (Setting.key s =? "price_offset")%string
                     || Gold.like "manual_price_%" (Setting.key s)) l in
  Gold.dict_get "price_offset" selected = Gold.dict_get "price_offset" l
  /\ Gold.dict_get ("manual_price_" ++ k) selected
     = Gold.dict_get ("manual_price_" ++ k) l.
Proof.
  cbv zeta. split; apply dict_get_filter; intros x ->.
  - reflexivity.
  - rewrite like_manual_price. apply orb_true_r.
Qed.

Lemma present_manual (l : list Setting.t) (offset manual_val : price) (v : string)
    (p : UnifiedPrice.t) :
  Gold.dict_get ("manual_price_" ++ UnifiedPrice.key p) l = Some (Some v) ->
  Py.float v = Some manual_val ->
  GoldPrice.sell_price (Gold.present l offset p) = manual_val
  /\ GoldPrice.buy_price (Gold.present l offset p) = manual_val
  /\ GoldPrice.source_status (Gold.present l offset p) = "Manual".
Proof.
  intros Hd Hf. unfold Gold.present. rewrite Hd, (float_truthy v manual_val Hf).
  simpl. rewrite Hf. simpl. auto.
Qed.

Lemma present_id_karat (l : list Setting.t) (offset : price) (p : UnifiedPrice.t) :
  GoldPrice.id (Gold.present l offset p) = UnifiedPrice.id p
  /\ GoldPrice.karat (Gold.present l offset p) = UnifiedPrice.key p.
Proof.
  unfold Gold.present.
  destruct (Gold.dict_get _ l) as [x|]; [|split; reflexivity].
  destruct (Py.truthy x); [|split; reflexivity].
  destruct (Py.float (Py.str x)); split; reflexivity.
Qed.

Lemma read_current_prices_reliable (d : database) (offset : price) :
  Py.float (Py.str (Py.or_ (Py.get (Gold.dict_get "price_offset" (settings d)) (Some "0"))
                           (Some "0"))) = Some offset ->
  exists l,
    (forall k, Gold.dict_get ("manual_price_" ++ k) l
               = Gold.dict_get ("manual_price_" ++ k) (settings d))
    /\ fst (Gold.prices_request d None)
       = Ok (map (Gold.present l offset) (filter Gold.gold_egypt (unified_prices d))).
Proof.
  intros Hoff.
  exists (filter (fun s => (Setting.key s =? "price_offset")%string
                           || Gold.like "manual_price_%" (Setting.key s)) (settings d)).
  split.
  - intros k. apply (selected_settings k).
  - unfold Gold.prices_request, Main.iteration, Gold.read_current_prices.
    rewrite bind_run, query_reliable by reflexivity.
    change (pending (SessionLocal d None)) with d.
    destruct (filter Gold.gold_egypt (unified_prices d)) as [|r rows] eqn:E.
    + reflexivity.
    + rewrite bind_run, query_reliable by reflexivity.
      change (pending (SessionLocal d None)) with d.
      destruct (selected_settings "" (settings d)) as [H _]. cbv zeta in H.
      rewrite H, Hoff. reflexivity.
Qed.

Lemma save_prices_settings (t : datetime) (batch : list observation) (d : database)
    (b : option nat) :
  settings (snd (Main.iteration (Main.save_prices_to_db batch t) d b)) = settings d.
Proof.
  destruct (save_prices_cases t batch d b) as [H|[e H]]; rewrite H; simpl.
  - apply reconcile_all_frame.
  - reflexivity.
Qed.



(** ** An override set by the operator, then a commit, then a read *)

Lemma float_str_of_float (x : price) : Py.float (Py.str_of_float x) = Some x.
Proof.
  unfold Py.float, Py.str_of_float. rewrite NilZero.isi.
  - simpl. rewrite DecimalZ.of_to. reflexivity.
  - destruct x; simpl; try discriminate.
    intros [= H]. apply (DecimalPos.Unsigned.to_uint_nonnil _ H).
  - destruct x; simpl; try discriminate.
    intros [= H]. apply (DecimalPos.Unsigned.to_uint_nonnil _ H).
Qed.

Lemma dict_get_fold (k : string) (l : list Setting.t) (acc : option (option string)) :
  fold_left (fun acc s => if (Setting.key s =? k)%string then Some (Setting.value s) else acc)
            l acc
  = match Gold.dict_get k l with
    | Some v => Some v
    | None => acc
    end.
Proof.
  unfold Gold.dict_get. revert acc. induction l as [|x l IH]; intros acc; simpl.
  - reflexivity.
  - rewrite IH. rewrite (IH (if (Setting.key x =? k)%string then _ else None)).
    destruct (fold_left _ l None); [reflexivity|].
    destruct (Setting.key x =? k)%string; reflexivity.
Qed.

Lemma dict_get_cons (k : string) (x : Setting.t) (l : list Setting.t) :
  Gold.dict_get k (x :: l)
  = match Gold.dict_get k l with
    | Some v => Some v
    | None => if (Setting.key x =? k)%string then Some (Setting.value x) else None
    end.
Proof. unfold Gold.dict_get at 1. simpl. apply dict_get_fold. Qed.

Lemma dict_get_absent (k : string) (l : list Setting.t) :
  ~ In k (map Setting.key l) -> Gold.dict_get k l = None.
Proof.
  induction l as [|x l IH]; intros H; [reflexivity|].
  rewrite dict_get_cons, IH.
  - destruct (Setting.key x =? k)%string eqn:E; [|reflexivity].
    apply String.eqb_eq in E. exfalso. apply H. left. exact E.
  - intros Hin. apply H. right. exact Hin.
Qed.

Lemma dict_get_snoc (k : string) (v : option string) (l : list Setting.t) :
  Gold.dict_get k (l ++ [Setting.mk k v]) = Some v.
Proof.
  unfold Gold.dict_get. rewrite fold_left_app. simpl.
  rewrite String.eqb_refl. reflexivity.
Qed.

Lemma dict_get_snoc_other (k k' : string) (v : option string) (l : list Setting.t) :
  k <> k' -> Gold.dict_get k' (l ++ [Setting.mk k v]) = Gold.dict_get k' l.
Proof.
  intros H. unfold Gold.dict_get. rewrite fold_left_app. simpl.
  apply String.eqb_neq in H. rewrite H. reflexivity.
Qed.

Lemma dict_get_updated (k : string) (v : option string) (l : list Setting.t) :
  NoDup (map Setting.key l) -> In k (map Setting.key l) ->
  Gold.dict_get k
    (update_first (Admin.is_key k) (fun s => Setting.mk (Setting.key s) v) l)
  = Some v.
Proof.
  induction l as [|x l IH]; intros Hnd Hin; [destruct Hin|].
  simpl. unfold Admin.is_key at 1.
  inversion Hnd as [|? ? Hx Hl]; subst.
  destruct (Setting.key x =? k)%string eqn:E.
  - apply String.eqb_eq in E. rewrite dict_get_cons, dict_get_absent.
    + simpl. rewrite E, String.eqb_refl. reflexivity.
    + rewrite <- E. exact Hx.
  - rewrite dict_get_cons, IH; [reflexivity|exact Hl|].
    destruct Hin as [H|H]; [|exact H].
    apply String.eqb_neq in E. contradiction.
Qed.

Lemma dict_get_updated_other (k k' : string) (v : option string) (l : list Setting.t) :
  k <> k' ->
  Gold.dict_get k'
    (update_first (Admin.is_key k) (fun s => Setting.mk (Setting.key s) v) l)
  = Gold.dict_get k' l.
Proof.
  intros Hne. induction l as [|x l IH]; [reflexivity|].
  simpl. unfold Admin.is_key at 1.
  destruct (Setting.key x =? k)%string eqn:E.
  - rewrite !dict_get_cons. simpl. apply String.eqb_eq in E.
    assert (Hk : (Setting.key x =? k')%string = false).
    { apply String.eqb_neq. rewrite E. exact Hne. }
    rewrite Hk. reflexivity.
  - rewrite !dict_get_cons, IH. reflexivity.
Qed.

Lemma first_setting_in (k : string) (d : database) :
  first_setting k d <> None <-> In k (map Setting.key (settings d)).
Proof.
  unfold first_setting. induction (settings d) as [|x l IH]; simpl.
  - split; [intros H; contradiction|intros []].
  - destruct (Setting.key x =? k)%string eqn:E.
    + apply String.eqb_eq in E. split; [intros _; left; exact E|discriminate].
    + apply String.eqb_neq in E. rewrite IH. split; [intros H; right; exact H|].
      intros [H|H]; [contradiction|exact H].
Qed.

Lemma set_override_settings (d : database) (karat : string) (price_val : price)
    (now : datetime) :
  settings (snd (Admin.manual_price_request d None karat (Some price_val) now))
  = match first_setting ("manual_price_" ++ karat) d with
    | Some _ =>
        update_first (Admin.is_key ("manual_price_" ++ karat))
          (fun s => Setting.mk (Setting.key s) (Some (Py.str_of_float price_val)))
          (settings d)
    | None =>
        settings d
        ++ [Setting.mk ("manual_price_" ++ karat) (Some (Py.str_of_float price_val))]
    end.
Proof.
  unfold Admin.manual_price_request, Main.iteration, Admin.update_manual_price.
  rewrite bind_run, query_reliable by reflexivity.
  change (pending (SessionLocal d None)) with d. cbv beta iota.
  rewrite bind_run, bind_run.
  destruct (first_setting ("manual_price_" ++ karat) d) as [x|];
    rewrite modify_run, bind_run, modify_run, bind_run, query_reliable by reflexivity;
    cbn [pending store budget];
    match goal with
    | |- context [find ?f ?l] => destruct (find f l)
    end;
    try rewrite modify_run; unfold ret, commit;
    rewrite bind_run, execute_reliable by reflexivity; reflexivity.
Qed.

(** After the operator has set an override for a karat on a store whose
    setting keys are distinct, the prices read after any automated commit show
    the operator's price and [Manual] for that karat. *)
Lemma override_set_then_commit_then_read (d : database) (b : option nat)
    (karat : string) (price_val offset : price) (now update_time : datetime)
    (prices_data : list observation) :
  NoDup (map Setting.key (settings d)) ->
  Py.float (Py.str (Py.or_ (Py.get (Gold.dict_get "price_offset" (settings d)) (Some "0"))
                           (Some "0"))) = Some offset ->
  exists items,
    fst (Gold.prices_request
           (snd (Main.iteration (Main.save_prices_to_db prices_data update_time)
                   (snd (Admin.manual_price_request d None karat (Some price_val) now))
                   b))
           None) = Ok items
    /\ forall g, In g items -> GoldPrice.karat g = karat ->
         GoldPrice.sell_price g = price_val /\ GoldPrice.buy_price g = price_val
         /\ GoldPrice.source_status g = "Manual".
Proof.
  intros Hnd Hoff.
  set (d1 := snd (Admin.manual_price_request d None karat (Some price_val) now)).
  set (d2 := snd (Main.iteration (Main.save_prices_to_db prices_data update_time) d1 b)).
  assert (Hs2 : settings d2 = settings d1) by apply save_prices_settings.
  assert (Hne : ("manual_price_" ++ karat)%string <> "price_offset")
    by (simpl; discriminate).
  assert (Hkey : Gold.dict_get ("manual_price_" ++ karat) (settings d1)
                 = Some (Some (Py.str_of_float price_val))
                 /\ Gold.dict_get "price_offset" (settings d1)
                    = Gold.dict_get "price_offset" (settings d)).
  { unfold d1. rewrite set_override_settings.
    destruct (first_setting ("manual_price_" ++ karat) d) as [x|] eqn:E.
    - split.
      + apply dict_get_updated; [exact Hnd|].
        apply first_setting_in. rewrite E. discriminate.
      + apply dict_get_updated_other. exact Hne.
    - split; [apply dict_get_snoc|apply dict_get_snoc_other; exact Hne]. }
  destruct Hkey as [Hk Ho].
  destruct (read_current_prices_reliable d2 offset) as (l & Hl & Hr).
  { rewrite Hs2, Ho. exact Hoff. }
  eexists. split; [exact Hr|].
  intros g Hg Hkarat. apply in_map_iff in Hg. destruct Hg as (row & <- & _).
  destruct (present_id_karat l offset row) as [_ Hrow]. rewrite Hrow in Hkarat.
  apply (present_manual l offset price_val (Py.str_of_float price_val) row).
  - rewrite Hl, Hs2, Hkarat. exact Hk.
  - apply float_str_of_float.
Qed.

(** ** The gold manager *)

Lemma fetch_prices_fst (a : Engine.source) (r : Engine.response) (now : datetime)
    (e : option string) :
  fst (Engine.fetch_prices a r now e) = fst (Engine.fetch_prices a r now None).
Proof. destruct r; [destruct a|]; reflexivity. Qed.

Lemma manager_step_fail (web : Engine.source -> Engine.response) (now : datetime)
    (index : nat) (a : Engine.source) (rest : list Engine.source) (m : Engine.manager) :
  valid_prices web now a = [] ->
  Engine.get_latest_prices_from web now index (a :: rest) m
  = Engine.get_latest_prices_from web now (S index) rest
      (Engine.record_fetch m a
         (snd (Engine.fetch_prices a (web a) now (Engine.last_error m a)))).
Proof.
  intros H. unfold valid_prices, fetched in H.
  rewrite <- (fetch_prices_fst a (web a) now (Engine.last_error m a)) in H.
  simpl. destruct (Engine.fetch_prices a (web a) now (Engine.last_error m a)) as [prices e].
  simpl in *. rewrite H. reflexivity.
Qed.

Lemma manager_step_success (web : Engine.source -> Engine.response) (now : datetime)
    (index : nat) (a : Engine.source) (rest : list Engine.source) (m : Engine.manager) :
  valid_prices web now a <> [] ->
  Engine.get_latest_prices_from web now index (a :: rest) m
  = (map (Engine.normalize (if (index =? 0)%nat then "Primary" else "Fallback") now)
         (valid_prices web now a),
     Engine.record_fetch m a
       (snd (Engine.fetch_prices a (web a) now (Engine.last_error m a)))).
Proof.
  intros H. unfold valid_prices, fetched in *.
  rewrite <- (fetch_prices_fst a (web a) now (Engine.last_error m a)) in *.
  simpl. destruct (Engine.fetch_prices a (web a) now (Engine.last_error m a)) as [prices e].
  simpl in *. destruct (filter _ prices); [contradiction|reflexivity].
Qed.

Lemma manager_first_success (web : Engine.source -> Engine.response) (now : datetime)
    (pre : list Engine.source) (a : Engine.source) (post : list Engine.source) :
  forall (index : nat) (m : Engine.manager),
  (forall x, In x pre -> valid_prices web now x = []) ->
  valid_prices web now a <> [] ->
  fst (Engine.get_latest_prices_from web now index (pre ++ a :: post) m)
  = map (Engine.normalize
           (if (index + List.length pre =? 0)%nat then "Primary" else "Fallback") now)
        (valid_prices web now a)
  /\ Engine.attempted (snd (Engine.get_latest_prices_from web now index (pre ++ a :: post) m))
     = Engine.attempted m ++ pre ++ [a].
Proof.
  induction pre as [|x pre IH]; intros index m Hpre Ha.
  - simpl app. rewrite manager_step_success by exact Ha.
    rewrite Nat.add_0_r. split; reflexivity.
  - simpl app. rewrite manager_step_fail by (apply Hpre; left; reflexivity).
    destruct (IH (S index) (Engine.record_fetch m x
                (snd (Engine.fetch_prices x (web x) now (Engine.last_error m x)))))
      as [H1 H2].
    { intros y Hy. apply Hpre. right. exact Hy. }
    { exact Ha. }
    rewrite H1, H2. simpl List.length. rewrite Nat.add_succ_r. split; [reflexivity|].
    simpl. rewrite <- app_assoc. reflexivity.
Qed.

Lemma manager_all_fail (web : Engine.source -> Engine.response) (now : datetime)
    (sources : list Engine.source) :
  forall (index : nat) (m : Engine.manager),
  (forall x, In x sources -> valid_prices web now x = []) ->
  fst (Engine.get_latest_prices_from web now index sources m) = []
  /\ Engine.attempted (snd (Engine.get_latest_prices_from web now index sources m))
     = Engine.attempted m ++ sources.
Proof.
  induction sources as [|x sources IH]; intros index m H.
  - simpl. rewrite app_nil_r. split; reflexivity.
  - rewrite manager_step_fail by (apply H; left; reflexivity).
    destruct (IH (S index) (Engine.record_fetch m x
                (snd (Engine.fetch_prices x (web x) now (Engine.last_error m x)))))
      as [H1 H2].
    { intros y Hy. apply H. right. exact Hy. }
    rewrite H1, H2. split; [reflexivity|]. simpl. rewrite <- app_assoc. reflexivity.
Qed.

(** ** One iteration of the gold loop *)



(** ** What adapters return *)

Lemma dict_put_in (k : string) (v : observation) (d : list (string * observation))
    (x : observation) :
  In x (map snd (Engine.dict_put k v d)) -> In x (map snd d) \/ x = v.
Proof.
  induction d as [|[k' v'] d IH]; simpl.
  - intros [H|[]]. right. symmetry. exact H.
  - destruct (k' =? k)%string; simpl.
    + intros [H|H]; [right; symmetry; exact H|left; right; exact H].
    + intros [H|H]; [left; left; exact H|].
      destruct (IH H) as [H'|H']; [left; right; exact H'|right; exact H'].
Qed.

Lemma unique_prices_in (prices : list observation) (x : observation) :
  In x (Engine.unique_prices prices) -> In x prices.
Proof.
  unfold Engine.unique_prices.
  assert (H : forall acc, In x (map snd (fold_left
                (fun d p => Engine.dict_put (Py.str (o_karat p)) p d) prices acc)) ->
              In x (map snd acc) \/ In x prices).
  { induction prices as [|p prices IH]; intros acc; simpl; [auto|].
    intros Hx. destruct (IH _ Hx) as [H|H]; [|right; right; exact H].
    destruct (dict_put_in _ _ _ _ H) as [H'|H']; [left; exact H'|].
    right. left. symmetry. exact H'. }
  intros Hx. destruct (H [] Hx) as [[]|Hin]. exact Hin.
Qed.

Ltac one_row :=
  match goal with
  | H : In _ (if ?c then _ else _) |- _ => destruct c; one_row
  | H : In _ [] |- _ => destruct H
  | H : In ?p [_] |- _ => destruct H as [<-|[]]
  end.

Lemma parse_from_adapter (a : Engine.source) (now : datetime) (pg : Engine.page)
    (p : observation) :
  In p (Engine.parse a now pg) -> from_adapter a now p.
Proof.
  unfold from_adapter. destruct a; simpl; intros H.
  - apply in_flat_map in H. destruct H as (r & _ & H).
    unfold Engine.gold_era_row in H. one_row. eauto.
  - apply in_flat_map in H. destruct H as (r & _ & H).
    unfold Engine.isagha_row in H. one_row. eauto.
  - apply in_flat_map in H. destruct H as (r & _ & H).
    unfold Engine.gold_bullion_row in H. one_row. eauto.
  - apply in_flat_map in H. destruct H as (r & _ & H).
    unfold Engine.egypt_gold_price_today_row in H. one_row. eauto.
  - apply unique_prices_in in H.
    destruct (flat_map (Engine.gold_price_live_card now) (Engine.cards pg)) eqn:E.
    + apply in_flat_map in H. destruct H as (r & _ & H).
      unfold Engine.gold_price_live_row in H. one_row. eauto.
    + rewrite <- E in H. apply in_flat_map in H. destruct H as (c & _ & H).
      unfold Engine.gold_price_live_card in H. one_row. eauto.
  - apply in_flat_map in H. destruct H as (r & _ & H).
    unfold Engine.souq_price_today_row in H. one_row. eauto.
Qed.

Lemma fetched_from_adapter (web : Engine.source -> Engine.response) (now : datetime)
    (a : Engine.source) (p : observation) :
  In p (fetched web now a) -> from_adapter a now p.
Proof.
  unfold fetched, Engine.fetch_prices. destruct (web a) as [e|pg].
  - destruct a; intros [].
  - apply parse_from_adapter.
Qed.

Lemma valid_from_adapter (web : Engine.source -> Engine.response) (now : datetime)
    (a : Engine.source) (p : observation) :
  In p (valid_prices web now a) -> from_adapter a now p /\ 0 < sell_price p.
Proof.
  unfold valid_prices. intros H. apply filter_In in H. destruct H as [H1 H2].
  split; [apply (fetched_from_adapter web now a p H1)|]. apply Z.ltb_lt. exact H2.
Qed.

Lemma key_from_adapter (a : Engine.source) (now : datetime) (p : observation) :
  from_adapter a now p -> Main.key p <> "".
Proof.
  intros (k & sell & buy & ->). unfold Main.key. simpl.
  destruct k; simpl; discriminate.
Qed.

(** ** The row of a key after a batch *)


(** ** The currency manager *)


(** ** Primary and Fallback *)


(** ** Two banks in one currency cycle *)

(** C10.  In one currency cycle the first success over the enabled source
    ids is looked for once per bank, [nbe] then [bdc]: the output is the
    rates found for the first bank followed by those found for the second,
    and what is found for a bank depends only on what the sites answer for
    that bank.  So one output can hold rates of two different winning
    sources with both statuses: when Ta3weem answers for [nbe] only and
    Egrates answers for [bdc], the output holds a [Primary] rate of
    [Ta3weem_nbe] and a [Fallback] rate of [Egrates_bdc]. *)
Theorem C10_banks_fall_back_independently :
  (forall (db : option Session) (web : Currency.source -> Currency.response)
          (now : datetime),
      Currency.get_latest_rates db web now
      = Currency.bank_rates (Currency._get_enabled_sources_in_order db) web now "nbe"
          (Currency._get_enabled_sources_in_order db)
        ++ Currency.bank_rates (Currency._get_enabled_sources_in_order db) web now "bdc"
             (Currency._get_enabled_sources_in_order db))
  /\ (forall (enabled ids : list string) (web web' : Currency.source -> Currency.response)
             (now : datetime) (bank : string),
        (forall s, Currency.bank_id s = bank -> web s = web' s) ->
        Currency.bank_rates enabled web now bank ids
        = Currency.bank_rates enabled web' now bank ids)
  /\ (exists r1 r2,
        In r1 (Currency.get_latest_rates None mixed_web 0)
        /\ In r2 (Currency.get_latest_rates None mixed_web 0)
        /\ Rate.source r1 = "Ta3weem_nbe" /\ Rate.source_status r1 = Some "Primary"
        /\ Rate.source r2 = "Egrates_bdc" /\ Rate.source_status r2 = Some "Fallback").
Proof.
  split; [|split].
  - intros db web now. unfold Currency.get_latest_rates. simpl.
    rewrite app_nil_r. reflexivity.
  - intros enabled ids web web' now bank Hweb.
    induction ids as [|id ids IH]; simpl; [reflexivity|].
    destruct (Currency.sources_map id bank) as [src|] eqn:E; [|exact IH].
    assert (Hb : Currency.bank_id src = bank).
    { unfold Currency.sources_map in E. destruct (Currency.site_of_id id); [|discriminate].
      destruct ((bank =? "nbe")%string || (bank =? "bdc")%string); [|discriminate].
      injection E as <-. reflexivity. }
    rewrite <- (Hweb src Hb), IH. reflexivity.
  - exists (Rate.mk "USD" "US Dollar" 4790 4800 "Ta3weem_nbe" 0 (Some "Primary")),
           (Rate.mk "USD" "US Dollar" 4785 4795 "Egrates_bdc" 0 (Some "Fallback")).
    vm_compute. intuition.
Qed.

Lemma C10_banks_fall_back_independently_witness :
  Currency.bank_rates Currency.default_ids mixed_web 0 "nbe" Currency.default_ids
  = Currency.bank_rates Currency.default_ids
      (fun s => if (Currency.bank_id s =? "nbe")%string then mixed_web s
                else Currency.Failed "down")
      0 "nbe" Currency.default_ids.
Proof.
  apply (proj1 (proj2 C10_banks_fall_back_independently)).
  intros s Hs. rewrite Hs. reflexivity.
Defined.

(** ** The priority resolver *)











(** ** Invariants of a session *)

Lemma preserves_ret {A : Type} (P : database -> Prop) (a : A) : preserves P (ret a).
Proof. intros s H1 H2. split; assumption. Qed.

Lemma preserves_bind {A B : Type} (P : database -> Prop) (c : M A) (k : A -> M B) :
  preserves P c -> (forall a, preserves P (k a)) -> preserves P (bind c k).
Proof.
  intros Hc Hk s H1 H2. rewrite bind_run. specialize (Hc s H1 H2).
  destruct (c s) as [[a|e] s']; simpl in Hc; destruct Hc as [Hc1 Hc2].
  - apply Hk; assumption.
  - split; assumption.
Qed.

Lemma preserves_execute (P : database -> Prop) : preserves P execute.
Proof.
  intros s H1 H2. unfold execute. destruct (budget s) as [[|n]|]; split; assumption.
Qed.

Lemma preserves_query {A : Type} (P : database -> Prop) (f : database -> A) :
  preserves P (query f).
Proof.
  unfold query. apply preserves_bind; [apply preserves_execute|].
  intros _ s H1 H2. split; assumption.
Qed.

Lemma preserves_modify (P : database -> Prop) (f : database -> database) :
  (forall d, P d -> P (f d)) -> preserves P (modify f).
Proof. intros Hf s H1 H2. split; [exact H1|apply Hf; exact H2]. Qed.

Lemma preserves_commit (P : database -> Prop) : preserves P commit.
Proof.
  unfold commit. apply preserves_bind; [apply preserves_execute|].
  intros _ s H1 H2. split; exact H2.
Qed.

Lemma preserves_for_each {A : Type} (P : database -> Prop) (body : A -> M unit)
    (l : list A) :
  (forall x, preserves P (body x)) -> preserves P (for_each body l).
Proof.
  intros Hb. induction l as [|x l IH]; simpl.
  - apply preserves_ret.
  - apply preserves_bind; [apply Hb|intros _; exact IH].
Qed.

Lemma preserves_iteration {A : Type} (P : database -> Prop) (c : M A) (d : database)
    (b : option nat) :
  preserves P c -> P d -> P (snd (Main.iteration c d b)).
Proof.
  intros Hc Hd. unfold Main.iteration.
  destruct (Hc (SessionLocal d b) Hd Hd) as [H _].
  destruct (c (SessionLocal d b)) as [r s']. exact H.
Qed.

(** ** Snapshot rows are kept *)












(** ** The bank rate table *)








(** ** Sanity bands *)






Lemma manager_result_origin (web : Engine.source -> Engine.response) (now : datetime)
    (sources : list Engine.source) :
  forall (index : nat) (m : Engine.manager) (p : observation),
  In p (fst (Engine.get_latest_prices_from web now index sources m)) ->
  exists a q status, In a sources /\ In q (valid_prices web now a)
                     /\ p = Engine.normalize status now q.
Proof.
  induction sources as [|a sources IH]; intros index m p Hp; [destruct Hp|].
  destruct (valid_prices web now a) as [|v vs] eqn:E.
  - rewrite manager_step_fail in Hp by exact E.
    destruct (IH _ _ _ Hp) as (a' & q & st & Ha & Hq & Hpq).
    exists a', q, st. split; [right; exact Ha|]. split; assumption.
  - rewrite manager_step_success in Hp by (rewrite E; discriminate).
    simpl fst in Hp. apply in_map_iff in Hp. destruct Hp as (q & <- & Hq).
    exists a, q, (if (index =? 0)%nat then "Primary" else "Fallback").
    split; [left; reflexivity|]. split; [exact Hq|reflexivity].
Qed.



(** ** Errors of adapters *)

(** C6.  Every adapter turns a failure inside its [try] block into an empty
    list; GoldEra, Isagha and GoldBullion keep the error text in
    [last_error], the other three adapters leave [last_error] as it was.
    After a cycle in which every site timed out, the manager's GoldEra and
    GoldBullion adapters hold the text, its EgyptGoldPriceToday,
    GoldPriceLive and SouqPriceToday adapters hold nothing. *)
Theorem C6_error_text_kept_by_three_adapters :
  (forall (a : Engine.source) (e : string) (now : datetime) (last_error : option string),
      fst (Engine.fetch_prices a (Engine.Failed e) now last_error) = [])
  /\ (forall (s : Currency.source) (e : string) (now : datetime),
        Currency.fetch_rates s (Currency.Failed e) now = [])
  /\ Engine.fetch_prices Engine.GoldEraSource (Engine.Failed "timed out") 0 None
     = ([], Some "timed out")
  /\ Engine.fetch_prices Engine.EgyptGoldPriceTodaySource (Engine.Failed "timed out") 0 None
     = ([], None)
  /\ map (Engine.last_error (snd (Engine.get_latest_prices empty_db None dead_web 0)))
         [Engine.GoldEraSource; Engine.GoldBullionSource;
          Engine.EgyptGoldPriceTodaySource; Engine.GoldPriceLiveSource;
          Engine.SouqPriceTodaySource]
     = [Some "timed out"; Some "timed out"; None; None; None].
Proof.
  split; [|split; [|split; [|split]]].
  - intros a e now last_error. destruct a; reflexivity.
  - reflexivity.
  - reflexivity.
  - reflexivity.
  - vm_compute. reflexivity.
Qed.

(** ** The statements at concrete inputs *)


Lemma C2_history_only_on_change_witness :
  (exists e,
      price_history
        (pending (snd (Main.save_one 10 (gold21 100 90 "Primary")
                         (SessionLocal empty_db None))))
      = price_history (pending (SessionLocal empty_db None)) ++ [e]
      /\ records 10 (gold21 100 90 "Primary") e)
  /\ price_history (committed two_karats 20 (committed two_karats 10 empty_db))
     = price_history (committed two_karats 10 empty_db)
  /\ exists e,
       history_of (gold24 120 110 "Primary") (committed two_karats 10 empty_db)
       = history_of (gold24 120 110 "Primary") empty_db ++ [e]
       /\ records 10 (gold24 120 110 "Primary") e.
Proof.
  destruct C2_history_only_on_change as [H1 H2]. split; [|split].
  - destruct (H1 10 (gold21 100 90 "Primary") (SessionLocal empty_db None)
                (snd (Main.save_one 10 (gold21 100 90 "Primary")
                        (SessionLocal empty_db None)))) as [[_ H] _].
    + vm_compute. reflexivity.
    + vm_compute. discriminate.
    + apply H. left. vm_compute. reflexivity.
  - destruct (H2 empty_db two_karats 10 20) as [H _]; [|exact H].
    repeat constructor; vm_compute; intuition discriminate.
  - destruct (H2 empty_db two_karats 10 20) as [_ H].
    + repeat constructor; vm_compute; intuition discriminate.
    + destruct (H (gold24 120 110 "Primary")) as [_ H'].
      * right. left. reflexivity.
      * vm_compute. discriminate.
      * apply H'. left. vm_compute. reflexivity.
Defined.





(** * Further properties of the writer *)

Lemma reconcile_rows (t : datetime) (p : observation) (d : database) :
  unified_prices (reconcile t p d)
  = if (Main.key p =? "")%string then unified_prices d
    else match find (Main.same_key p) (unified_prices d) with
         | Some _ =>
             update_first (Main.same_key p) (Main.refresh t p) (unified_prices d)
         | None =>
             unified_prices d
             ++ [Main.new_price t p (fresh_id (map UnifiedPrice.id (unified_prices d)))]
         end.
Proof.
  unfold reconcile. destruct (Main.key p =? "")%string; [reflexivity|].
  destruct (find (Main.same_key p) (unified_prices d)) as [row|]; [|reflexivity].
  destruct (Main.price_changed row p); reflexivity.
Qed.

Lemma NoDup_snoc {A : Type} (l : list A) (x : A) :
  NoDup l -> ~ In x l -> NoDup (l ++ [x]).
Proof.
  induction l as [|y l IH]; intros Hnd Hx; simpl.
  - constructor; [intros []|constructor].
  - inversion Hnd as [|? ? Hy Hl]; subst. constructor.
    + intros Hin. apply in_app_or in Hin. destruct Hin as [Hin|[->|[]]].
      * contradiction.
      * apply Hx. left. reflexivity.
    + apply IH; [exact Hl|]. intros Hin. apply Hx. right. exact Hin.
Qed.

Lemma fresh_id_gt (ids : list Z) (i : Z) : In i ids -> i < fresh_id ids.
Proof.
  unfold fresh_id. induction ids as [|j ids IH]; [intros []|].
  cbn [fold_right In]. intros [->|H]; [lia|]. specialize (IH H). lia.
Qed.

Lemma reconcile_keys_distinct (t : datetime) (p : observation) (d : database) :
  NoDup (map row_key (unified_prices d)) ->
  NoDup (map row_key (unified_prices (reconcile t p d))).
Proof.
  intros H. rewrite reconcile_rows. destruct (Main.key p =? "")%string; [exact H|].
  destruct (find (Main.same_key p) (unified_prices d)) as [row|] eqn:E.
  - rewrite map_update_first by reflexivity. exact H.
  - rewrite map_app. apply NoDup_snoc; [exact H|].
    intros Hin. apply in_map_iff in Hin. destruct Hin as (r & Hr & Hin).
    assert (Hf := find_none _ _ E r Hin).
    assert (Ht : Main.same_key p r = true).
    { apply same_key_spec. exact Hr. }
    congruence.
Qed.

Lemma reconcile_ids_distinct (t : datetime) (p : observation) (d : database) :
  NoDup (map UnifiedPrice.id (unified_prices d)) ->
  NoDup (map UnifiedPrice.id (unified_prices (reconcile t p d))).
Proof.
  intros H. rewrite reconcile_rows. destruct (Main.key p =? "")%string; [exact H|].
  destruct (find (Main.same_key p) (unified_prices d)) as [row|] eqn:E.
  - rewrite map_update_first by reflexivity. exact H.
  - rewrite map_app. apply NoDup_snoc; [exact H|].
    simpl. intros Hin. apply fresh_id_gt in Hin. lia.
Qed.

(** X1. The writer keeps the snapshot table well formed: if no two rows share
    their (type, country, key), none do after a call, and if no two rows
    share their id, none do after a call, whether the call returns or the
    store fails on the way. *)
Theorem X1_writer_keeps_keys_and_ids_distinct (d : database) (b : option nat)
    (prices_data : list observation) (update_time : datetime) :
  (NoDup (map row_key (unified_prices d)) ->
   NoDup (map row_key
            (unified_prices
               (snd (Main.iteration (Main.save_prices_to_db prices_data update_time)
                       d b)))))
  /\ (NoDup (map UnifiedPrice.id (unified_prices d)) ->
      NoDup (map UnifiedPrice.id
               (unified_prices
                  (snd (Main.iteration (Main.save_prices_to_db prices_data update_time)
                          d b))))).
Proof.
  assert (Hall : forall l x,
             (NoDup (map row_key (unified_prices x)) ->
              NoDup (map row_key (unified_prices (reconcile_all update_time l x))))
             /\ (NoDup (map UnifiedPrice.id (unified_prices x)) ->
                 NoDup (map UnifiedPrice.id
                          (unified_prices (reconcile_all update_time l x))))).
  { induction l as [|p l IH]; intros x; [split; auto|].
    rewrite reconcile_all_cons. destruct (IH (reconcile update_time p x)) as [H1 H2].
    split; intros H.
    - apply H1. apply reconcile_keys_distinct. exact H.
    - apply H2. apply reconcile_ids_distinct. exact H. }
  destruct (save_prices_cases update_time prices_data d b) as [H|[e H]]; rewrite H; simpl.
  - apply Hall.
  - split; auto.
Qed.

Lemma nth_error_update_first_other {A : Type} (f : A -> bool) (g : A -> A)
    (l : list A) (i : nat) (r : A) :
  f r = false -> nth_error l i = Some r -> nth_error (update_first f g l) i = Some r.
Proof.
  intros Hf. revert i. induction l as [|x l IH]; intros i H; [destruct i; discriminate|].
  simpl. destruct (f x) eqn:E.
  - destruct i; simpl in *; [|exact H]. injection H as ->. congruence.
  - destruct i; simpl in *; [exact H|]. apply IH. exact H.
Qed.

Lemma reconcile_other_row (t : datetime) (p : observation) (d : database) (i : nat)
    (r : UnifiedPrice.t) :
  Main.same_key p r = false ->
  nth_error (unified_prices d) i = Some r ->
  nth_error (unified_prices (reconcile t p d)) i = Some r.
Proof.
  intros Hf H. rewrite reconcile_rows. destruct (Main.key p =? "")%string; [exact H|].
  destruct (find (Main.same_key p) (unified_prices d)).
  - apply nth_error_update_first_other; assumption.
  - rewrite nth_error_app1; [exact H|]. apply nth_error_Some. congruence.
Qed.

(** X2. The writer touches only the keys it is given: a snapshot row whose
    (type, country, key) is the key of no observation of the batch is found
    after the call at its place with every field as before, whether the call
    returns or the store fails on the way. *)
Theorem X2_writer_leaves_other_keys_alone (d : database) (b : option nat)
    (prices_data : list observation) (update_time : datetime) (i : nat)
    (r : UnifiedPrice.t) :
  nth_error (unified_prices d) i = Some r ->
  (forall p, In p prices_data -> row_key r <> ident p) ->
  nth_error
    (unified_prices
       (snd (Main.iteration (Main.save_prices_to_db prices_data update_time) d b))) i
  = Some r.
Proof.
  intros Hr Hother.
  destruct (save_prices_cases update_time prices_data d b) as [H|[e H]]; rewrite H; simpl;
    [|exact Hr].
  clear H. revert d Hr. induction prices_data as [|p l IH]; intros d Hr; [exact Hr|].
  rewrite reconcile_all_cons. apply IH.
  - intros q Hq. apply Hother. right. exact Hq.
  - apply reconcile_other_row; [|exact Hr].
    destruct (Main.same_key p r) eqn:E; [|reflexivity].
    apply same_key_spec in E. exfalso. apply (Hother p (or_introl eq_refl)). exact E.
Qed.

(** ** The history only grows *)

Lemma grows_history_refl (d : database) : grows_history d d.
Proof. exists []. rewrite app_nil_r. reflexivity. Qed.

Lemma grows_history_append (d0 d : database) (f : list PriceHistory.t -> PriceHistory.t) :
  grows_history d0 d ->
  grows_history d0 (set_price_history (fun h => h ++ [f h]) d).
Proof.
  intros [added H]. exists (added ++ [f (price_history d)]). simpl.
  rewrite H at 1. rewrite app_assoc. reflexivity.
Qed.

Lemma history_preserves_save_one (d0 : database) (t : datetime) (p : observation) :
  preserves (grows_history d0) (Main.save_one t p).
Proof.
  unfold Main.save_one. destruct (Main.key p =? "")%string; [apply preserves_ret|].
  apply preserves_bind; [apply preserves_query|]. intros [row|].
  - apply preserves_bind.
    + apply preserves_modify. intros d H. exact H.
    + intros _. destruct (Main.price_changed row p); [|apply preserves_ret].
      apply preserves_modify. intros d.
      apply (grows_history_append d0 d
               (fun h => Main.new_history t p (UnifiedPrice.id row)
                           (fresh_id (map PriceHistory.id h)))).
  - intros s H1 H2. rewrite bind_run. unfold Main.add_price.
    apply (preserves_bind (grows_history d0) flush
             (fun _ => Main.add_history t p
                         (fresh_id (map UnifiedPrice.id (unified_prices (pending s))))));
      [apply preserves_execute| |exact H1|exact H2].
    intros _. apply preserves_modify. intros d.
    apply (grows_history_append d0 d
             (fun h => Main.new_history t p _ (fresh_id (map PriceHistory.id h)))).
Qed.

Lemma history_preserves_save_prices (d0 : database) (batch : list observation)
    (t : datetime) :
  preserves (grows_history d0) (Main.save_prices_to_db batch t).
Proof.
  unfold Main.save_prices_to_db. destruct batch as [|p batch]; [apply preserves_ret|].
  apply preserves_bind; [|intros _; apply preserves_commit].
  apply preserves_for_each. intros x. apply history_preserves_save_one.
Qed.

Lemma history_preserves_manual_price (d0 : database) (karat : string)
    (price : option price) (now : datetime) :
  preserves (grows_history d0) (Admin.update_manual_price karat price now).
Proof.
  unfold Admin.update_manual_price.
  apply preserves_bind; [apply preserves_query|]. intros db_setting.
  apply preserves_bind; [|intros _; apply preserves_commit].
  destruct price as [price_val|].
  - apply preserves_bind.
    + destruct db_setting; apply preserves_modify; intros d H; exact H.
    + intros _. apply preserves_bind.
      * apply preserves_modify. intros d.
        apply (grows_history_append d0 d
                 (fun h => Admin.manual_history karat price_val now
                             (fresh_id (map PriceHistory.id h)))).
      * intros _. apply preserves_bind; [apply preserves_query|]. intros [row|].
        -- apply preserves_modify. intros d H. exact H.
        -- apply preserves_ret.
  - destruct db_setting; [apply preserves_modify; intros d H; exact H|apply preserves_ret].
Qed.

(** X3. The history is append-only: after a call of the writer, after an
    iteration of the gold, currency or country loop, and after a manual
    override request (set or remove), the history is the history before with
    entries appended, never with an entry changed or removed, whether the
    operation succeeds or the store fails on the way. *)
Theorem X3_history_is_append_only (d : database) (b : option nat) :
  (forall (prices_data : list observation) (update_time : datetime),
      grows_history d
        (snd (Main.iteration (Main.save_prices_to_db prices_data update_time) d b)))
  /\ (forall (b_order : option nat) (web : Engine.source -> Engine.response)
             (now : datetime),
        grows_history d (snd (Main.run_scraper_periodically d b b_order web now)))
  /\ (forall (web : Currency.source -> Currency.response) (now : datetime),
        grows_history d (snd (Main.run_currency_scraper_periodically d b web now)))
  /\ (forall (web : string -> Country.response) (now : datetime),
        grows_history d (snd (Country.run_country_scraper_periodically d b web now)))
  /\ (forall (karat : string) (price : option price) (now : datetime),
        grows_history d (snd (Admin.manual_price_request d b karat price now))).
Proof.
  split; [|split; [|split; [|split]]].
  - intros prices_data update_time.
    apply preserves_iteration; [apply history_preserves_save_prices|apply grows_history_refl].
  - intros b_order web now. unfold Main.run_scraper_periodically.
    apply preserves_iteration; [|apply grows_history_refl].
    unfold Main.run_scraper_body.
    apply preserves_bind; [apply preserves_query|]. intros _ s H1 H2.
    destruct (fst (Engine.get_latest_prices (store s) b_order web now)) as [|p l].
    + split; assumption.
    + apply (preserves_bind (grows_history d) (Main.save_prices_to_db (p :: l) now)
               (fun _ => ret true));
        [apply history_preserves_save_prices| |assumption|assumption].
      intros _. apply preserves_ret.
  - intros web now. unfold Main.run_currency_scraper_periodically.
    apply preserves_iteration; [|apply grows_history_refl].
    unfold Main.run_currency_scraper_body.
    apply preserves_bind; [apply preserves_query|]. intros _.
    apply preserves_bind; [apply preserves_query|]. intros _.
    destruct (Currency.get_all_currency_rates None web now) as [|r l];
      [apply preserves_ret|].
    apply preserves_bind; [|intros _; apply preserves_ret].
    unfold Main.save_currency_prices_to_db. apply history_preserves_save_prices.
  - intros web now. unfold Country.run_country_scraper_periodically.
    apply preserves_iteration; [|apply grows_history_refl].
    unfold Country.run_country_scraper_body.
    apply preserves_bind; [apply preserves_query|]. intros _.
    destruct (Country.get_all_country_prices web now) as [|p l]; [apply preserves_ret|].
    apply preserves_bind; [|intros _; apply preserves_ret].
    apply history_preserves_save_prices.
  - intros karat price now. unfold Admin.manual_price_request.
    apply preserves_iteration; [apply history_preserves_manual_price|apply grows_history_refl].
Qed.

(** ** History entries and the rows they name *)

Lemma in_update_first {A : Type} (f : A -> bool) (g : A -> A) (l : list A) (r : A) :
  In r l -> In r (update_first f g l) \/ In (g r) (update_first f g l).
Proof.
  induction l as [|x l IH]; [intros []|].
  simpl. destruct (f x).
  - intros [->|H]; [right; left; reflexivity|left; right; exact H].
  - intros [->|H]; [left; left; reflexivity|].
    destruct (IH H) as [H'|H']; [left|right]; right; exact H'.
Qed.

Lemma in_update_first_found {A : Type} (f : A -> bool) (g : A -> A) (l : list A) (r : A) :
  find f l = Some r -> In (g r) (update_first f g l).
Proof.
  induction l as [|x l IH]; [discriminate|].
  simpl. destruct (f x).
  - intros [= ->]. left. reflexivity.
  - intros H. right. apply IH. exact H.
Qed.

Lemma points_to_row_kept (t : datetime) (p : observation) (d : database)
    (e : PriceHistory.t) :
  points_to_row d e -> points_to_row (reconcile t p d) e.
Proof.
  intros (r & Hin & Hid & Hkey). unfold points_to_row. rewrite reconcile_rows.
  destruct (Main.key p =? "")%string; [exists r; auto|].
  destruct (find (Main.same_key p) (unified_prices d)).
  - destruct (in_update_first (Main.same_key p) (Main.refresh t p) _ r Hin) as [H|H].
    + exists r. auto.
    + exists (Main.refresh t p r). auto.
  - exists r. split; [apply in_or_app; left; exact Hin|]. auto.
Qed.

Lemma reconcile_entry_points (t : datetime) (p : observation) (d : database)
    (e : PriceHistory.t) :
  price_history (reconcile t p d) = price_history d ++ [e] ->
  points_to_row (reconcile t p d) e.
Proof.
  unfold points_to_row. rewrite reconcile_rows. unfold reconcile.
  destruct (Main.key p =? "")%string.
  - intros H. apply (f_equal (@List.length _)) in H. rewrite length_app in H.
    simpl in H. lia.
  - destruct (find (Main.same_key p) (unified_prices d)) as [row|] eqn:E.
    + destruct (Main.price_changed row p); simpl.
      * intros H. apply app_inv_head in H. injection H as <-.
        exists (Main.refresh t p row). split.
        -- apply in_update_first_found. exact E.
        -- split; [reflexivity|].
           apply find_some in E. destruct E as [_ E]. apply same_key_spec in E.
           symmetry. exact E.
      * intros H. apply (f_equal (@List.length _)) in H. rewrite length_app in H.
        simpl in H. lia.
    + simpl. intros H. apply app_inv_head in H. injection H as <-.
      eexists. split; [apply in_or_app; right; left; reflexivity|].
      split; reflexivity.
Qed.

Lemma skipn_snoc {A : Type} (n : nat) (l : list A) (x : A) :
  (n <= List.length l)%nat -> skipn n (l ++ [x]) = skipn n l ++ [x].
Proof.
  intros H. rewrite skipn_app.
  replace (n - List.length l)%nat with 0%nat by lia. reflexivity.
Qed.

Lemma reconcile_all_points (t : datetime) (batch : list observation) (n : nat) :
  forall d,
  (n <= List.length (price_history d))%nat ->
  (forall e, In e (skipn n (price_history d)) -> points_to_row d e) ->
  (n <= List.length (price_history (reconcile_all t batch d)))%nat
  /\ forall e, In e (skipn n (price_history (reconcile_all t batch d))) ->
               points_to_row (reconcile_all t batch d) e.
Proof.
  induction batch as [|p batch IH]; intros d Hn Hinv; [split; assumption|].
  rewrite reconcile_all_cons. apply IH.
  - destruct (reconcile_history_shape t p d) as [H|(e & H & _)]; rewrite H;
      [exact Hn|]. rewrite length_app. lia.
  - intros e He.
    destruct (reconcile_history_shape t p d) as [H|(e' & H & _)].
    + rewrite H in He. apply points_to_row_kept. apply Hinv. exact He.
    + rewrite H, skipn_snoc in He by exact Hn.
      apply in_app_or in He. destruct He as [He|[<-|[]]].
      * apply points_to_row_kept. apply Hinv. exact He.
      * apply reconcile_entry_points. exact H.
Qed.

(** X4. Every history entry a call of the writer adds names a snapshot row
    that exists after the call and has the entry's (type, country, key): its
    [price_id] is the id of that row.  (A call that fails adds no entry.) *)
Theorem X4_writer_entries_point_to_their_row (d : database) (b : option nat)
    (prices_data : list observation) (update_time : datetime) (e : PriceHistory.t) :
  In e (skipn (List.length (price_history d))
          (price_history
             (snd (Main.iteration (Main.save_prices_to_db prices_data update_time)
                     d b)))) ->
  points_to_row
    (snd (Main.iteration (Main.save_prices_to_db prices_data update_time) d b)) e.
Proof.
  destruct (save_prices_cases update_time prices_data d b) as [H|[x H]]; rewrite H; simpl.
  - apply (reconcile_all_points update_time prices_data _ d (le_n _)).
    rewrite skipn_all. intros e' [].
  - rewrite skipn_all. intros [].
Qed.

(** ** The last observation of a key *)

Lemma ident_eqb_eq (p q : observation) : ident_eqb p q = true <-> ident p = ident q.
Proof.
  unfold ident_eqb, ident. rewrite !andb_true_iff, !String.eqb_eq. split.
  - intros [[-> ->] ->]. reflexivity.
  - intros [= -> -> ->]. auto.
Qed.

Lemma last_of_snoc (p x : observation) (batch : list observation) :
  last_of p (batch ++ [x]) = if ident_eqb x p then Some x else last_of p batch.
Proof. unfold last_of. rewrite fold_left_app. reflexivity. Qed.

(** X5. Within one batch the last observation of a key wins: after a commit
    on a store that answers, the snapshot row of every key of the batch holds
    the prices, currency, source and status of the last observation filed
    under that key, and the commit time. *)
Theorem X5_last_observation_of_a_key_wins (d : database)
    (prices_data : list observation) (update_time : datetime) (p : observation) :
  In p prices_data -> Main.key p <> "" ->
  exists row q,
    snapshot p (committed prices_data update_time d) = Some row
    /\ last_of p prices_data = Some q
    /\ ident q = ident p
    /\ reflects update_time q row.
Proof.
  rewrite committed_eq.
  induction prices_data as [|x batch IH] using rev_ind; intros Hin Hk; [contradiction|].
  rewrite reconcile_all_app, last_of_snoc. simpl.
  destruct (ident_eqb x p) eqn:E.
  - apply ident_eqb_eq in E.
    assert (Hkx : Main.key x <> "") by (rewrite (key_of_ident x p E); exact Hk).
    destruct (reconcile_snapshot update_time x (reconcile_all update_time batch d) Hkx)
      as (row & H & R).
    exists row, x. split; [rewrite (snapshot_ext p x _ (eq_sym E)); exact H|].
    split; [reflexivity|]. split; assumption.
  - assert (Hne : ident p <> ident x).
    { intros H. symmetry in H. apply ident_eqb_eq in H. congruence. }
    apply in_app_or in Hin. destruct Hin as [Hin|[->|[]]]; [|contradiction].
    destruct (IH Hin Hk) as (row & q & H & Hq & Hi & R).
    exists row, q. split; [|auto].
    rewrite reconcile_snapshot_other by exact Hne. exact H.
Qed.

(** ** Two observations of one key *)

Lemma in_sync_same_key (p q : observation) (d : database) :
  ident p = ident q -> in_sync p d -> in_sync q d ->
  sell_price p = sell_price q /\ buy_price p = buy_price q.
Proof.
  intros Hi (r1 & H1 & S1 & B1) (r2 & H2 & S2 & B2).
  rewrite (snapshot_ext p q d Hi) in H1. assert (r1 = r2) by congruence. subst.
  split; congruence.
Qed.

Lemma pair_of_one_key (d : database) (t : datetime) (p q : observation) :
  ident p = ident q -> Main.key q <> "" ->
  sell_price p <> sell_price q \/ buy_price p <> buy_price q ->
  in_sync q d ->
  exists e1 e2,
    price_history (committed [p; q] t d) = price_history d ++ [e1; e2]
    /\ records t p e1 /\ records t q e2
    /\ in_sync q (committed [p; q] t d).
Proof.
  intros Hi Hk Hdiff Hs. rewrite committed_eq.
  rewrite !reconcile_all_cons. change (reconcile_all t [] ?x) with x.
  assert (Hkp : Main.key p <> "") by (rewrite (key_of_ident p q Hi); exact Hk).
  destruct (reconcile_history_changed t p d Hkp) as (e1 & H1 & R1).
  { intros Hp. destruct (in_sync_same_key p q d Hi Hp Hs) as [A B].
    destruct Hdiff; contradiction. }
  destruct (reconcile_history_changed t q (reconcile t p d) Hk) as (e2 & H2 & R2).
  { intros Hq.
    destruct (in_sync_same_key p q _ Hi (in_sync_reconcile t p d Hkp) Hq) as [A B].
    destruct Hdiff; contradiction. }
  exists e1, e2. split.
  - rewrite H2, H1, <- app_assoc. reflexivity.
  - split; [exact R1|]. split; [exact R2|]. apply in_sync_reconcile. exact Hk.
Qed.

(** X6. A batch that lists one key twice with different prices never comes
    to rest: once the snapshot holds the prices of the second observation,
    every further commit of the same pair appends two history entries (one
    per observation) and leaves the snapshot at the second observation again.
    This is the case of a currency cycle in which both banks quote the same
    currency at different prices: their rates are filed under the same key. *)
Theorem X6_two_quotes_of_one_key_fill_the_history (d : database) (t : datetime) :
  (forall p q : observation,
      ident p = ident q -> Main.key q <> "" ->
      sell_price p <> sell_price q \/ buy_price p <> buy_price q ->
      in_sync q d ->
      exists e1 e2,
        price_history (committed [p; q] t d) = price_history d ++ [e1; e2]
        /\ records t p e1 /\ records t q e2
        /\ in_sync q (committed [p; q] t d))
  /\ (forall r1 r2 : Rate.t,
        Rate.currency r1 = Rate.currency r2 -> Rate.currency r2 <> "" ->
        Rate.sell_price r1 <> Rate.sell_price r2
        \/ Rate.buy_price r1 <> Rate.buy_price r2 ->
        in_sync (Main.standardize r2) d ->
        exists e1 e2,
          price_history
            (snd (Main.iteration (Main.save_currency_prices_to_db [r1; r2] t) d None))
          = price_history d ++ [e1; e2]
          /\ records t (Main.standardize r1) e1
          /\ records t (Main.standardize r2) e2
          /\ in_sync (Main.standardize r2)
               (snd (Main.iteration (Main.save_currency_prices_to_db [r1; r2] t)
                       d None))).
Proof.
  split.
  - intros p q. apply pair_of_one_key.
  - intros r1 r2 Hc Hne Hdiff Hs.
    apply (pair_of_one_key d t (Main.standardize r1) (Main.standardize r2)).
    + unfold ident, Main.key. simpl. rewrite Hc. reflexivity.
    + unfold Main.key. simpl. exact Hne.
    + exact Hdiff.
    + exact Hs.
Qed.

(** ** Observations without a karat *)

Lemma snapshot_key (p : observation) (d : database) (row : UnifiedPrice.t) :
  snapshot p d = Some row -> row_key row = ident p.
Proof.
  unfold snapshot. intros H. apply find_some in H. destruct H as [_ H].
  apply same_key_spec in H. exact H.
Qed.

(** X7. The writer skips an observation exactly when it has no usable karat
    and its currency is the empty string; such an observation changes
    nothing.  An observation with neither karat nor currency is not skipped:
    it is filed under the key [None].  An observation an adapter built is
    never skipped either: when its karat could not be read (empty text) it is
    filed under its currency code [EGP]. *)
Theorem X7_observations_without_karat (d : database) (t : datetime) (p : observation) :
  (Main.key p = "" <-> Py.truthy (o_karat p) = false /\ o_currency p = Some "")
  /\ (Main.key p = "" -> committed [p] t d = d)
  /\ (Py.truthy (o_karat p) = false -> o_currency p = None ->
      exists row, snapshot p (committed [p] t d) = Some row
                  /\ UnifiedPrice.key row = "None"
                  /\ reflects t p row)
  /\ (forall (a : Engine.source) (now : datetime),
        from_adapter a now p -> o_karat p = Some "" ->
        exists row, snapshot p (committed [p] t d) = Some row
                    /\ row_key row = ("local", "egypt", "EGP")
                    /\ reflects t p row).
Proof.
  split; [|split; [|split]].
  - unfold Main.key, Py.or_. destruct (o_karat p) as [[|c k]|]; simpl.
    + destruct (o_currency p) as [[|c' k']|]; simpl; split;
        try discriminate; try (intros [_ H]; discriminate); auto.
    + split; [discriminate|intros [H _]; discriminate].
    + destruct (o_currency p) as [[|c' k']|]; simpl; split;
        try discriminate; try (intros [_ H]; discriminate); auto.
  - intros Hk. rewrite committed_eq. unfold reconcile_all. simpl.
    unfold reconcile. rewrite Hk. reflexivity.
  - intros Hk Hc.
    assert (Hkey : Main.key p = "None").
    { unfold Main.key, Py.or_. rewrite Hk, Hc. reflexivity. }
    assert (Hne : Main.key p <> "") by (rewrite Hkey; discriminate).
    rewrite committed_eq.
    destruct (reconcile_snapshot t p d Hne) as (row & H & R).
    exists row. split; [exact H|]. split; [|exact R].
    apply snapshot_key in H. unfold row_key, ident in H. injection H as _ _ H.
    rewrite H. exact Hkey.
  - intros a now Hf Hk.
    assert (Hne : Main.key p <> "") by apply (key_from_adapter a now p Hf).
    rewrite committed_eq.
    destruct (reconcile_snapshot t p d Hne) as (row & H & R).
    exists row. split; [exact H|]. split; [|exact R].
    apply snapshot_key in H. rewrite H.
    destruct Hf as (k & sell & buy & ->). simpl in Hk. injection Hk as ->.
    reflexivity.
Qed.

(** * Further properties of the operator's requests *)

(** ** Transactions *)

Lemma acts_ret {A : Type} (a : A) : acts (ret a) (fun d => d) (fun _ => a).
Proof.
  intros s. split.
  - intros H. unfold ret. destruct s as [st pe b]. simpl in *. subst. reflexivity.
  - left. exists s. auto.
Qed.

Lemma acts_query {A : Type} (f : database -> A) : acts (query f) (fun d => d) f.
Proof.
  intros s. split.
  - intros H. rewrite query_reliable by exact H.
    destruct s as [st pe b]. simpl in *. subst. reflexivity.
  - unfold query. rewrite bind_run.
    destruct (execute_cases s) as [(s' & E & E1 & E2 & _)|[E _]]; rewrite E.
    + left. exists s'. rewrite E2. auto.
    + right. exists "OperationalError", s. auto.
Qed.

Lemma acts_modify (f : database -> database) : acts (modify f) f (fun _ => tt).
Proof.
  intros s. split.
  - intros H. rewrite modify_run, H. reflexivity.
  - left. eexists. rewrite modify_run. split; [reflexivity|]. split; reflexivity.
Qed.

Lemma acts_bind {A B : Type} (c : M A) (k : A -> M B)
    (F : database -> database) (G : database -> A)
    (F' : A -> database -> database) (G' : A -> database -> B) :
  acts c F G -> (forall a, acts (k a) (F' a) (G' a)) ->
  acts (bind c k) (fun d => F' (G d) (F d)) (fun d => G' (G d) (F d)).
Proof.
  intros Hc Hk s. destruct (Hc s) as [Hr Hcases]. split.
  - intros Hb. rewrite bind_run, Hr by exact Hb.
    destruct (Hk (G (pending s)) (mksession (store s) (F (pending s)) None)) as [Hr' _].
    rewrite Hr' by reflexivity. reflexivity.
  - rewrite bind_run.
    destruct Hcases as [(s' & E & E1 & E2)|(e & s' & E & E1)]; rewrite E.
    + destruct (Hk (G (pending s)) s') as [_ [(s2 & E' & E1' & E2')|(e & s2 & E' & E1')]];
        rewrite E'.
      * left. exists s2. rewrite E2. split; [reflexivity|]. split; congruence.
      * right. exists e, s2. split; [reflexivity|congruence].
    + right. exists e, s'. auto.
Qed.

Lemma acts_ext {A : Type} (c : M A) (F F' : database -> database)
    (G G' : database -> A) :
  acts c F G -> (forall d, F d = F' d) -> (forall d, G d = G' d) -> acts c F' G'.
Proof.
  intros Hc HF HG s. rewrite <- HF, <- HG. apply Hc.
Qed.

Lemma settles_commit : settles commit (fun d => d) (fun _ => tt).
Proof.
  intros s. split.
  - intros H. unfold commit. rewrite bind_run, execute_reliable by exact H.
    rewrite H. reflexivity.
  - destruct (commit_cases s) as [E|[(s' & E & E1)|E]]; rewrite E.
    + left. eexists. split; reflexivity.
    + left. exists s'. auto.
    + right. exists "OperationalError", s. auto.
Qed.

Lemma settles_bind {A B : Type} (c : M A) (k : A -> M B)
    (F : database -> database) (G : database -> A)
    (F' : A -> database -> database) (G' : A -> database -> B) :
  acts c F G -> (forall a, settles (k a) (F' a) (G' a)) ->
  settles (bind c k) (fun d => F' (G d) (F d)) (fun d => G' (G d) (F d)).
Proof.
  intros Hc Hk s. destruct (Hc s) as [Hr Hcases]. split.
  - intros Hb. rewrite bind_run, Hr by exact Hb.
    destruct (Hk (G (pending s)) (mksession (store s) (F (pending s)) None)) as [Hr' _].
    rewrite Hr' by reflexivity. reflexivity.
  - rewrite bind_run.
    destruct Hcases as [(s' & E & E1 & E2)|(e & s' & E & E1)]; rewrite E.
    + destruct (Hk (G (pending s)) s') as [_ [(s2 & E' & E1')|(e & s2 & E' & E1')]];
        rewrite E'.
      * left. exists s2. rewrite E2. split; [reflexivity|congruence].
      * right. exists e, s2. split; [reflexivity|congruence].
    + right. exists e, s'. auto.
Qed.

Lemma settles_ext {A : Type} (c : M A) (F F' : database -> database)
    (G G' : database -> A) :
  settles c F G -> (forall d, F d = F' d) -> (forall d, G d = G' d) -> settles c F' G'.
Proof.
  intros Hc HF HG s. rewrite <- HF, <- HG. apply Hc.
Qed.

Lemma settles_iteration {A : Type} (c : M A) (F : database -> database)
    (G : database -> A) (d : database) (b : option nat) :
  settles c F G ->
  Main.iteration c d None = (Ok (G d), F d)
  /\ (Main.iteration c d b = (Ok (G d), F d)
      \/ exists e, Main.iteration c d b = (Raised e, d)).
Proof.
  intros Hc. unfold Main.iteration. split.
  - destruct (Hc (SessionLocal d None)) as [H _]. rewrite H by reflexivity. reflexivity.
  - destruct (Hc (SessionLocal d b)) as [_ [(s' & E & E1)|(e & s' & E & E1)]]; rewrite E.
    + left. simpl. rewrite E1. reflexivity.
    + right. exists e. simpl. rewrite E1. reflexivity.
Qed.

(** ** Settings *)

Lemma first_setting_put_same (key value : string) (d : database) :
  first_setting key (put_setting key value d) = Some (Setting.mk key (Some value)).
Proof.
  unfold put_setting. destruct (first_setting key d) as [x|] eqn:E; unfold first_setting in *;
    simpl.
  - change (fun s => (Setting.key s =? key)%string) with (Admin.is_key key) in *.
    rewrite find_update_first_same.
    + rewrite E. simpl. apply find_some in E. destruct E as [_ E].
      apply String.eqb_eq in E. rewrite E. reflexivity.
    + intros y Hy. exact Hy.
  - rewrite find_app_first, E. simpl. rewrite String.eqb_refl. reflexivity.
Qed.

Lemma first_setting_put_other (k key value : string) (d : database) :
  k <> key -> first_setting k (put_setting key value d) = first_setting k d.
Proof.
  intros Hk. unfold put_setting.
  destruct (first_setting key d) as [x|] eqn:E; unfold first_setting in *; simpl.
  - apply find_update_first_other.
    + intros y. reflexivity.
    + intros y Hy. unfold Admin.is_key in Hy. apply String.eqb_eq in Hy.
      apply String.eqb_neq. congruence.
  - rewrite find_app_first.
    destruct (find (fun s => (Setting.key s =? k)%string) (settings d)); [reflexivity|].
    simpl. apply String.eqb_neq in Hk. rewrite String.eqb_sym, Hk. reflexivity.
Qed.

Lemma keys_put_setting (key value : string) (d : database) :
  map Setting.key (settings (put_setting key value d))
  = match first_setting key d with
    | Some _ => map Setting.key (settings d)
    | None => map Setting.key (settings d) ++ [key]
    end.
Proof.
  unfold put_setting. destruct (first_setting key d); simpl.
  - apply map_update_first. reflexivity.
  - rewrite map_app. reflexivity.
Qed.

Lemma put_setting_keys_distinct (key value : string) (d : database) :
  NoDup (map Setting.key (settings d)) ->
  NoDup (map Setting.key (settings (put_setting key value d))).
Proof.
  intros H. rewrite keys_put_setting.
  destruct (first_setting key d) eqn:E; [exact H|].
  apply NoDup_snoc; [exact H|].
  intros Hin. apply first_setting_in in Hin. contradiction.
Qed.

Lemma put_setting_frame (key value : string) (d : database) :
  unified_prices (put_setting key value d) = unified_prices d
  /\ price_history (put_setting key value d) = price_history d
  /\ bank_currency_rates (put_setting key value d) = bank_currency_rates d
  /\ currency_source_settings (put_setting key value d) = currency_source_settings d.
Proof. unfold put_setting. destruct (first_setting key d); repeat split. Qed.

Lemma acts_put_setting (key value : string) :
  acts (db_setting <- query (first_setting key) ;;
        match db_setting with
        | Some _ =>
            modify (set_settings (update_first (Admin.is_key key)
                      (fun s => Setting.mk (Setting.key s) (Some value))))
        | None =>
            modify (set_settings (fun l => l ++ [Setting.mk key (Some value)]))
        end)
       (put_setting key value) (fun _ => tt).
Proof.
  eapply acts_ext.
  - apply acts_bind with (F' := fun a d =>
        match a with
        | Some _ => set_settings (update_first (Admin.is_key key)
                      (fun s => Setting.mk (Setting.key s) (Some value))) d
        | None => set_settings (fun l => l ++ [Setting.mk key (Some value)]) d
        end) (G' := fun _ _ => tt).
    + apply acts_query.
    + intros [x|]; apply acts_modify.
  - intros d. reflexivity.
  - reflexivity.
Qed.

Lemma update_setting_run (d : database) (b : option nat) (key value : string) :
  AdminSettings.update_setting_request d b key value
  = match b with
    | Some O | Some (S O) => (Raised "OperationalError", d)
    | Some (S (S O)) => (Raised "OperationalError", put_setting key value d)
    | _ => (Ok (Some (Setting.mk key (Some value))), put_setting key value d)
    end.
Proof.
  unfold AdminSettings.update_setting_request, Main.iteration, AdminSettings.update_setting.
  pose proof (first_setting_put_same key value d) as Hsame. unfold put_setting in *.
  destruct b as [[|[|[|n]]]|]; run; try reflexivity;
    destruct (first_setting key d); simpl in *; try reflexivity;
    rewrite Hsame; reflexivity.
Qed.

(** X8. Saving a setting and reading it back: on a store that answers, the
    request answers the row with the given key and value, and that row is
    what a later lookup of the key finds; every other key is found with the
    row it had, and no other table changes.  Whenever the request returns,
    it returns that row and the store holds it. *)
Theorem X8_setting_saved_and_read_back (d : database) (b : option nat)
    (key value : string) :
  fst (AdminSettings.update_setting_request d None key value)
  = Ok (Some (Setting.mk key (Some value)))
  /\ first_setting key (snd (AdminSettings.update_setting_request d None key value))
     = Some (Setting.mk key (Some value))
  /\ (forall k, k <> key ->
        first_setting k (snd (AdminSettings.update_setting_request d b key value))
        = first_setting k d)
  /\ (unified_prices (snd (AdminSettings.update_setting_request d b key value))
      = unified_prices d
      /\ price_history (snd (AdminSettings.update_setting_request d b key value))
         = price_history d
      /\ bank_currency_rates (snd (AdminSettings.update_setting_request d b key value))
         = bank_currency_rates d
      /\ currency_source_settings
           (snd (AdminSettings.update_setting_request d b key value))
         = currency_source_settings d)
  /\ (forall r, fst (AdminSettings.update_setting_request d b key value) = Ok r ->
        r = Some (Setting.mk key (Some value))
        /\ first_setting key (snd (AdminSettings.update_setting_request d b key value))
           = Some (Setting.mk key (Some value))).
Proof.
  rewrite !update_setting_run.
  split; [reflexivity|]. split; [apply first_setting_put_same|].
  split; [|split].
  - intros k Hk. destruct b as [[|[|[|n]]]|]; simpl; try reflexivity;
      apply first_setting_put_other; exact Hk.
  - destruct b as [[|[|[|n]]]|]; simpl; try (repeat split; fail);
      apply put_setting_frame.
  - intros r. destruct b as [[|[|[|n]]]|]; simpl; try discriminate;
      intros [= <-]; (split; [reflexivity|apply first_setting_put_same]).
Qed.

(** X10. The answer of a setting request does not tell whether the setting
    was saved: the commit comes before the row is read back, so a store that
    stops answering between the two makes the request raise although the
    setting is stored.  The durable content is always either the content
    before the request or the content with the setting saved, and a request
    that returns has saved it. *)
Theorem X10_setting_saved_before_read_back (d : database) (key value : string) :
  AdminSettings.update_setting_request d (Some 2%nat) key value
  = (Raised "OperationalError",
     snd (AdminSettings.update_setting_request d None key value))
  /\ (forall b,
        snd (AdminSettings.update_setting_request d b key value) = d
        \/ snd (AdminSettings.update_setting_request d b key value)
           = snd (AdminSettings.update_setting_request d None key value))
  /\ (forall b r,
        fst (AdminSettings.update_setting_request d b key value) = Ok r ->
        snd (AdminSettings.update_setting_request d b key value)
        = snd (AdminSettings.update_setting_request d None key value))
  /\ (forall b, (b = Some 0%nat \/ b = Some 1%nat) ->
        AdminSettings.update_setting_request d b key value
        = (Raised "OperationalError", d)).
Proof.
  split; [rewrite !update_setting_run; reflexivity|]. split; [|split].
  - intros b. rewrite !update_setting_run.
    destruct b as [[|[|[|n]]]|]; simpl; auto.
  - intros b r. rewrite !update_setting_run.
    destruct b as [[|[|[|n]]]|]; simpl; try discriminate; reflexivity.
  - intros b [->| ->]; rewrite update_setting_run; reflexivity.
Qed.

(** ** Manual prices *)

Lemma acts_match_option {A B : Type} (x : option A) (c1 : A -> M B) (c2 : M B)
    (F1 : A -> database -> database) (F2 : database -> database)
    (G1 : A -> database -> B) (G2 : database -> B) :
  (forall a, acts (c1 a) (F1 a) (G1 a)) -> acts c2 F2 G2 ->
  acts (match x with Some a => c1 a | None => c2 end)
       (match x with Some a => F1 a | None => F2 end)
       (match x with Some a => G1 a | None => G2 end).
Proof. intros H1 H2. destruct x; [apply H1|apply H2]. Qed.

Lemma acts_seq {A B : Type} (c : M A) (k : A -> M B)
    (F : database -> database) (G : database -> A)
    (F' : A -> database -> database) (G' : A -> database -> B)
    (F'' : database -> database) (G'' : database -> B) :
  acts c F G -> (forall a, acts (k a) (F' a) (G' a)) ->
  (forall d, F'' d = F' (G d) (F d)) -> (forall d, G'' d = G' (G d) (F d)) ->
  acts (bind c k) F'' G''.
Proof.
  intros Hc Hk HF HG. eapply acts_ext; [apply (acts_bind c k F G F' G' Hc Hk)| |];
    intros d; symmetry; [apply HF|apply HG].
Qed.

Lemma settles_seq {A B : Type} (c : M A) (k : A -> M B)
    (F : database -> database) (G : database -> A)
    (F' : A -> database -> database) (G' : A -> database -> B)
    (F'' : database -> database) (G'' : database -> B) :
  acts c F G -> (forall a, settles (k a) (F' a) (G' a)) ->
  (forall d, F'' d = F' (G d) (F d)) -> (forall d, G'' d = G' (G d) (F d)) ->
  settles (bind c k) F'' G''.
Proof.
  intros Hc Hk HF HG. eapply settles_ext; [apply (settles_bind c k F G F' G' Hc Hk)| |];
    intros d; symmetry; [apply HF|apply HG].
Qed.

(** The view and the answer of a block of reads and changes that ends in a
    commit, read off its text. *)
Ltac transaction :=
  cbv beta;
  lazymatch goal with
  | |- acts (bind _ _) _ _ =>
      eapply acts_seq;
        [transaction | intros ?; transaction
         | intros ?; reflexivity | intros ?; reflexivity]
  | |- settles (bind _ _) _ _ =>
      eapply settles_seq;
        [transaction | intros ?; transaction
         | intros ?; reflexivity | intros ?; reflexivity]
  | |- acts (query _) _ _ => apply acts_query
  | |- acts (modify _) _ _ => apply acts_modify
  | |- acts (ret _) _ _ => apply acts_ret
  | |- settles commit _ _ => apply settles_commit
  | |- acts (match _ with Some _ => _ | None => _ end) _ _ =>
      eapply acts_match_option; [intros ?; transaction | transaction]
  end.

Lemma settles_set_override (karat : string) (price_val : price) (now : datetime) :
  settles (Admin.update_manual_price karat (Some price_val) now)
          (set_override karat price_val now) (fun _ => tt).
Proof.
  unfold Admin.update_manual_price. eapply settles_ext; [transaction| |reflexivity].
  intros d. cbv beta. unfold set_override, put_setting.
  destruct (first_setting ("manual_price_" ++ karat) d); cbv beta iota zeta;
    match goal with
    | |- context [find ?f ?l] => destruct (find f l)
    end; reflexivity.
Qed.

Lemma settles_clear_override (karat : string) (now : datetime) :
  settles (Admin.update_manual_price karat None now)
          (clear_override karat) (fun _ => tt).
Proof.
  unfold Admin.update_manual_price. eapply settles_ext; [transaction| |reflexivity].
  intros d. cbv beta. unfold clear_override.
  destruct (first_setting ("manual_price_" ++ karat) d) eqn:E; [reflexivity|].
  unfold set_settings. rewrite delete_first_none by exact E. destruct d; reflexivity.
Qed.

Lemma manual_set_cases (d : database) (b : option nat) (karat : string)
    (price_val : price) (now : datetime) :
  Admin.manual_price_request d None karat (Some price_val) now
  = (Ok tt, set_override karat price_val now d)
  /\ (Admin.manual_price_request d b karat (Some price_val) now
      = (Ok tt, set_override karat price_val now d)
      \/ exists e, Admin.manual_price_request d b karat (Some price_val) now
                   = (Raised e, d)).
Proof.
  apply (settles_iteration _ _ _ d b (settles_set_override karat price_val now)).
Qed.

Lemma manual_clear_cases (d : database) (b : option nat) (karat : string)
    (now : datetime) :
  Admin.manual_price_request d None karat None now = (Ok tt, clear_override karat d)
  /\ (Admin.manual_price_request d b karat None now = (Ok tt, clear_override karat d)
      \/ exists e, Admin.manual_price_request d b karat None now = (Raised e, d)).
Proof.
  apply (settles_iteration _ _ _ d b (settles_clear_override karat now)).
Qed.

Lemma update_first_none {A : Type} (f : A -> bool) (g : A -> A) (l : list A) :
  find f l = None -> update_first f g l = l.
Proof.
  induction l as [|x l IH]; simpl; [reflexivity|].
  destruct (f x); [discriminate|]. intros H. rewrite IH by exact H. reflexivity.
Qed.

Lemma set_override_tables (karat : string) (price_val : price) (now : datetime)
    (d : database) :
  settings (set_override karat price_val now d)
  = settings (put_setting ("manual_price_" ++ karat) (Py.str_of_float price_val) d)
  /\ price_history (set_override karat price_val now d)
     = price_history d
       ++ [Admin.manual_history karat price_val now
             (fresh_id (map PriceHistory.id (price_history d)))]
  /\ unified_prices (set_override karat price_val now d)
     = update_first (Admin.gold_egypt_key karat) (Admin.set_manual price_val now)
         (unified_prices d)
  /\ bank_currency_rates (set_override karat price_val now d) = bank_currency_rates d
  /\ currency_source_settings (set_override karat price_val now d)
     = currency_source_settings d.
Proof.
  unfold set_override.
  destruct (put_setting_frame ("manual_price_" ++ karat) (Py.str_of_float price_val) d)
    as (Hu & Hh & Hb & Hc).
  cbv zeta. cbn [unified_prices set_price_history]. rewrite Hu.
  destruct (find (Admin.gold_egypt_key karat) (unified_prices d)) eqn:E;
    cbn [settings price_history unified_prices bank_currency_rates
         currency_source_settings set_unified_prices set_price_history];
    rewrite ?Hu, ?Hh, ?Hb, ?Hc; repeat split.
  rewrite update_first_none by exact E. reflexivity.
Qed.

Lemma NoDup_delete_first {A B : Type} (k : A -> B) (f : A -> bool) (l : list A) :
  NoDup (map k l) -> NoDup (map k (delete_first f l)).
Proof.
  induction l as [|x l IH]; simpl; [auto|].
  intros H. inversion H as [|? ? Hx Hl]; subst.
  destruct (f x); [exact Hl|]. simpl. constructor; [|apply IH; exact Hl].
  intros Hin. apply Hx. clear - Hin.
  induction l as [|y l IH]; simpl in *; [exact Hin|].
  destruct (f y); [right; exact Hin|].
  destruct Hin as [H|H]; [left; exact H|right; apply IH; exact H].
Qed.

(** X9. The key of a setting is the primary key of its table, and no request
    of the operator ever breaks it: a setting request and a manual price
    request (setting or removing an override) insert a row only when no row
    has the key, so setting keys that are distinct stay distinct, whether
    the request returns or the store fails on the way. *)
Theorem X9_setting_keys_stay_distinct (d : database) (b : option nat) :
  NoDup (map Setting.key (settings d)) ->
  (forall key value,
      NoDup (map Setting.key
               (settings (snd (AdminSettings.update_setting_request d b key value)))))
  /\ (forall karat price now,
        NoDup (map Setting.key
                 (settings (snd (Admin.manual_price_request d b karat price now))))).
Proof.
  intros H. split.
  - intros key value. rewrite update_setting_run.
    destruct b as [[|[|[|n]]]|]; simpl; try exact H;
      apply put_setting_keys_distinct; exact H.
  - intros karat [price_val|] now.
    + destruct (manual_set_cases d b karat price_val now) as [_ [E|[e E]]]; rewrite E;
        simpl; [|exact H].
      destruct (set_override_tables karat price_val now d) as [Hs _]. rewrite Hs.
      apply put_setting_keys_distinct. exact H.
    + destruct (manual_clear_cases d b karat now) as [_ [E|[e E]]]; rewrite E;
        simpl; [|exact H].
      apply NoDup_delete_first. exact H.
Qed.


(** ** An override set and removed again *)

Lemma deleted_key_absent (k : string) (l : list Setting.t) :
  NoDup (map Setting.key l) ->
  ~ In k (map Setting.key (delete_first (Admin.is_key k) l)).
Proof.
  induction l as [|x l IH]; simpl; [intros _ []|].
  intros H. inversion H as [|? ? Hx Hl]; subst.
  unfold Admin.is_key at 1. destruct (Setting.key x =? k)%string eqn:E.
  - apply String.eqb_eq in E. rewrite <- E. exact Hx.
  - apply String.eqb_neq in E. simpl. intros [Hin|Hin]; [contradiction|].
    exact (IH Hl Hin).
Qed.

Lemma dict_get_deleted_other (k k' : string) (l : list Setting.t) :
  k <> k' -> Gold.dict_get k' (delete_first (Admin.is_key k) l) = Gold.dict_get k' l.
Proof.
  intros Hk. induction l as [|x l IH]; [reflexivity|].
  simpl. unfold Admin.is_key at 1. destruct (Setting.key x =? k)%string eqn:E.
  - apply String.eqb_eq in E. rewrite dict_get_cons.
    assert (Hx : (Setting.key x =? k')%string = false)
      by (apply String.eqb_neq; congruence).
    rewrite Hx. destruct (Gold.dict_get k' l); reflexivity.
  - rewrite !dict_get_cons, IH. reflexivity.
Qed.

Lemma dict_get_put_other (k k' value : string) (d : database) :
  k <> k' ->
  Gold.dict_get k' (settings (put_setting k value d)) = Gold.dict_get k' (settings d).
Proof.
  intros Hk. unfold put_setting. destruct (first_setting k d); simpl.
  - apply dict_get_updated_other. exact Hk.
  - apply dict_get_snoc_other. exact Hk.
Qed.

(** X12. Removing an override does not bring the scraped price back.  After
    an override was set for a karat that has a snapshot row and then
    removed, the setting is gone, but the public read still shows the
    operator's price for that row (plus the offset, which an override in
    force would not get) with the status [Manual]: setting the override
    overwrote the row, and removing it only deletes the setting. *)
Theorem X12_removed_override_leaves_its_price (d : database) (karat : string)
    (price_val offset : price) (now now' : datetime) (row : UnifiedPrice.t) :
  NoDup (map Setting.key (settings d)) ->
  Py.float (Py.str (Py.or_ (Py.get (Gold.dict_get "price_offset" (settings d)) (Some "0"))
                           (Some "0"))) = Some offset ->
  find (Admin.gold_egypt_key karat) (unified_prices d) = Some row ->
  first_setting ("manual_price_" ++ karat)
    (snd (Admin.manual_price_request
            (snd (Admin.manual_price_request d None karat (Some price_val) now))
            None karat None now')) = None
  /\ exists items g,
       fst (Gold.prices_request
              (snd (Admin.manual_price_request
                      (snd (Admin.manual_price_request d None karat (Some price_val) now))
                      None karat None now')) None) = Ok items
       /\ In g items
       /\ GoldPrice.id g = UnifiedPrice.id row
       /\ GoldPrice.karat g = karat
       /\ GoldPrice.sell_price g = price_val + offset
       /\ GoldPrice.buy_price g = price_val + offset
       /\ GoldPrice.source_status g = "Manual".
Proof.
  intros Hnd Hoff Hrow.
  destruct (manual_set_cases d None karat price_val now) as [E1 _]. rewrite E1.
  cbn [snd].
  destruct (manual_clear_cases (set_override karat price_val now d) None karat now')
    as [E2 _]. rewrite E2. cbn [snd].
  destruct (set_override_tables karat price_val now d) as (Hs & _ & Hu & _).
  assert (Habsent : ~ In ("manual_price_" ++ karat)%string
                      (map Setting.key
                         (settings (clear_override karat
                                      (set_override karat price_val now d))))).
  { unfold clear_override. simpl. rewrite Hs. apply deleted_key_absent.
    apply put_setting_keys_distinct. exact Hnd. }
  split.
  - destruct (first_setting ("manual_price_" ++ karat)
                (clear_override karat (set_override karat price_val now d))) eqn:E;
      [|reflexivity].
    exfalso. apply Habsent. apply first_setting_in. rewrite E. discriminate.
  - assert (Hoff' : Gold.dict_get "price_offset"
                      (settings (clear_override karat
                                   (set_override karat price_val now d)))
                    = Gold.dict_get "price_offset" (settings d)).
    { unfold clear_override. simpl. rewrite Hs.
      rewrite dict_get_deleted_other by discriminate.
      apply dict_get_put_other. discriminate. }
    destruct (read_current_prices_reliable
                (clear_override karat (set_override karat price_val now d)) offset)
      as (l & Hl & Hread); [rewrite Hoff'; exact Hoff|].
    pose proof Hrow as Hin. apply find_some in Hin. destruct Hin as [_ Hkey].
    unfold Admin.gold_egypt_key in Hkey.
    apply andb_true_iff in Hkey. destruct Hkey as [Hge Hk].
    apply String.eqb_eq in Hk.
    exists (map (Gold.present l offset)
              (filter Gold.gold_egypt
                 (unified_prices (clear_override karat
                                    (set_override karat price_val now d))))),
           (Gold.present l offset (Admin.set_manual price_val now row)).
    split; [exact Hread|]. split.
    + apply in_map. apply filter_In. split.
      * unfold clear_override. simpl. rewrite Hu.
        apply in_update_first_found. exact Hrow.
      * exact Hge.
    + unfold Gold.present.
      change (UnifiedPrice.key (Admin.set_manual price_val now row))
        with (UnifiedPrice.key row).
      rewrite Hk, Hl, dict_get_absent by exact Habsent.
      simpl. repeat split; reflexivity.
Qed.

(** * Further properties of the loops *)

(** ** The country manager *)

Lemma target_country_known (c : string) :
  In c Country.target_countries ->
  Py.lower c = c /\ exists code, Country.CURRENCY_MAP c = Some code /\ code <> "Local".
Proof.
  unfold Country.target_countries. simpl.
  intros H.
  repeat (destruct H as [<-|H];
          [split; [reflexivity|eexists; split; [reflexivity|discriminate]]|]).
  destruct H.
Qed.

Lemma country_fetch_in (subdomain : string) (r : Country.response) (now : datetime)
    (p : observation) :
  In p (Country.fetch_prices subdomain r now) ->
  exists x, p = Country.price_dict subdomain x now
            /\ Country.karat x <> "" /\ 0 < Country.p_val x.
Proof.
  unfold Country.fetch_prices. destruct r as [e|rows]; [intros []|].
  intros H. apply in_flat_map in H. destruct H as (x & _ & H).
  destruct (Engine.nonempty (Country.karat x)) eqn:Ek; [|destruct H].
  destruct (0 <? Country.p_val x) eqn:Ep; [|destruct H].
  destruct H as [<-|[]]. exists x. split; [reflexivity|]. split.
  - unfold Engine.nonempty in Ek. apply negb_true_iff in Ek.
    apply String.eqb_neq. exact Ek.
  - apply Z.ltb_lt. exact Ep.
Qed.

Lemma country_prices_in (web : string -> Country.response) (now : datetime)
    (p : observation) :
  In p (Country.get_all_country_prices web now) ->
  exists c k code,
    In c Country.target_countries
    /\ Country.CURRENCY_MAP c = Some code
    /\ k <> ""
    /\ 0 < sell_price p
    /\ p = mkobs (Some "International") (Some c) (Some k) (Some code)
             (sell_price p) (sell_price p) (Some "GoldPriceToday")
             (Some "International") now.
Proof.
  unfold Country.get_all_country_prices. intros H.
  apply in_flat_map in H. destruct H as (c & Hc & H).
  apply in_map_iff in H. destruct H as (q & <- & Hq).
  apply country_fetch_in in Hq. destruct Hq as (x & -> & Hk & Hp).
  destruct (target_country_known c Hc) as (Hl & code & Hcode & _).
  exists c, (Country.karat x), code.
  split; [exact Hc|]. split; [exact Hcode|]. split; [exact Hk|]. split; [exact Hp|].
  unfold Country.tag, Country.price_dict. simpl. rewrite Hl, Hcode. reflexivity.
Qed.

(** X13. Every observation the country manager returns is well formed for
    the writer: it belongs to one of the fourteen target countries, has a
    karat that is not empty, one price above zero given as both sell and
    buy price, the currency code of its country (the default [Local] is
    never used, every target country has a code), the status
    [International] and the fetch time; the writer files it under the type
    [international], the country and the karat. *)
Theorem X13_country_observations_are_well_formed
    (web : string -> Country.response) (now : datetime) (p : observation) :
  In p (Country.get_all_country_prices web now) ->
  exists c k code,
    In c Country.target_countries
    /\ Country.CURRENCY_MAP c = Some code /\ code <> "Local"
    /\ k <> ""
    /\ 0 < sell_price p
    /\ p = mkobs (Some "International") (Some c) (Some k) (Some code)
             (sell_price p) (sell_price p) (Some "GoldPriceToday")
             (Some "International") now
    /\ ident p = ("international", c, k).
Proof.
  intros H. destruct (country_prices_in web now p H) as (c & k & code & Hc & Hm & Hk & Hp & E).
  destruct (target_country_known c Hc) as (Hl & code' & Hm' & Hcode).
  exists c, k, code. rewrite Hm in Hm'. injection Hm' as <-.
  repeat (split; [assumption|]).
  rewrite E. unfold ident, Main.p_type, Main.country, Main.key. simpl.
  rewrite Hl. destruct k; [contradiction|reflexivity].
Qed.

(** ** Rows of other loops *)

Lemma preserves_for_each_in {A : Type} (P : database -> Prop) (body : A -> M unit)
    (l : list A) :
  (forall x, In x l -> preserves P (body x)) -> preserves P (for_each body l).
Proof.
  induction l as [|x l IH]; intros Hb; simpl.
  - apply preserves_ret.
  - apply preserves_bind; [apply Hb; left; reflexivity|].
    intros _. apply IH. intros y Hy. apply Hb. right. exact Hy.
Qed.

Lemma row_preserves_save_one (t : datetime) (p : observation) (i : nat)
    (r : UnifiedPrice.t) :
  Main.same_key p r = false ->
  preserves (fun d => nth_error (unified_prices d) i = Some r) (Main.save_one t p).
Proof.
  intros Hf. unfold Main.save_one.
  destruct (Main.key p =? "")%string; [apply preserves_ret|].
  apply preserves_bind; [apply preserves_query|]. intros [row|].
  - apply preserves_bind.
    + apply preserves_modify. intros d H. simpl.
      apply nth_error_update_first_other; assumption.
    + intros _. destruct (Main.price_changed row p); [|apply preserves_ret].
      apply preserves_modify. intros d H. exact H.
  - intros s H1 H2. rewrite bind_run. unfold Main.add_price.
    apply (preserves_bind (fun d => nth_error (unified_prices d) i = Some r) flush
             (fun _ => Main.add_history t p
                         (fresh_id (map UnifiedPrice.id (unified_prices (pending s))))));
      [apply preserves_execute| |exact H1|].
    + intros _. apply preserves_modify. intros d H. exact H.
    + simpl. rewrite nth_error_app1; [exact H2|]. apply nth_error_Some. congruence.
Qed.

Lemma row_preserves_save_prices (t : datetime) (batch : list observation) (i : nat)
    (r : UnifiedPrice.t) :
  (forall p, In p batch -> Main.same_key p r = false) ->
  preserves (fun d => nth_error (unified_prices d) i = Some r)
            (Main.save_prices_to_db batch t).
Proof.
  intros H. unfold Main.save_prices_to_db.
  destruct batch as [|p batch]; [apply preserves_ret|].
  apply preserves_bind; [|intros _; apply preserves_commit].
  apply preserves_for_each_in. intros x Hx. apply row_preserves_save_one.
  apply H. exact Hx.
Qed.

Lemma same_key_other_loop (p : observation) (r : UnifiedPrice.t) :
  (UnifiedPrice.type r, UnifiedPrice.country r) <> (Main.p_type p, Main.country p) ->
  Main.same_key p r = false.
Proof.
  intros H. unfold Main.same_key.
  destruct (UnifiedPrice.type r =? Main.p_type p)%string eqn:E1; [|reflexivity].
  destruct (UnifiedPrice.country r =? Main.country p)%string eqn:E2; [|reflexivity].
  apply String.eqb_eq in E1, E2. exfalso. apply H. congruence.
Qed.

Lemma gold_result_is_local (d : database) (b : option nat)
    (web : Engine.source -> Engine.response) (now : datetime) (p : observation) :
  In p (fst (Engine.get_latest_prices d b web now)) ->
  Main.p_type p = "local" /\ Main.country p = "egypt".
Proof.
  unfold Engine.get_latest_prices. intros H.
  apply manager_result_origin in H. destruct H as (a & q & st & _ & Hq & ->).
  apply valid_from_adapter in Hq. destruct Hq as [(k & sell & buy & ->) _].
  split; reflexivity.
Qed.

(** X14. The three loops own disjoint parts of the snapshot.  An iteration
    of the gold loop leaves every row that is not a [local] row of [egypt]
    at its place with every field as before; an iteration of the currency
    loop does so for every row that is not a [currency] row of [egypt], and
    an iteration of the country loop for every row whose type is not
    [international]; whatever the sites return and whether or not the store
    fails. *)
Theorem X14_loops_write_disjoint_rows (d : database) (b : option nat) (i : nat)
    (r : UnifiedPrice.t) :
  nth_error (unified_prices d) i = Some r ->
  ((UnifiedPrice.type r, UnifiedPrice.country r) <> ("local", "egypt") ->
   forall (b_order : option nat) (web : Engine.source -> Engine.response)
          (now : datetime),
     nth_error (unified_prices (snd (Main.run_scraper_periodically d b b_order web now))) i
     = Some r)
  /\ ((UnifiedPrice.type r, UnifiedPrice.country r) <> ("currency", "egypt") ->
      forall (web : Currency.source -> Currency.response) (now : datetime),
        nth_error
          (unified_prices (snd (Main.run_currency_scraper_periodically d b web now))) i
        = Some r)
  /\ (UnifiedPrice.type r <> "international" ->
      forall (web : string -> Country.response) (now : datetime),
        nth_error
          (unified_prices (snd (Country.run_country_scraper_periodically d b web now))) i
        = Some r).
Proof.
  intros Hr. split; [|split].
  - intros Hne b_order web now. unfold Main.run_scraper_periodically.
    apply (preserves_iteration (fun d' => nth_error (unified_prices d') i = Some r));
      [|exact Hr].
    unfold Main.run_scraper_body.
    apply preserves_bind; [apply preserves_query|]. intros _ s H1 H2.
    destruct (fst (Engine.get_latest_prices (store s) b_order web now)) as [|p l] eqn:E.
    + split; assumption.
    + apply (preserves_bind (fun d' => nth_error (unified_prices d') i = Some r)
               (Main.save_prices_to_db (p :: l) now) (fun _ => ret true));
        [| |assumption|assumption].
      * apply row_preserves_save_prices. intros q Hq. apply same_key_other_loop.
        rewrite <- E in Hq. apply gold_result_is_local in Hq.
        destruct Hq as [-> ->]. exact Hne.
      * intros _. apply preserves_ret.
  - intros Hne web now. unfold Main.run_currency_scraper_periodically.
    apply (preserves_iteration (fun d' => nth_error (unified_prices d') i = Some r));
      [|exact Hr].
    unfold Main.run_currency_scraper_body.
    apply preserves_bind; [apply preserves_query|]. intros _.
    apply preserves_bind; [apply preserves_query|]. intros _.
    destruct (Currency.get_all_currency_rates None web now) as [|x l];
      [apply preserves_ret|].
    apply preserves_bind; [|intros _; apply preserves_ret].
    unfold Main.save_currency_prices_to_db. apply row_preserves_save_prices.
    intros q Hq. apply in_map_iff in Hq. destruct Hq as (y & <- & _).
    apply same_key_other_loop. exact Hne.
  - intros Hne web now. unfold Country.run_country_scraper_periodically.
    apply (preserves_iteration (fun d' => nth_error (unified_prices d') i = Some r));
      [|exact Hr].
    unfold Country.run_country_scraper_body.
    apply preserves_bind; [apply preserves_query|]. intros _.
    destruct (Country.get_all_country_prices web now) as [|p l] eqn:E;
      [apply preserves_ret|].
    apply preserves_bind; [|intros _; apply preserves_ret].
    apply row_preserves_save_prices. intros q Hq. apply same_key_other_loop.
    rewrite <- E in Hq. apply country_prices_in in Hq.
    destruct Hq as (c & k & code & _ & _ & _ & _ & Eq).
    intros [= Ht _]. apply Hne. rewrite Ht, Eq. reflexivity.
Qed.

(** * Further properties of the currency sources *)

(** ** The order of the enabled sources *)

Lemma insert_by_priority_perm (x : CurrencySourceSettings.t)
    (l : list CurrencySourceSettings.t) :
  Permutation (Currency.insert_by_priority x l) (x :: l).
Proof.
  induction l as [|y l IH]; simpl; [apply Permutation_refl|].
  destruct (CurrencySourceSettings.priority x <? CurrencySourceSettings.priority y).
  - apply Permutation_refl.
  - apply Permutation_trans with (y :: x :: l).
    + apply perm_skip. exact IH.
    + apply perm_swap.
Qed.

Lemma insert_by_priority_hd (y x : CurrencySourceSettings.t)
    (l : list CurrencySourceSettings.t) :
  HdRel (fun a b => CurrencySourceSettings.priority a <= CurrencySourceSettings.priority b)
        y l ->
  CurrencySourceSettings.priority y <= CurrencySourceSettings.priority x ->
  HdRel (fun a b => CurrencySourceSettings.priority a <= CurrencySourceSettings.priority b)
        y (Currency.insert_by_priority x l).
Proof.
  intros Hl Hx. destruct l as [|z l]; simpl; [constructor; exact Hx|].
  destruct (CurrencySourceSettings.priority x <? CurrencySourceSettings.priority z).
  - constructor. exact Hx.
  - constructor. inversion Hl. assumption.
Qed.

Lemma insert_by_priority_sorted (x : CurrencySourceSettings.t)
    (l : list CurrencySourceSettings.t) :
  Sorted (fun a b => CurrencySourceSettings.priority a <= CurrencySourceSettings.priority b)
         l ->
  Sorted (fun a b => CurrencySourceSettings.priority a <= CurrencySourceSettings.priority b)
         (Currency.insert_by_priority x l).
Proof.
  induction l as [|y l IH]; simpl; intros H.
  - constructor; constructor.
  - inversion H as [|? ? Hs Hh]; subst.
    destruct (CurrencySourceSettings.priority x <? CurrencySourceSettings.priority y)
      eqn:E.
    + apply Z.ltb_lt in E. constructor; [exact H|]. constructor. lia.
    + apply Z.ltb_ge in E. constructor; [apply IH; exact Hs|].
      apply insert_by_priority_hd; assumption.
Qed.

Lemma order_by_priority_fold (l acc : list CurrencySourceSettings.t) :
  Sorted (fun a b => CurrencySourceSettings.priority a <= CurrencySourceSettings.priority b)
         acc ->
  Permutation (fold_left (fun acc x => Currency.insert_by_priority x acc) l acc)
              (l ++ acc)
  /\ Sorted
       (fun a b => CurrencySourceSettings.priority a <= CurrencySourceSettings.priority b)
       (fold_left (fun acc x => Currency.insert_by_priority x acc) l acc).
Proof.
  revert acc. induction l as [|x l IH]; intros acc H; simpl.
  - split; [apply Permutation_refl|exact H].
  - destruct (IH (Currency.insert_by_priority x acc)
                (insert_by_priority_sorted x acc H)) as [Hp Hs].
    split; [|exact Hs].
    apply Permutation_trans with (l ++ Currency.insert_by_priority x acc); [exact Hp|].
    apply Permutation_trans with (l ++ x :: acc).
    + apply Permutation_app_head. apply insert_by_priority_perm.
    + apply Permutation_sym. apply Permutation_middle.
Qed.

Lemma order_by_priority_sorted (l : list CurrencySourceSettings.t) :
  Permutation (Currency.order_by_priority l) l
  /\ Sorted
       (fun a b => CurrencySourceSettings.priority a <= CurrencySourceSettings.priority b)
       (Currency.order_by_priority l).
Proof.
  unfold Currency.order_by_priority.
  destruct (order_by_priority_fold l [] (Sorted_nil _)) as [Hp Hs].
  rewrite app_nil_r in Hp. split; assumption.
Qed.

Lemma query_answers {A : Type} (f : database -> A) (s : Session) :
  budget s <> Some O -> exists s', query f s = (Ok (f (pending s)), s').
Proof.
  intros Hb. unfold query. rewrite bind_run.
  destruct (execute_cases s) as [(s' & E & _ & E2 & _)|[_ E]]; [|contradiction].
  rewrite E, E2. eexists. reflexivity.
Qed.

Lemma enabled_sources_read (s : Session) :
  budget s <> Some O ->
  Currency._get_enabled_sources_in_order (Some s)
  = match map CurrencySourceSettings.source_name
            (Currency.order_by_priority
               (filter CurrencySourceSettings.is_enabled
                  (currency_source_settings (pending s)))) with
    | [] => Currency.default_ids
    | names => names
    end.
Proof.
  intros Hb. unfold Currency._get_enabled_sources_in_order.
  destruct (query_answers
              (fun d => Currency.order_by_priority
                          (filter CurrencySourceSettings.is_enabled
                             (currency_source_settings d))) s Hb) as (s' & E).
  rewrite E. reflexivity.
Qed.


(** ** The table of currency sources *)

Lemma by_priority_nil (d : database) :
  CurrencyAdmin.by_priority d = [] <-> currency_source_settings d = [].
Proof.
  unfold CurrencyAdmin.by_priority.
  destruct (order_by_priority_sorted (currency_source_settings d)) as [Hp _]. split.
  - intros H. rewrite H in Hp. apply Permutation_nil. exact Hp.
  - intros H. rewrite H. reflexivity.
Qed.

Lemma get_currency_sources_run (d : database) (b : option nat) :
  Main.iteration CurrencyAdmin.get_currency_sources d b
  = match b with
    | Some O => (Raised "OperationalError", d)
    | _ =>
        match currency_source_settings d with
        | [] =>
            match b with
            | Some (S O) => (Raised "OperationalError", d)
            | Some (S (S O)) => (Raised "OperationalError", seeded d)
            | _ => (Ok CurrencyAdmin.defaults, seeded d)
            end
        | _ => (Ok (CurrencyAdmin.by_priority d), d)
        end
    end.
Proof.
  unfold Main.iteration, CurrencyAdmin.get_currency_sources.
  destruct (currency_source_settings d) as [|x l] eqn:E.
  - assert (H : CurrencyAdmin.by_priority d = []) by (apply by_priority_nil; exact E).
    assert (H' : CurrencyAdmin.by_priority (seeded d) = CurrencyAdmin.defaults).
    { unfold CurrencyAdmin.by_priority, seeded. simpl. rewrite E. reflexivity. }
    destruct b as [[|[|[|n]]]|]; run; try reflexivity; rewrite H; simpl;
      try reflexivity; fold (seeded d); rewrite H'; reflexivity.
  - destruct (CurrencyAdmin.by_priority d) as [|y l'] eqn:H.
    + apply by_priority_nil in H. congruence.
    + destruct b as [[|n]|]; run; try reflexivity; rewrite H; reflexivity.
Qed.

(** X16. Listing the currency sources seeds an empty table, once.  On a
    table with rows the request changes nothing and answers the rows by
    ascending priority.  On an empty table it stores the three default
    sources, all enabled, at priorities 1, 2 and 3, and answers them in
    that order; a second request answers the same and changes nothing.
    Seeding does not change the order in which the sources are tried: the
    resolver answers the default order before and after. *)
Theorem X16_currency_sources_are_seeded_once (d : database) (b : option nat) :
  (currency_source_settings d <> [] ->
   snd (Main.iteration CurrencyAdmin.get_currency_sources d b) = d
   /\ exists rows,
        fst (Main.iteration CurrencyAdmin.get_currency_sources d None) = Ok rows
        /\ Permutation rows (currency_source_settings d)
        /\ Sorted (fun x y => CurrencySourceSettings.priority x
                              <= CurrencySourceSettings.priority y) rows)
  /\ (currency_source_settings d = [] ->
      Main.iteration CurrencyAdmin.get_currency_sources d None
      = (Ok [CurrencySourceSettings.mk "ta3weem" true 1;
             CurrencySourceSettings.mk "egrates" true 2;
             CurrencySourceSettings.mk "banklive" true 3], seeded d)
      /\ currency_source_settings (seeded d)
         = [CurrencySourceSettings.mk "ta3weem" true 1;
            CurrencySourceSettings.mk "egrates" true 2;
            CurrencySourceSettings.mk "banklive" true 3]
      /\ (snd (Main.iteration CurrencyAdmin.get_currency_sources d b) = d
          \/ snd (Main.iteration CurrencyAdmin.get_currency_sources d b) = seeded d)
      /\ Main.iteration CurrencyAdmin.get_currency_sources (seeded d) None
         = (fst (Main.iteration CurrencyAdmin.get_currency_sources d None), seeded d)
      /\ forall b1 b2,
           Currency._get_enabled_sources_in_order (Some (SessionLocal (seeded d) b1))
           = Currency._get_enabled_sources_in_order (Some (SessionLocal d b2))).
Proof.
  split.
  - intros Hne. rewrite !get_currency_sources_run.
    destruct (currency_source_settings d) as [|x l] eqn:E; [contradiction|]. split.
    + destruct b as [[|n]|]; reflexivity.
    + exists (CurrencyAdmin.by_priority d). split; [reflexivity|].
      unfold CurrencyAdmin.by_priority. rewrite E. apply order_by_priority_sorted.
  - intros Hnil. rewrite !get_currency_sources_run.
    assert (Hs : currency_source_settings (seeded d) = CurrencyAdmin.defaults).
    { unfold seeded. simpl. rewrite Hnil. reflexivity. }
    rewrite Hs, Hnil. split; [reflexivity|]. split; [reflexivity|].
    split; [destruct b as [[|[|[|n]]]|]; simpl; auto|].
    split; [simpl; unfold CurrencyAdmin.by_priority; rewrite Hs; reflexivity|].
    intros b1 b2.
    assert (Hd : forall b0, Currency._get_enabled_sources_in_order
                              (Some (SessionLocal d b0)) = Currency.default_ids).
    { intros [[|n]|].
      - reflexivity.
      - rewrite enabled_sources_read by discriminate. simpl. rewrite Hnil. reflexivity.
      - rewrite enabled_sources_read by discriminate. simpl. rewrite Hnil. reflexivity. }
    rewrite Hd. destruct b1 as [[|n]|].
    + reflexivity.
    + rewrite enabled_sources_read by discriminate. simpl pending. rewrite Hs.
      reflexivity.
    + rewrite enabled_sources_read by discriminate. simpl pending. rewrite Hs.
      reflexivity.
Qed.

(** ** A currency source enabled, disabled or moved *)

Lemma update_currency_source_run (d : database) (b : option nat) (name : string)
    (is_enabled : option bool) (priority : option Z) :
  Main.iteration (CurrencyAdmin.update_currency_source name is_enabled priority) d b
  = match b with
    | Some O => (Raised "OperationalError", d)
    | _ =>
        match find (CurrencyAdmin.is_name name) (currency_source_settings d) with
        | None => (Ok None, d)
        | Some row =>
            match b with
            | Some (S O) => (Raised "OperationalError", d)
            | _ =>
                (Ok (Some (changed_source is_enabled priority row)),
                 CurrencyAdmin.set_currency_source_settings
                   (update_first (CurrencyAdmin.is_name name)
                      (changed_source is_enabled priority)) d)
            end
        end
    end.
Proof.
  unfold Main.iteration, CurrencyAdmin.update_currency_source.
  destruct b as [[|[|n]]|]; run; try reflexivity;
    destruct (find (CurrencyAdmin.is_name name) (currency_source_settings d));
    reflexivity.
Qed.

(** X17. Changing a currency source changes that source only.  A name that
    has no row is answered with nothing (the 404 of the endpoint) and the
    store stays as it is.  For a name that has a row the request answers the
    row with the given fields assigned (a field that is not given keeps its
    value), the names of the table stay as they are, in their order, and
    every row of another name is found at its place with every field as
    before.  If the store fails at the lookup or at the commit nothing is
    changed. *)
Theorem X17_currency_source_update_is_local (d : database) (b : option nat)
    (name : string) (is_enabled : option bool) (priority : option Z) :
  (find (CurrencyAdmin.is_name name) (currency_source_settings d) = None ->
   Main.iteration (CurrencyAdmin.update_currency_source name is_enabled priority) d None
   = (Ok None, d))
  /\ (forall row,
        find (CurrencyAdmin.is_name name) (currency_source_settings d) = Some row ->
        fst (Main.iteration
               (CurrencyAdmin.update_currency_source name is_enabled priority) d None)
        = Ok (Some (CurrencySourceSettings.mk name
                      (match is_enabled with
                       | Some v => v
                       | None => CurrencySourceSettings.is_enabled row
                       end)
                      (match priority with
                       | Some v => v
                       | None => CurrencySourceSettings.priority row
                       end)))
        /\ find (CurrencyAdmin.is_name name)
             (currency_source_settings
                (snd (Main.iteration
                        (CurrencyAdmin.update_currency_source name is_enabled priority)
                        d None)))
           = Some (CurrencySourceSettings.mk name
                     (match is_enabled with
                      | Some v => v
                      | None => CurrencySourceSettings.is_enabled row
                      end)
                     (match priority with
                      | Some v => v
                      | None => CurrencySourceSettings.priority row
                      end)))
  /\ map CurrencySourceSettings.source_name
       (currency_source_settings
          (snd (Main.iteration
                  (CurrencyAdmin.update_currency_source name is_enabled priority) d b)))
     = map CurrencySourceSettings.source_name (currency_source_settings d)
  /\ (forall i r,
        nth_error (currency_source_settings d) i = Some r ->
        CurrencySourceSettings.source_name r <> name ->
        nth_error
          (currency_source_settings
             (snd (Main.iteration
                     (CurrencyAdmin.update_currency_source name is_enabled priority)
                     d b))) i
        = Some r)
  /\ (Main.iteration (CurrencyAdmin.update_currency_source name is_enabled priority) d b
      = Main.iteration (CurrencyAdmin.update_currency_source name is_enabled priority)
          d None
      \/ Main.iteration (CurrencyAdmin.update_currency_source name is_enabled priority) d b
         = (Raised "OperationalError", d)).
Proof.
  rewrite !update_currency_source_run.
  split; [intros ->; reflexivity|]. split; [|split; [|split]].
  - intros row Hrow. rewrite Hrow. simpl.
    pose proof Hrow as Hn. apply find_some in Hn. destruct Hn as [_ Hn].
    apply String.eqb_eq in Hn.
    assert (E : changed_source is_enabled priority row
                = CurrencySourceSettings.mk name
                    (match is_enabled with
                     | Some v => v
                     | None => CurrencySourceSettings.is_enabled row
                     end)
                    (match priority with
                     | Some v => v
                     | None => CurrencySourceSettings.priority row
                     end)).
    { unfold changed_source. rewrite Hn. destruct is_enabled, priority; reflexivity. }
    rewrite <- E. split; [reflexivity|].
    rewrite find_update_first_same, Hrow; [reflexivity|].
    intros x Hx. exact Hx.
  - destruct b as [[|[|n]]|]; try reflexivity;
      destruct (find (CurrencyAdmin.is_name name) (currency_source_settings d));
      try reflexivity; simpl; apply map_update_first; reflexivity.
  - intros i r Hr Hne.
    assert (Hf : CurrencyAdmin.is_name name r = false)
      by (apply String.eqb_neq; exact Hne).
    destruct b as [[|[|n]]|]; try exact Hr;
      destruct (find (CurrencyAdmin.is_name name) (currency_source_settings d));
      try exact Hr; simpl; apply nth_error_update_first_other; assumption.
  - destruct b as [[|[|n]]|]; auto;
      destruct (find (CurrencyAdmin.is_name name) (currency_source_settings d)); auto.
Qed.

Lemma enabled_after_disabling (name : string) (l : list CurrencySourceSettings.t) :
  NoDup (map CurrencySourceSettings.source_name l) ->
  filter CurrencySourceSettings.is_enabled
    (update_first (CurrencyAdmin.is_name name) (changed_source (Some false) None) l)
  = filter (fun r => CurrencySourceSettings.is_enabled r
                     && negb (CurrencyAdmin.is_name name r)) l.
Proof.
  induction l as [|x l IH]; simpl; [reflexivity|].
  intros H. inversion H as [|? ? Hx Hl]; subst.
  destruct (CurrencyAdmin.is_name name x) eqn:E; simpl.
  - rewrite andb_false_r. apply String.eqb_eq in E.
    apply filter_ext_in. intros r Hr.
    assert (Hne : CurrencyAdmin.is_name name r = false).
    { apply String.eqb_neq. intros Hn. apply Hx. rewrite E, <- Hn.
      apply in_map. exact Hr. }
    rewrite Hne, andb_true_r. reflexivity.
  - rewrite andb_true_r, IH by exact Hl. reflexivity.
Qed.

(** X18. Disabling a currency source takes it out of the order, unless it
    was the last one.  On a table with distinct names, after a source has
    been disabled while some other source is enabled, the resolver no
    longer names it; but after the only enabled source has been disabled
    the resolver answers the default order of all three sources, so that
    every source is tried again. *)
Theorem X18_disabled_source_leaves_the_order (d : database) (name : string) :
  NoDup (map CurrencySourceSettings.source_name (currency_source_settings d)) ->
  In name (map CurrencySourceSettings.source_name (currency_source_settings d)) ->
  ((exists r, In r (currency_source_settings d)
              /\ CurrencySourceSettings.is_enabled r = true
              /\ CurrencySourceSettings.source_name r <> name) ->
   ~ In name
       (Currency._get_enabled_sources_in_order
          (Some (SessionLocal
                   (snd (Main.iteration
                           (CurrencyAdmin.update_currency_source name (Some false) None)
                           d None)) None))))
  /\ ((forall r, In r (currency_source_settings d) ->
                 CurrencySourceSettings.is_enabled r = true ->
                 CurrencySourceSettings.source_name r = name) ->
      Currency._get_enabled_sources_in_order
        (Some (SessionLocal
                 (snd (Main.iteration
                         (CurrencyAdmin.update_currency_source name (Some false) None)
                         d None)) None))
      = ["ta3weem"; "egrates"; "banklive"]).
Proof.
  intros Hnd Hin. rewrite update_currency_source_run.
  destruct (find (CurrencyAdmin.is_name name) (currency_source_settings d)) as [row|] eqn:E.
  2:{ exfalso. apply in_map_iff in Hin. destruct Hin as (r & Hr & Hin).
      apply (find_none _ _ E) in Hin. unfold CurrencyAdmin.is_name in Hin.
      rewrite Hr, String.eqb_refl in Hin. discriminate. }
  cbn [snd]. rewrite enabled_sources_read by discriminate.
  cbn [pending SessionLocal currency_source_settings
       CurrencyAdmin.set_currency_source_settings].
  rewrite enabled_after_disabling by exact Hnd.
  destruct (order_by_priority_sorted
              (filter (fun r => CurrencySourceSettings.is_enabled r
                                && negb (CurrencyAdmin.is_name name r))
                 (currency_source_settings d))) as [Hp _].
  split.
  - intros (r & Hr & He & Hn) Hin'.
    destruct (Currency.order_by_priority _) as [|x l] eqn:Eo.
    + apply Permutation_nil in Hp.
      assert (Hr' : In r (filter (fun r => CurrencySourceSettings.is_enabled r
                                           && negb (CurrencyAdmin.is_name name r))
                            (currency_source_settings d))).
      { apply filter_In. split; [exact Hr|]. rewrite He. simpl.
        apply negb_true_iff. apply String.eqb_neq. exact Hn. }
      rewrite Hp in Hr'. destruct Hr'.
    + change (In name (map CurrencySourceSettings.source_name (x :: l))) in Hin'.
      apply in_map_iff in Hin'. destruct Hin' as (y & Hy & Hin').
      apply (Permutation_in _ Hp) in Hin'. apply filter_In in Hin'.
      destruct Hin' as [_ Hf]. apply andb_true_iff in Hf. destruct Hf as [_ Hf].
      apply negb_true_iff in Hf. unfold CurrencyAdmin.is_name in Hf.
      rewrite Hy, String.eqb_refl in Hf. discriminate.
  - intros Honly.
    assert (Hnone : filter (fun r => CurrencySourceSettings.is_enabled r
                                     && negb (CurrencyAdmin.is_name name r))
                      (currency_source_settings d) = []).
    { generalize (currency_source_settings d) Honly. intros l.
      induction l as [|x l IH]; intros Honly'; [reflexivity|].
      simpl. destruct (CurrencySourceSettings.is_enabled x) eqn:Ex; simpl.
      - unfold CurrencyAdmin.is_name at 1.
        rewrite (Honly' x (or_introl eq_refl) Ex), String.eqb_refl. simpl.
        apply IH. intros r Hr. apply Honly'. right. exact Hr.
      - apply IH. intros r Hr. apply Honly'. right. exact Hr. }
    rewrite Hnone. reflexivity.
Qed.

(** * Further properties of the source test *)




(** * Further properties of the adapters *)

(** ** One observation per karat *)

Lemma dict_put_key_in (k : string) (v : observation) (d : list (string * observation))
    (x : string) :
  In x (map fst (Engine.dict_put k v d)) -> x = k \/ In x (map fst d).
Proof.
  induction d as [|[k' v'] d IH]; simpl.
  - intros [H|[]]. left. symmetry. exact H.
  - destruct (k' =? k)%string; simpl.
    + intros [H|H]; [right; left; exact H|right; right; exact H].
    + intros [H|H]; [right; left; exact H|].
      destruct (IH H) as [H'|H']; [left; exact H'|right; right; exact H'].
Qed.

Lemma dict_put_keys_distinct (k : string) (v : observation)
    (d : list (string * observation)) :
  NoDup (map fst d) -> NoDup (map fst (Engine.dict_put k v d)).
Proof.
  induction d as [|[k' v'] d IH]; simpl; intros H.
  - constructor; [intros []|constructor].
  - inversion H as [|? ? Hk Hd]; subst.
    destruct (k' =? k)%string eqn:E; simpl.
    + constructor; assumption.
    + constructor; [|apply IH; exact Hd].
      intros Hin. apply dict_put_key_in in Hin. destruct Hin as [Hin|Hin].
      * apply String.eqb_neq in E. contradiction.
      * contradiction.
Qed.

Lemma dict_put_find (k k0 : string) (v : observation) (d : list (string * observation)) :
  find (fun kv => (fst kv =? k0)%string) (Engine.dict_put k v d)
  = if (k =? k0)%string
    then Some (k0, v)
    else find (fun kv => (fst kv =? k0)%string) d.
Proof.
  induction d as [|[k' v'] d IH]; simpl.
  - destruct (k =? k0)%string eqn:E; [|reflexivity].
    apply String.eqb_eq in E. rewrite E. reflexivity.
  - destruct (k' =? k)%string eqn:E; simpl.
    + apply String.eqb_eq in E. subst k'.
      destruct (k =? k0)%string eqn:E0; [|reflexivity].
      apply String.eqb_eq in E0. rewrite E0. reflexivity.
    + destruct (k' =? k0)%string eqn:E0.
      * apply String.eqb_eq in E0. subst k'. rewrite String.eqb_sym, E. reflexivity.
      * exact IH.
Qed.

Lemma dict_fold_find (k0 : string) (prices : list observation) :
  forall d,
  find (fun kv => (fst kv =? k0)%string)
    (fold_left (fun d p => Engine.dict_put (Py.str (o_karat p)) p d) prices d)
  = match fold_left (fun acc q => if (Py.str (o_karat q) =? k0)%string
                                  then Some q else acc) prices None with
    | Some q => Some (k0, q)
    | None => find (fun kv => (fst kv =? k0)%string) d
    end.
Proof.
  induction prices as [|p prices IH] using rev_ind; intros d; [reflexivity|].
  rewrite !fold_left_app. simpl. rewrite dict_put_find, IH.
  destruct (Py.str (o_karat p) =? k0)%string; reflexivity.
Qed.

Lemma dict_fold_keys (prices : list observation) :
  forall d,
  NoDup (map fst d) ->
  (forall k v, In (k, v) d -> k = Py.str (o_karat v)) ->
  NoDup (map fst (fold_left (fun d p => Engine.dict_put (Py.str (o_karat p)) p d)
                    prices d))
  /\ forall k v,
       In (k, v) (fold_left (fun d p => Engine.dict_put (Py.str (o_karat p)) p d)
                    prices d) ->
       k = Py.str (o_karat v).
Proof.
  induction prices as [|p prices IH]; intros d Hnd Hk; simpl; [split; assumption|].
  apply IH.
  - apply dict_put_keys_distinct. exact Hnd.
  - intros k v Hin. clear IH Hnd.
    induction d as [|[k' v'] d IHd]; simpl in Hin.
    + destruct Hin as [[= <- <-]|[]]. reflexivity.
    + destruct (k' =? Py.str (o_karat p))%string eqn:E; simpl in Hin.
      * destruct Hin as [[= <- <-]|Hin].
        -- apply String.eqb_eq in E. exact E.
        -- apply Hk. right. exact Hin.
      * destruct Hin as [[= <- <-]|Hin].
        -- apply Hk. left. reflexivity.
        -- apply IHd; [|exact Hin]. intros k0 v0 H0. apply Hk. right. exact H0.
Qed.

Lemma find_values (k0 : string) (d : list (string * observation)) :
  (forall k v, In (k, v) d -> k = Py.str (o_karat v)) ->
  find (fun p => (Py.str (o_karat p) =? k0)%string) (map snd d)
  = option_map snd (find (fun kv => (fst kv =? k0)%string) d).
Proof.
  induction d as [|[k v] d IH]; intros Hk; simpl; [reflexivity|].
  rewrite <- (Hk k v (or_introl eq_refl)).
  destruct (k =? k0)%string; [reflexivity|].
  apply IH. intros k' v' H. apply Hk. right. exact H.
Qed.

Lemma values_distinct (d : list (string * observation)) :
  (forall k v, In (k, v) d -> k = Py.str (o_karat v)) ->
  map (fun p => Py.str (o_karat p)) (map snd d) = map fst d.
Proof.
  induction d as [|[k v] d IH]; intros Hk; simpl; [reflexivity|].
  rewrite <- (Hk k v (or_introl eq_refl)), IH; [reflexivity|].
  intros k' v' H. apply Hk. right. exact H.
Qed.

Lemma unique_prices_karats_distinct (prices : list observation) :
  NoDup (map (fun p => Py.str (o_karat p)) (Engine.unique_prices prices)).
Proof.
  unfold Engine.unique_prices.
  destruct (dict_fold_keys prices [] (NoDup_nil _)) as [Hnd Hk]; [intros ? ? []|].
  rewrite values_distinct by exact Hk. exact Hnd.
Qed.

Lemma unique_prices_find (prices : list observation) (k : string) :
  find (fun p => (Py.str (o_karat p) =? k)%string) (Engine.unique_prices prices)
  = last_with_karat k prices.
Proof.
  unfold Engine.unique_prices.
  destruct (dict_fold_keys prices [] (NoDup_nil _)) as [Hnd Hk]; [intros ? ? []|].
  rewrite find_values by exact Hk. rewrite dict_fold_find. unfold last_with_karat.
  destruct (fold_left _ prices None); reflexivity.
Qed.

Lemma adapter_idents_distinct (a : Engine.source) (now : datetime)
    (out : list observation) :
  (forall p, In p out -> from_adapter a now p /\ o_karat p <> Some "") ->
  NoDup (map (fun p => Py.str (o_karat p)) out) -> NoDup (map ident out).
Proof.
  induction out as [|p out IH]; intros Hfrom Hkeys; simpl; [constructor|].
  inversion Hkeys as [|? ? Hp Hout]; subst.
  constructor.
  - intros Hin. apply Hp. apply in_map_iff in Hin. destruct Hin as (q & Hq & Hin).
    apply in_map_iff. exists q. split; [|exact Hin].
    destruct (Hfrom p (or_introl eq_refl)) as [(k1 & s1 & b1 & ->) H1].
    destruct (Hfrom q (or_intror Hin)) as [(k2 & s2 & b2 & ->) H2].
    unfold ident, Main.key in Hq. simpl in Hq, H1, H2. simpl.
    destruct k1; [contradiction|]. destruct k2; [contradiction|].
    simpl in Hq. injection Hq. intros; subst; reflexivity.
  - apply IH; [|exact Hout]. intros q Hq. apply Hfrom. right. exact Hq.
Qed.

Lemma gold_price_live_karat (now : datetime) (pg : Engine.page) (p : observation) :
  In p (Engine.parse Engine.GoldPriceLiveSource now pg) -> o_karat p <> Some "".
Proof.
  unfold Engine.parse. intros H. apply unique_prices_in in H.
  assert (Hc : forall c, In p (Engine.gold_price_live_card now c) -> o_karat p <> Some "").
  { intros c. unfold Engine.gold_price_live_card.
    destruct (Engine.nonempty (Engine.card_karat c)) eqn:E; [|intros []].
    cbv zeta.
    repeat match goal with
           | |- In _ (if ?c then _ else _) -> _ => destruct c; [|intros []]
           end.
    intros [<-|[]]. simpl. intros [= Hk]. rewrite Hk in E. discriminate. }
  assert (Hr : forall r, In p (Engine.gold_price_live_row now r) -> o_karat p <> Some "").
  { intros r. unfold Engine.gold_price_live_row.
    destruct (Engine.nonempty (Engine.karat r)) eqn:E; [|intros []].
    match goal with |- In _ (if ?c then _ else _) -> _ => destruct c end; [|intros []].
    intros [<-|[]]. simpl. intros [= Hk]. rewrite Hk in E. discriminate. }
  destruct (flat_map (Engine.gold_price_live_card now) (Engine.cards pg)) eqn:E.
  - apply in_flat_map in H. destruct H as (r & _ & H). exact (Hr r H).
  - rewrite <- E in H. apply in_flat_map in H. destruct H as (c & _ & H). exact (Hc c H).
Qed.

(** X20. The de-duplication of the GoldPriceLive adapter keeps one
    observation per karat, the last one listed: in its result no two
    observations have the same karat, and the observation found for a karat
    is the last observation the page gave for it.  So the adapter never
    hands the writer two observations of one key. *)
Theorem X20_one_observation_per_karat (prices : list observation) (k : string) :
  NoDup (map (fun p => Py.str (o_karat p)) (Engine.unique_prices prices))
  /\ find (fun p => (Py.str (o_karat p) =? k)%string) (Engine.unique_prices prices)
     = last_with_karat k prices
  /\ (forall (now : datetime) (pg : Engine.page),
        NoDup (map ident (Engine.parse Engine.GoldPriceLiveSource now pg))).
Proof.
  split; [apply unique_prices_karats_distinct|]. split; [apply unique_prices_find|].
  intros now pg. apply (adapter_idents_distinct Engine.GoldPriceLiveSource now).
  - intros p Hp. split.
    + apply (parse_from_adapter Engine.GoldPriceLiveSource now pg). exact Hp.
    + apply (gold_price_live_karat now pg). exact Hp.
  - unfold Engine.parse. apply unique_prices_karats_distinct.
Qed.

(** * Further properties of the manual prices *)

(** ** The list of manual prices *)

Lemma dict_set_lookup {V : Type} (k k0 : string) (v : V) (d : list (string * V)) :
  PyText.dict_lookup k0 (PyText.dict_set k v d)
  = if (k =? k0)%string then Some v else PyText.dict_lookup k0 d.
Proof.
  induction d as [|[k' v'] d IH]; simpl.
  - destruct (k =? k0)%string; reflexivity.
  - destruct (k' =? k)%string eqn:E; simpl.
    + apply String.eqb_eq in E. subst k'. destruct (k =? k0)%string; reflexivity.
    + destruct (k' =? k0)%string eqn:E0.
      * apply String.eqb_eq in E0. subst k'. rewrite String.eqb_sym, E. reflexivity.
      * exact IH.
Qed.






(** * Further properties of the public price list *)






(** * Further properties of the managers *)

Lemma first_valid_source (web : Engine.source -> Engine.response) (now : datetime)
    (sources : list Engine.source) :
  (forall x, In x sources -> valid_prices web now x = [])
  \/ exists pre a post,
       sources = pre ++ a :: post
       /\ (forall x, In x pre -> valid_prices web now x = [])
       /\ valid_prices web now a <> [].
Proof.
  induction sources as [|x sources IH]; [left; intros ? []|].
  destruct (valid_prices web now x) as [|v vs] eqn:E.
  - destruct IH as [H|(pre & a & post & -> & Hpre & Ha)].
    + left. intros y [<-|Hy]; [exact E|apply H; exact Hy].
    + right. exists (x :: pre), a, post. split; [reflexivity|]. split; [|exact Ha].
      intros y [<-|Hy]; [exact E|apply Hpre; exact Hy].
  - right. exists [], x, sources. split; [reflexivity|]. split; [intros ? []|].
    rewrite E. discriminate.
Qed.

(** X23. One result of the gold manager never mixes sources.  Whatever the
    persisted order and whatever the sites serve, the adapters the manager
    attempts are a prefix of the resolved order; if it returns observations
    they all carry the name of the last adapter attempted, one status
    ([Primary] exactly when that adapter was the only one attempted), the
    time of the cycle and a sell price above zero, and the writer files them
    under [local] and [egypt]; if it returns none, every adapter of the
    order was attempted. *)
Theorem X23_gold_result_has_one_source (d : database) (b : option nat)
    (web : Engine.source -> Engine.response) (now : datetime) :
  (exists rest,
      Engine._get_ordered_sources d b
      = Engine.attempted (snd (Engine.get_latest_prices d b web now)) ++ rest)
  /\ (fst (Engine.get_latest_prices d b web now) = [] ->
      Engine.attempted (snd (Engine.get_latest_prices d b web now))
      = Engine._get_ordered_sources d b)
  /\ (fst (Engine.get_latest_prices d b web now) <> [] ->
      exists pre a,
        Engine.attempted (snd (Engine.get_latest_prices d b web now)) = pre ++ [a]
        /\ forall p, In p (fst (Engine.get_latest_prices d b web now)) ->
             o_source p = Some (Engine.NAME a)
             /\ o_source_status p
                = Some (match pre with [] => "Primary" | _ => "Fallback" end)
             /\ o_timestamp p = now
             /\ 0 < sell_price p
             /\ Main.p_type p = "local" /\ Main.country p = "egypt"
             /\ Main.key p <> "").
Proof.
  unfold Engine.get_latest_prices.
  destruct (first_valid_source web now (Engine._get_ordered_sources d b))
    as [Hall|(pre & a & post & E & Hpre & Ha)].
  - destruct (manager_all_fail web now _ 0%nat Engine.ScraperManager Hall) as [H1 H2].
    rewrite H1, H2. simpl. split; [exists []; rewrite app_nil_r; reflexivity|].
    split; [reflexivity|]. intros H. contradiction.
  - rewrite E.
    destruct (manager_first_success web now pre a post 0%nat Engine.ScraperManager
                Hpre Ha) as [H1 H2].
    rewrite H1, H2. simpl. split; [exists post; rewrite <- app_assoc; reflexivity|].
    split.
    + intros H. apply map_eq_nil in H. contradiction.
    + intros _. exists pre, a. split; [reflexivity|].
      intros p Hp. apply in_map_iff in Hp. destruct Hp as (q & <- & Hq).
      apply valid_from_adapter in Hq. destruct Hq as [(k & sell & buy & ->) Hpos].
      simpl. split; [reflexivity|]. split; [destruct pre; reflexivity|].
      split; [reflexivity|]. split; [exact Hpos|]. split; [reflexivity|].
      split; [reflexivity|].
      unfold Main.key. simpl. destruct k; discriminate.
Qed.

Lemma bank_rates_in (enabled : list string) (web : Currency.source -> Currency.response)
    (now : datetime) (bank : string) (ids : list string) (r : Rate.t) :
  In r (Currency.bank_rates enabled web now bank ids) ->
  exists id src,
    In id ids
    /\ Currency.sources_map id bank = Some src
    /\ Rate.source r = Currency.name src
    /\ 0 < Rate.sell_price r
    /\ Rate.timestamp r = now
    /\ Rate.source_status r
       = Some (if (id =? hd "" enabled)%string then "Primary" else "Fallback").
Proof.
  induction ids as [|id ids IH]; simpl; [intros []|].
  destruct (Currency.sources_map id bank) as [src|] eqn:E.
  - destruct (Currency.fetch_rates src (web src) now) as [|x l] eqn:Ef.
    + intros H. destruct (IH H) as (id' & src' & Hin & H').
      exists id', src'. split; [right; exact Hin|exact H'].
    + intros H.
      assert (Hq : exists q,
                 Currency.tag (if (id =? hd "" enabled)%string
                               then "Primary" else "Fallback") q = r
                 /\ In q (x :: l)) by (apply in_map_iff; exact H).
      clear H. destruct Hq as (q & <- & Hq).
      rewrite <- Ef in Hq. unfold Currency.fetch_rates in Hq.
      destruct (web src) as [e|rows]; [destruct Hq|].
      apply in_flat_map in Hq. destruct Hq as (y & _ & Hq).
      destruct (0 <? Currency.sell_val y) eqn:Ep; [|destruct Hq].
      destruct Hq as [<-|[]]. exists id, src. simpl.
      split; [left; reflexivity|]. split; [exact E|]. split; [reflexivity|].
      split; [apply Z.ltb_lt; exact Ep|]. split; reflexivity.
  - intros H. destruct (IH H) as (id' & src' & Hin & H').
    exists id', src'. split; [right; exact Hin|exact H'].
Qed.

(** X24. Every rate the currency manager returns comes from an enabled
    source that is known, for one of the two banks: it carries the name of
    that source, a sell price above zero, the time of the cycle, and the
    status [Primary] exactly when the id of its source is the first of the
    enabled ids (so no rate is [Primary] when the first enabled id is not a
    known source); the writer files it under [currency], [egypt] and its
    currency code. *)
Theorem X24_rates_come_from_enabled_sources (db_session : option Session)
    (web : Currency.source -> Currency.response) (now : datetime) (r : Rate.t) :
  In r (Currency.get_latest_rates db_session web now) ->
  exists id bank src,
    In id (Currency._get_enabled_sources_in_order db_session)
    /\ (bank = "nbe" \/ bank = "bdc")
    /\ Currency.sources_map id bank = Some src
    /\ Rate.source r = Currency.name src
    /\ 0 < Rate.sell_price r
    /\ Rate.timestamp r = now
    /\ Rate.source_status r
       = Some (if (id =? hd "" (Currency._get_enabled_sources_in_order db_session))%string
               then "Primary" else "Fallback")
    /\ ident (Main.standardize r) = ("currency", "egypt", Rate.currency r).
Proof.
  unfold Currency.get_latest_rates. cbv zeta. simpl. rewrite app_nil_r.
  intros H. apply in_app_or in H.
  destruct H as [H|H]; apply bank_rates_in in H;
    destruct H as (id & src & Hin & Hs & Hn & Hp & Ht & Hst).
  - exists id, "nbe", src. split; [exact Hin|]. split; [left; reflexivity|].
    repeat (split; [assumption|]).
    unfold ident, Main.key. simpl. destruct (Rate.currency r); reflexivity.
  - exists id, "bdc", src. split; [exact Hin|]. split; [right; reflexivity|].
    repeat (split; [assumption|]).
    unfold ident, Main.key. simpl. destruct (Rate.currency r); reflexivity.
Qed.

(** * What the currency cycle does not read *)












(** * Sell and buy prices of the adapters *)

Lemma fold_max_ge (a : Z) (l : list Z) : a <= fold_right Z.max a l.
Proof. induction l as [|x l IH]; simpl; lia. Qed.

Lemma fold_min_le (a : Z) (l : list Z) : fold_right Z.min a l <= a.
Proof. induction l as [|x l IH]; simpl; lia. Qed.

Lemma list_min_le_max (l : list price) : Engine.list_min l <= Engine.list_max l.
Proof.
  unfold Engine.list_min, Engine.list_max.
  pose proof (fold_max_ge (hd 0 l) l). pose proof (fold_min_le (hd 0 l) l). lia.
Qed.

(** X26. Four adapters never report a sell price below the buy price.  The
    GoldBullion, EgyptGoldPriceToday, GoldPriceLive and SouqPriceToday
    adapters take the larger of the two prices they read as the sell price
    and the smaller as the buy price, whatever the order of the columns;
    the GoldEra and Isagha adapters hand on the first price column as sell
    and the second as buy, as the page has them. *)
Theorem X26_sell_is_not_below_buy (now : datetime) (pg : Engine.page) :
  (forall a p,
      a <> Engine.GoldEraSource -> a <> Engine.IsaghaSource ->
      In p (Engine.parse a now pg) -> buy_price p <= sell_price p)
  /\ (forall a r,
        a = Engine.GoldEraSource \/ a = Engine.IsaghaSource ->
        In r (Engine.rows pg) -> 0 < Engine.val1 r ->
        In (Engine.price_dict a (Engine.karat r) (Engine.val1 r) (Engine.val2 r) now)
           (Engine.parse a now pg)).
Proof.
  split.
  - intros a p Hera Hisagha Hp. destruct a; try contradiction; unfold Engine.parse in Hp.
    + apply in_flat_map in Hp. destruct Hp as (r & _ & [<-|[]]). simpl. lia.
    + apply in_flat_map in Hp. destruct Hp as (r & _ & Hp).
      unfold Engine.egypt_gold_price_today_row in Hp.
      repeat match type of Hp with
             | In _ (if ?c then _ else _) => destruct c; [|destruct Hp]
             end.
      destruct Hp as [<-|[]]. simpl. lia.
    + apply unique_prices_in in Hp.
      assert (Hc : forall c, In p (Engine.gold_price_live_card now c) ->
                             buy_price p <= sell_price p).
      { intros c. unfold Engine.gold_price_live_card. cbv zeta.
        repeat match goal with
               | |- In _ (if ?c then _ else _) -> _ => destruct c; [|intros []]
               end.
        intros [<-|[]]. simpl. apply list_min_le_max. }
      assert (Hr : forall r, In p (Engine.gold_price_live_row now r) ->
                             buy_price p <= sell_price p).
      { intros r. unfold Engine.gold_price_live_row. cbv zeta.
        repeat match goal with
               | |- In _ (if ?c then _ else _) -> _ => destruct c; [|intros []]
               end.
        intros [<-|[]]. simpl. lia. }
      destruct (flat_map (Engine.gold_price_live_card now) (Engine.cards pg)) eqn:E.
      * apply in_flat_map in Hp. destruct Hp as (r & _ & Hp). exact (Hr r Hp).
      * rewrite <- E in Hp. apply in_flat_map in Hp. destruct Hp as (c & _ & Hp).
        exact (Hc c Hp).
    + apply in_flat_map in Hp. destruct Hp as (r & _ & Hp).
      unfold Engine.souq_price_today_row in Hp. cbv zeta in Hp.
      repeat match type of Hp with
             | In _ (if ?c then _ else _) => destruct c; [|destruct Hp]
             end.
      destruct Hp as [<-|[]]. simpl. lia.
  - intros a r [-> | ->] Hr Hpos; unfold Engine.parse; apply in_flat_map; exists r;
      (split; [exact Hr|]).
    + unfold Engine.gold_era_row. cbv zeta. apply Z.ltb_lt in Hpos. rewrite Hpos.
      left. reflexivity.
    + unfold Engine.isagha_row. cbv zeta. apply Z.ltb_lt in Hpos. rewrite Hpos.
      left. reflexivity.
Qed.

(** * From the country cycle to the country endpoint *)

Lemma like_target (c c' : string) :
  In c Country.target_countries -> In c' Country.target_countries ->
  Gold.like c c' = true -> c' = c.
Proof.
  unfold Country.target_countries. intros Hc Hc'. simpl in Hc, Hc'.
  repeat (destruct Hc as [<-|Hc]);
    try (destruct Hc);
    repeat (destruct Hc' as [<-|Hc']);
    try (destruct Hc');
    intros H; try reflexivity; vm_compute in H; discriminate H.
Qed.

Lemma like_target_same (c : string) :
  In c Country.target_countries -> Gold.like c c = true.
Proof.
  unfold Country.target_countries. intros Hc. simpl in Hc.
  repeat (destruct Hc as [<-|Hc]; [vm_compute; reflexivity|]). destruct Hc.
Qed.

Lemma run_country_reliable (d : database) (web : string -> Country.response)
    (now : datetime) :
  snd (Country.run_country_scraper_periodically d None web now)
  = reconcile_all now (Country.get_all_country_prices web now) d.
Proof.
  unfold Country.run_country_scraper_periodically, Country.run_country_scraper_body,
    Main.iteration.
  rewrite bind_run, query_reliable by reflexivity. cbv zeta.
  destruct (Country.get_all_country_prices web now) as [|p l] eqn:E; [reflexivity|].
  rewrite bind_run.
  pose proof (save_prices_reliable now (p :: l) d) as H. unfold Main.iteration in H.
  destruct (Main.save_prices_to_db (p :: l) now (SessionLocal d None)) as [[[]|e] s'].
  - simpl in *. injection H as H. exact H.
  - discriminate H.
Qed.

Lemma reconcile_all_keys_distinct (t : datetime) (batch : list observation) :
  forall d,
  NoDup (map row_key (unified_prices d)) ->
  NoDup (map row_key (unified_prices (reconcile_all t batch d))).
Proof.
  induction batch as [|p batch IH]; intros d H; [exact H|].
  rewrite reconcile_all_cons. apply IH. apply reconcile_keys_distinct. exact H.
Qed.

Lemma last_of_in (p : observation) (batch : list observation) (q : observation) :
  last_of p batch = Some q -> In q batch /\ ident q = ident p.
Proof.
  induction batch as [|x batch IH] using rev_ind; [discriminate|].
  rewrite last_of_snoc. destruct (ident_eqb x p) eqn:E.
  - intros [= <-]. split; [apply in_or_app; right; left; reflexivity|].
    apply ident_eqb_eq. exact E.
  - intros H. destruct (IH H) as [Hin Hi]. split; [|exact Hi].
    apply in_or_app. left. exact Hin.
Qed.

Lemma reconcile_all_last (t : datetime) (batch : list observation) (d : database)
    (p : observation) :
  In p batch -> Main.key p <> "" ->
  exists row q,
    snapshot p (reconcile_all t batch d) = Some row
    /\ last_of p batch = Some q
    /\ reflects t q row.
Proof.
  induction batch as [|x batch IH] using rev_ind; intros Hin Hk; [contradiction|].
  rewrite reconcile_all_app, last_of_snoc. simpl.
  destruct (ident_eqb x p) eqn:E.
  - apply ident_eqb_eq in E.
    assert (Hkx : Main.key x <> "") by (rewrite (key_of_ident x p E); exact Hk).
    destruct (reconcile_snapshot t x (reconcile_all t batch d) Hkx) as (row & H & R).
    exists row, x. split; [rewrite (snapshot_ext p x _ (eq_sym E)); exact H|].
    split; [reflexivity|exact R].
  - assert (Hne : ident p <> ident x).
    { intros H. symmetry in H. apply ident_eqb_eq in H. congruence. }
    apply in_app_or in Hin. destruct Hin as [Hin|[->|[]]]; [|contradiction].
    destruct (IH Hin Hk) as (row & q & H & Hq & R).
    exists row, q. split; [|auto].
    rewrite reconcile_snapshot_other by exact Hne. exact H.
Qed.

Lemma reconcile_row_keys (t : datetime) (p : observation) (d : database)
    (r : UnifiedPrice.t) :
  In r (unified_prices (reconcile t p d)) ->
  (exists r0, In r0 (unified_prices d) /\ row_key r = row_key r0)
  \/ row_key r = ident p.
Proof.
  rewrite reconcile_rows. destruct (Main.key p =? "")%string.
  - intros H. left. exists r. auto.
  - destruct (find (Main.same_key p) (unified_prices d)).
    + intros H. left. apply (in_map row_key) in H.
      rewrite map_update_first in H by reflexivity.
      apply in_map_iff in H. destruct H as (r0 & H0 & Hin). exists r0. auto.
    + intros H. apply in_app_or in H. destruct H as [H|[<-|[]]].
      * left. exists r. auto.
      * right. reflexivity.
Qed.

Lemma dict_fold_lookup {A V : Type} (kf : A -> string) (vf : A -> V) (k0 : string)
    (l : list A) (w : V) :
  forall acc,
  (exists s, In s l /\ kf s = k0) ->
  (forall s, In s l -> kf s = k0 -> vf s = w) ->
  PyText.dict_lookup k0
    (fold_left (fun d s => PyText.dict_set (kf s) (vf s) d) l acc) = Some w.
Proof.
  induction l as [|x l IH] using rev_ind; intros acc (s & Hs & Hk) Hall; [destruct Hs|].
  rewrite fold_left_app. simpl. rewrite dict_set_lookup.
  destruct (kf x =? k0)%string eqn:E.
  - apply String.eqb_eq in E. rewrite (Hall x); [reflexivity| |exact E].
    apply in_or_app. right. left. reflexivity.
  - apply IH.
    + apply in_app_or in Hs. destruct Hs as [Hs|[<-|[]]].
      * exists s. split; assumption.
      * apply String.eqb_neq in E. contradiction.
    + intros y Hy. apply Hall. apply in_or_app. left. exact Hy.
Qed.

Lemma row_by_key (l : list UnifiedPrice.t) (r s : UnifiedPrice.t) :
  NoDup (map row_key l) -> In r l -> In s l -> row_key s = row_key r -> s = r.
Proof.
  induction l as [|x l IH]; intros Hnd Hr Hs Hk; [destruct Hr|].
  inversion Hnd as [|? ? Hx Hl]; subst.
  destruct Hr as [->|Hr], Hs as [->|Hs].
  - reflexivity.
  - exfalso. apply Hx. rewrite <- Hk. apply in_map. exact Hs.
  - exfalso. apply Hx. rewrite Hk. apply in_map. exact Hr.
  - apply IH; assumption.
Qed.

Lemma country_answer_lists_row (d : database) (c : string) (row : UnifiedPrice.t) :
  NoDup (map row_key (unified_prices d)) ->
  (forall r, In r (unified_prices d) -> GoldCountry.of_country c r = true ->
             UnifiedPrice.type r = "international" /\ UnifiedPrice.country r = c) ->
  In row (unified_prices d) ->
  GoldCountry.of_country c row = true ->
  exists answer,
    fst (GoldCountry.country_request d None c) = Ok answer
    /\ PyText.dict_lookup (UnifiedPrice.key row) (CountryAnswer.current_prices answer)
       = Some (UnifiedPrice.sell_price row, UnifiedPrice.buy_price row,
               UnifiedPrice.currency row).
Proof.
  intros Hnd Honly Hrow Hof.
  unfold GoldCountry.country_request, Main.iteration,
    GoldCountry.get_single_country_latest.
  rewrite bind_run, query_reliable by reflexivity. cbn [pending SessionLocal].
  assert (Hin : In row (filter (GoldCountry.of_country c) (unified_prices d)))
    by (apply filter_In; split; assumption).
  destruct (filter (GoldCountry.of_country c) (unified_prices d)) as [|first rest] eqn:E;
    [destruct Hin|].
  unfold ret. cbn [fst]. eexists. split; [reflexivity|]. cbn [CountryAnswer.current_prices].
  apply (dict_fold_lookup UnifiedPrice.key
           (fun p => (UnifiedPrice.sell_price p, UnifiedPrice.buy_price p,
                      UnifiedPrice.currency p))).
  - exists row. split; [exact Hin|reflexivity].
  - intros s Hs Hk. rewrite <- E in Hs. apply filter_In in Hs. destruct Hs as [Hs Hos].
    assert (s = row) as ->; [|reflexivity].
    apply (row_by_key (unified_prices d)); [exact Hnd|exact Hrow|exact Hs|].
    destruct (Honly s Hs Hos) as [Ht Hc]. destruct (Honly row Hrow Hof) as [Ht' Hc'].
    unfold row_key. rewrite Ht, Hc, Ht', Hc', Hk. reflexivity.
Qed.

(** X27. What the country cycle scraped is what the country endpoint
    serves.  On a store that answers, with distinct row keys, in which every
    row the endpoint selects for a country is an [international] row of that
    country, after an iteration of the country loop the endpoint lists, for
    every key the cycle reported for that country, the price of the last
    observation of that key as sell and as buy price, with the currency code
    of the country. *)
Theorem X27_scraped_country_prices_are_served (d : database)
    (web : string -> Country.response) (now : datetime) (p : observation) :
  NoDup (map row_key (unified_prices d)) ->
  (forall r, In r (unified_prices d) ->
             GoldCountry.of_country (Main.country p) r = true ->
             UnifiedPrice.type r = "international"
             /\ UnifiedPrice.country r = Main.country p) ->
  In p (Country.get_all_country_prices web now) ->
  exists q code answer,
    last_of p (Country.get_all_country_prices web now) = Some q
    /\ Country.CURRENCY_MAP (Main.country p) = Some code
    /\ fst (GoldCountry.country_request
              (snd (Country.run_country_scraper_periodically d None web now))
              None (Main.country p)) = Ok answer
    /\ PyText.dict_lookup (Main.key p) (CountryAnswer.current_prices answer)
       = Some (sell_price q, sell_price q, code).
Proof.
  intros Hnd Honly Hp. rewrite run_country_reliable.
  destruct (country_prices_in web now p Hp) as (c & k & code & Hc & Hm & Hk & _ & Ep).
  destruct (target_country_known c Hc) as (Hl & _).
  assert (Hcp : Main.country p = c).
  { rewrite Ep. unfold Main.country. simpl. exact Hl. }
  assert (Hkp : Main.key p = k).
  { rewrite Ep. unfold Main.key. simpl. destruct k; [contradiction|reflexivity]. }
  assert (Hip : ident p = ("international", c, k)).
  { unfold ident. rewrite Hcp, Hkp. rewrite Ep at 1. reflexivity. }
  rewrite Hcp in *. rewrite Hkp.
  destruct (reconcile_all_last now (Country.get_all_country_prices web now) d p Hp)
    as (row & q & Hsnap & Hq & R); [rewrite Hkp; exact Hk|].
  destruct (last_of_in _ _ _ Hq) as [Hqin Hqi].
  destruct (country_prices_in web now q Hqin) as (c' & k' & code' & Hc' & Hm' & _ & _ & Eq).
  destruct (target_country_known c' Hc') as (Hl' & _).
  assert (Hcq : c' = c).
  { rewrite Hip in Hqi. unfold ident in Hqi. injection Hqi as _ Hcq _.
    rewrite Eq in Hcq. unfold Main.country in Hcq. simpl in Hcq. congruence. }
  subst c'. rewrite Hm in Hm'. injection Hm' as <-.
  exists q, code.
  assert (Hrow : In row (unified_prices
                           (reconcile_all now (Country.get_all_country_prices web now) d))
                 /\ row_key row = ("international", c, k)).
  { split.
    - unfold snapshot in Hsnap. apply find_some in Hsnap. apply Hsnap.
    - rewrite (snapshot_key p _ row Hsnap). exact Hip. }
  destruct Hrow as [Hrin Hrk].
  assert (Hinv : forall batch x,
             (forall y, In y batch -> exists c0 k0, In c0 Country.target_countries
                                                    /\ ident y = ("international", c0, k0)) ->
             (forall r, In r (unified_prices x) -> GoldCountry.of_country c r = true ->
                        UnifiedPrice.type r = "international"
                        /\ UnifiedPrice.country r = c) ->
             forall r, In r (unified_prices (reconcile_all now batch x)) ->
                       GoldCountry.of_country c r = true ->
                       UnifiedPrice.type r = "international"
                       /\ UnifiedPrice.country r = c).
  { induction batch as [|y batch IH]; intros x Hb Hx; [exact Hx|].
    rewrite reconcile_all_cons. apply IH.
    - intros z Hz. apply Hb. right. exact Hz.
    - intros r Hr Hof. apply reconcile_row_keys in Hr.
      destruct Hr as [(r0 & Hr0 & Hkey)|Hkey].
      + unfold row_key in Hkey. injection Hkey as Ht Hco _.
        assert (Hof0 : GoldCountry.of_country c r0 = true).
        { unfold GoldCountry.of_country, GoldCountry.known_type in *.
          rewrite <- Ht, <- Hco. exact Hof. }
        destruct (Hx r0 Hr0 Hof0) as [H1 H2]. split; congruence.
      + destruct (Hb y (or_introl eq_refl)) as (c0 & k0 & Hc0 & Hy).
        rewrite Hy in Hkey. unfold row_key in Hkey. injection Hkey as Ht Hco _.
        split; [exact Ht|].
        unfold GoldCountry.of_country in Hof. apply andb_true_iff in Hof.
        destruct Hof as [Hlike _]. rewrite Hco in Hlike. rewrite Hco.
        apply (like_target c c0); assumption. }
  destruct (country_answer_lists_row
              (reconcile_all now (Country.get_all_country_prices web now) d) c row)
    as (answer & Ha & Hlook).
  - apply reconcile_all_keys_distinct. exact Hnd.
  - apply Hinv; [|exact Honly].
    intros y Hy. destruct (country_prices_in web now y Hy)
      as (c0 & k0 & code0 & Hc0 & _ & Hk0 & _ & Ey).
    destruct (target_country_known c0 Hc0) as (Hl0 & _).
    exists c0, k0. split; [exact Hc0|].
    rewrite Ey. unfold ident, Main.p_type, Main.country, Main.key. simpl.
    rewrite Hl0. destruct k0; [contradiction|reflexivity].
  - exact Hrin.
  - unfold row_key in Hrk. injection Hrk as Ht Hco _.
    unfold GoldCountry.of_country, GoldCountry.known_type. rewrite Ht, Hco.
    rewrite (like_target_same c Hc). reflexivity.
  - exists answer. split; [exact Hq|]. split; [exact Hm|]. split; [exact Ha|].
    unfold row_key in Hrk. injection Hrk as _ _ Hkey. rewrite Hkey in Hlook.
    rewrite Hlook. destruct R as (Rs & Rb & Rc & _).
    rewrite Rs, Rb, Rc, Eq. reflexivity.
Qed.

(** * The further properties at concrete inputs *)

Lemma X1_writer_keeps_keys_and_ids_distinct_witness :
  NoDup (map row_key
           (unified_prices
              (snd (Main.iteration
                      (Main.save_prices_to_db [gold21 105 95 "Primary"] 20)
                      two_karat_db None))))
  /\ NoDup (map UnifiedPrice.id
              (unified_prices
                 (snd (Main.iteration
                         (Main.save_prices_to_db [gold21 105 95 "Primary"] 20)
                         two_karat_db None)))).
Proof.
  destruct (X1_writer_keeps_keys_and_ids_distinct two_karat_db None
              [gold21 105 95 "Primary"] 20) as [H1 H2].
  split; [apply H1|apply H2]; vm_compute; repeat constructor; simpl;
    intuition discriminate.
Defined.

Lemma X2_writer_leaves_other_keys_alone_witness :
  exists r,
    nth_error (unified_prices two_karat_db) 1 = Some r
    /\ nth_error
         (unified_prices
            (snd (Main.iteration
                    (Main.save_prices_to_db [gold21 105 95 "Primary"] 20)
                    two_karat_db None))) 1
       = Some r.
Proof.
  eexists. split; [vm_compute; reflexivity|].
  apply X2_writer_leaves_other_keys_alone.
  - vm_compute. reflexivity.
  - intros p [<-|[]]. vm_compute. discriminate.
Defined.

Lemma X4_writer_entries_point_to_their_row_witness :
  exists e,
    In e (price_history
            (snd (Main.iteration (Main.save_prices_to_db two_karats 10) empty_db None)))
    /\ points_to_row
         (snd (Main.iteration (Main.save_prices_to_db two_karats 10) empty_db None)) e.
Proof.
  eexists. split; [vm_compute; left; reflexivity|].
  apply X4_writer_entries_point_to_their_row. vm_compute. left. reflexivity.
Defined.

Lemma X5_last_observation_of_a_key_wins_witness :
  exists row,
    snapshot (gold21 100 90 "Primary") (committed twice_21 10 empty_db) = Some row
    /\ UnifiedPrice.sell_price row = 105.
Proof.
  destruct (X5_last_observation_of_a_key_wins empty_db twice_21 10
              (gold21 100 90 "Primary")) as (row & q & H & Hq & _ & R).
  - left. reflexivity.
  - vm_compute. discriminate.
  - exists row. split; [exact H|].
    vm_compute in Hq. injection Hq as <-. destruct R as [R _]. exact R.
Defined.

Lemma X6_two_quotes_of_one_key_fill_the_history_witness :
  exists e1 e2,
    price_history
      (snd (Main.iteration (Main.save_currency_prices_to_db [usd_nbe; usd_bdc] 20)
              (committed [Main.standardize usd_bdc] 10 empty_db) None))
    = price_history (committed [Main.standardize usd_bdc] 10 empty_db) ++ [e1; e2].
Proof.
  destruct (X6_two_quotes_of_one_key_fill_the_history
              (committed [Main.standardize usd_bdc] 10 empty_db) 20) as [_ H].
  destruct (H usd_nbe usd_bdc) as (e1 & e2 & H1 & _).
  - reflexivity.
  - discriminate.
  - left. discriminate.
  - eexists. vm_compute. split; [reflexivity|]. split; reflexivity.
  - exists e1, e2. exact H1.
Defined.

Lemma X7_observations_without_karat_witness :
  exists row,
    snapshot bare (committed [bare] 10 empty_db) = Some row
    /\ UnifiedPrice.key row = "None".
Proof.
  destruct (X7_observations_without_karat empty_db 10 bare) as (_ & _ & H & _).
  destruct H as (row & H1 & H2 & _); [reflexivity|reflexivity|].
  exists row. split; assumption.
Defined.

Lemma X9_setting_keys_stay_distinct_witness :
  NoDup (map Setting.key
           (settings (snd (AdminSettings.update_setting_request reordered_db None
                             "price_offset" "5"))))
  /\ NoDup (map Setting.key
              (settings (snd (Admin.manual_price_request reordered_db None "21"
                                (Some 4500) 11)))).
Proof.
  destruct (X9_setting_keys_stay_distinct reordered_db None) as [H1 H2].
  - vm_compute. repeat constructor. intros [].
  - split; [apply H1|apply H2].
Defined.

Lemma X12_removed_override_leaves_its_price_witness :
  first_setting "manual_price_21"
    (snd (Admin.manual_price_request
            (snd (Admin.manual_price_request two_karat_db None "21" (Some 4500) 11))
            None "21" None 12)) = None
  /\ exists items g,
       fst (Gold.prices_request
              (snd (Admin.manual_price_request
                      (snd (Admin.manual_price_request two_karat_db None "21"
                              (Some 4500) 11))
                      None "21" None 12)) None) = Ok items
       /\ In g items
       /\ GoldPrice.id g = 1
       /\ GoldPrice.karat g = "21"
       /\ GoldPrice.sell_price g = 4500 + 0
       /\ GoldPrice.buy_price g = 4500 + 0
       /\ GoldPrice.source_status g = "Manual".
Proof.
  apply (X12_removed_override_leaves_its_price two_karat_db "21" 4500 0 11 12
           (UnifiedPrice.mk 1 "local" "egypt" "21" 100 90 "EGP" (Some "GoldEra")
              "Primary" 10 "active")).
  - vm_compute. constructor.
  - vm_compute. reflexivity.
  - vm_compute. reflexivity.
Defined.

Lemma X13_country_observations_are_well_formed_witness :
  exists p c k code,
    In p (Country.get_all_country_prices kuwait_web 5)
    /\ In c Country.target_countries
    /\ Country.CURRENCY_MAP c = Some code
    /\ 0 < sell_price p
    /\ ident p = ("international", c, k).
Proof.
  destruct (X13_country_observations_are_well_formed kuwait_web 5
              (mkobs (Some "International") (Some "kuwait") (Some "21") (Some "KWD")
                 25 25 (Some "GoldPriceToday") (Some "International") 5))
    as (c & k & code & Hc & Hm & _ & _ & Hp & _ & Hi).
  - vm_compute. left. reflexivity.
  - eexists _, c, k, code. split; [vm_compute; left; reflexivity|].
    split; [exact Hc|]. split; [exact Hm|]. split; [exact Hp|exact Hi].
Defined.

Lemma X14_loops_write_disjoint_rows_witness :
  exists r,
    nth_error (unified_prices mixed_db) 2 = Some r
    /\ nth_error
         (unified_prices (snd (Main.run_scraper_periodically mixed_db None None
                                 second_web 20))) 2
       = Some r.
Proof.
  eexists. split; [vm_compute; reflexivity|].
  destruct (X14_loops_write_disjoint_rows mixed_db None 2
              (UnifiedPrice.mk 3 "international" "kuwait" "21" 25 25 "KWD"
                 (Some "GoldPriceToday") "International" 6 "active")) as [H _].
  - vm_compute. reflexivity.
  - apply H. discriminate.
Defined.


Lemma X16_currency_sources_are_seeded_once_witness :
  Main.iteration CurrencyAdmin.get_currency_sources empty_db None
  = (Ok [CurrencySourceSettings.mk "ta3weem" true 1;
         CurrencySourceSettings.mk "egrates" true 2;
         CurrencySourceSettings.mk "banklive" true 3], seeded empty_db)
  /\ snd (Main.iteration CurrencyAdmin.get_currency_sources banklive_first_db None)
     = banklive_first_db.
Proof.
  split.
  - destruct (X16_currency_sources_are_seeded_once empty_db None) as [_ H].
    destruct (H eq_refl) as [H1 _]. exact H1.
  - destruct (X16_currency_sources_are_seeded_once banklive_first_db None) as [H _].
    destruct H as [H1 _]; [discriminate|exact H1].
Defined.

Lemma X17_currency_source_update_is_local_witness :
  nth_error
    (currency_source_settings
       (snd (Main.iteration
               (CurrencyAdmin.update_currency_source "egrates" None (Some 1))
               banklive_first_db None))) 2
  = Some (CurrencySourceSettings.mk "banklive" true 2).
Proof.
  destruct (X17_currency_source_update_is_local banklive_first_db None "egrates" None
              (Some 1)) as (_ & _ & _ & H & _).
  apply H; [reflexivity|discriminate].
Defined.

Lemma X18_disabled_source_leaves_the_order_witness :
  ~ In "egrates"
      (Currency._get_enabled_sources_in_order
         (Some (SessionLocal
                  (snd (Main.iteration
                          (CurrencyAdmin.update_currency_source "egrates" (Some false) None)
                          banklive_first_db None)) None))).
Proof.
  destruct (X18_disabled_source_leaves_the_order banklive_first_db "egrates") as [H _].
  - vm_compute. repeat constructor; simpl; intuition discriminate.
  - vm_compute. right. left. reflexivity.
  - apply H. exists (CurrencySourceSettings.mk "banklive" true 2).
    split; [right; right; left; reflexivity|]. split; [reflexivity|discriminate].
Defined.




Lemma X23_gold_result_has_one_source_witness :
  exists pre a,
    Engine.attempted (snd (Engine.get_latest_prices empty_db None second_web 7))
    = pre ++ [a]
    /\ forall p, In p (fst (Engine.get_latest_prices empty_db None second_web 7)) ->
         o_source p = Some (Engine.NAME a)
         /\ o_source_status p
            = Some (match pre with [] => "Primary" | _ => "Fallback" end).
Proof.
  destruct (X23_gold_result_has_one_source empty_db None second_web 7) as (_ & _ & H).
  destruct H as (pre & a & H1 & H2); [vm_compute; discriminate|].
  exists pre, a. split; [exact H1|].
  intros p Hp. destruct (H2 p Hp) as (Hs & Hst & _). split; assumption.
Defined.

Lemma X24_rates_come_from_enabled_sources_witness :
  exists id bank src,
    In id (Currency._get_enabled_sources_in_order None)
    /\ (bank = "nbe" \/ bank = "bdc")
    /\ Currency.sources_map id bank = Some src
    /\ Rate.source usd_nbe = Currency.name src.
Proof.
  destruct (X24_rates_come_from_enabled_sources None mixed_web 0 usd_nbe)
    as (id & bank & src & H1 & H2 & H3 & H4 & _).
  - vm_compute. left. reflexivity.
  - exists id, bank, src. repeat (split; [assumption|]). exact H4.
Defined.

Lemma X26_sell_is_not_below_buy_witness :
  buy_price (Engine.price_dict Engine.GoldBullionSource "21" 4500 4450 7)
  <= sell_price (Engine.price_dict Engine.GoldBullionSource "21" 4500 4450 7).
Proof.
  destruct (X26_sell_is_not_below_buy 7
              (Engine.mkpage [] [Engine.mkrow "21" 4450 4500])) as [H _].
  apply (H Engine.GoldBullionSource); [discriminate|discriminate|].
  vm_compute. left. reflexivity.
Defined.

Lemma X27_scraped_country_prices_are_served_witness :
  exists q code answer,
    last_of (mkobs (Some "International") (Some "kuwait") (Some "21") (Some "KWD")
               25 25 (Some "GoldPriceToday") (Some "International") 5)
            (Country.get_all_country_prices kuwait_web 5) = Some q
    /\ Country.CURRENCY_MAP "kuwait" = Some code
    /\ fst (GoldCountry.country_request
              (snd (Country.run_country_scraper_periodically two_karat_db None
                      kuwait_web 5))
              None "kuwait") = Ok answer
    /\ PyText.dict_lookup "21" (CountryAnswer.current_prices answer)
       = Some (sell_price q, sell_price q, code).
Proof.
  apply (X27_scraped_country_prices_are_served two_karat_db kuwait_web 5
           (mkobs (Some "International") (Some "kuwait") (Some "21") (Some "KWD")
              25 25 (Some "GoldPriceToday") (Some "International") 5)).
  - vm_compute. repeat constructor; simpl; intuition discriminate.
  - intros r Hr Hof. vm_compute in Hr.
    destruct Hr as [<-|[<-|[]]]; vm_compute in Hof; discriminate Hof.
  - vm_compute. left. reflexivity.
Defined.

Lemma X8_setting_saved_and_read_back_witness :
  first_setting "gold_source_order"
    (snd (AdminSettings.update_setting_request reordered_db None "price_offset" "5"))
  = first_setting "gold_source_order" reordered_db
  /\ first_setting "price_offset"
       (snd (AdminSettings.update_setting_request reordered_db None "price_offset" "5"))
     = Some (Setting.mk "price_offset" (Some "5")).
Proof.
  destruct (X8_setting_saved_and_read_back reordered_db None "price_offset" "5")
    as (_ & H2 & H3 & _).
  split; [apply H3; discriminate|exact H2].
Defined.

